(** * Stechuhr: the recalculation engine of a personal work-time tracker

    A shallow embedding of [stechuhr/excel.py], [stechuhr/engine.py] and the
    accessors of [stechuhr/config.py], and the properties of the day
    ledger, the period aggregator and the overtime accumulator.

    Modelling conventions.
    - A worksheet is the grid of cell values of an openpyxl [Worksheet]
      together with its [max_row] and [max_column].  Cell styling
      (number formats, borders, alignment) is not observable by the
      program and is left out.
    - Python floats are read as exact rationals ([Qc]); [round(x, n)] is
      rounding to [n] decimals, halves to the even neighbour.
    - Python mutates the worksheet in place and raises exceptions: a
      mutating function returns the worksheet it leaves behind together
      with its outcome, so that what a failing call has already written
      stays visible.
    - Library functions on text ([float], [int], [str], [str.strip],
      [strptime]) are taken as an interface, [Builtins]. *)

From Stdlib Require Import ZArith QArith Qcanon Qround Lia Ascii String.
From stdpp Require Import base numbers list strings gmap pretty.

Local Open Scope Z_scope.

(** ** Numbers *)

Notation "'#' n" := (Qc_of_Z n) (at level 1, n at level 0, format "'#' n").

(** [cents n] is the decimal [n / 100]. *)
Definition cents (n : Z) : Qc := (#n / #100)%Qc.

Definition round_half_even (x : Qc) : Z :=
  let f := Qfloor x in
  let r := (x - #f)%Qc in
  if decide (r < #1 / #2)%Qc then f
  else if decide (#1 / #2 < r)%Qc then f + 1
  else if Z.even f then f else f + 1.

Definition pow10 (n : nat) : Qc := #(10 ^ Z.of_nat n).

(** [round(x, n)] *)
Definition py_round (x : Qc) (n : nat) : Qc :=
  (#(round_half_even (x * pow10 n)) / pow10 n)%Qc.

Definition Qc_abs (x : Qc) : Qc := if decide (x < #0)%Qc then (- x)%Qc else x.

(** [range(a, b)] *)
Definition range (a b : Z) : list Z := seqZ a (b - a).

(** ** Dates and times of day *)

Record date := mkDate { year : Z; month : Z; day : Z }.

Record time := mkTime { hour : Z; minute : Z; second : Z; microsecond : Z }.

Global Instance date_eq_dec : EqDecision date.
Proof. solve_decision. Defined.

Global Instance time_eq_dec : EqDecision time.
Proof. solve_decision. Defined.

(** Dates compare as the triples (year, month, day). *)
Definition date_compare (a b : date) : comparison :=
  match year a ?= year b with
  | Eq => match month a ?= month b with
          | Eq => day a ?= day b
          | c => c
          end
  | c => c
  end.

Definition date_ltb (a b : date) : bool :=
  match date_compare a b with Lt => true | _ => false end.

Definition date_gtb (a b : date) : bool := date_ltb b a.

Definition date_geb (a b : date) : bool := negb (date_ltb a b).

Definition is_leap (y : Z) : bool :=
  (y mod 4 =? 0) && (negb (y mod 100 =? 0) || (y mod 400 =? 0)).

Definition days_before_year (y : Z) : Z :=
  let p := y - 1 in p * 365 + p / 4 - p / 100 + p / 400.

Definition days_in_month (y m : Z) : Z :=
  if m =? 2 then (if is_leap y then 29 else 28)
  else if (m =? 4) || (m =? 6) || (m =? 9) || (m =? 11) then 30 else 31.

Definition days_before_month (y m : Z) : Z :=
  foldr Z.add 0 (days_in_month y <$> range 1 m).

Definition toordinal (d : date) : Z :=
  days_before_year (year d) + days_before_month (year d) (month d) + day d.

(** [date.weekday()]: Monday is 0, Sunday is 6. *)
Definition weekday (d : date) : Z := (toordinal d + 6) mod 7.

Definition pad2 (n : Z) : string :=
  if n <? 10 then "0" +:+ pretty n else pretty n.

(** [date.strftime("%d.%m.%Y")] *)
Definition strftime_dmy (d : date) : string :=
  pad2 (day d) +:+ "." +:+ pad2 (month d) +:+ "." +:+ pretty (year d).

(** Seconds since midnight. *)
Definition seconds_of_day (t : time) : Qc :=
  (#(hour t * 3600 + minute t * 60 + second t) + #(microsecond t) / #1000000)%Qc.

(** ** Cell values *)

Inductive value :=
  | VNone
  | VStr (s : string)
  | VNum (x : Qc)
  | VTime (t : time)
  | VDate (d : date)
  | VDateTime (d : date) (t : time)
  | VTimedelta (seconds : Qc).

Global Instance value_eq_dec : EqDecision value.
Proof. solve_decision. Defined.

(** Truth value of a cell value in a condition. *)
Definition truthy (v : value) : bool :=
  match v with
  | VNone => false
  | VStr s => negb (bool_decide (s = ""))
  | VNum x => negb (bool_decide (x = #0))
  | VTimedelta s => negb (bool_decide (s = #0))
  | VTime _ | VDate _ | VDateTime _ _ => true
  end.

Definition is_none (v : value) : bool :=
  match v with VNone => true | _ => false end.

(** ** Library functions on text *)

Record Builtins := {
  (** [float(s)]; [None] when it raises ValueError *)
  py_float : string -> option Qc;
  (** [int(s)]; [None] when it raises ValueError *)
  py_int : string -> option Z;
  (** [s.strip()] *)
  py_strip : string -> string;
  (** [str(v)] of a value that is not text *)
  py_repr : value -> string;
  (** [datetime.strptime(s, "%d.%m.%Y").date()]; [None] on ValueError *)
  py_strptime : string -> option date
}.

(** ** Outcomes *)

Inductive error :=
  | SummaryColumnsNotFound  (* ValueError raised by _find_summary_cols *)
  | NoOpenEntry             (* ValueError raised by write_stamp on clock-out *)
  | NotANumber.             (* float() refused a cell value *)

Inductive result (A : Type) :=
  | Ok (a : A)
  | Err (e : error).
Arguments Ok {A} a.
Arguments Err {A} e.

Global Instance error_eq_dec : EqDecision error.
Proof. solve_decision. Defined.

(** ** Worksheets *)

Record Worksheet := mkSheet {
  cells : Z -> Z -> value;
  max_row : Z;
  max_column : Z
}.

(** [ws.cell(r, c).value] *)
Definition cell (ws : Worksheet) (r c : Z) : value := cells ws r c.

(** [ws.cell(r, c, value=v)]: openpyxl assigns the value only when it is
    not None; the cell exists afterwards either way. *)
Definition set_cell (ws : Worksheet) (r c : Z) (v : value) : Worksheet :=
  {| cells := fun r' c' =>
       if (r' =? r) && (c' =? c) && negb (is_none v) then v else cells ws r' c';
     max_row := Z.max (max_row ws) r;
     max_column := Z.max (max_column ws) c |}.

(** [ws.insert_rows(idx)] *)
Definition insert_rows (ws : Worksheet) (idx : Z) : Worksheet :=
  {| cells := fun r c =>
       if r <? idx then cells ws r c
       else if r =? idx then VNone
       else cells ws (r - 1) c;
     max_row := if idx <=? max_row ws then max_row ws + 1 else max_row ws;
     max_column := max_column ws |}.

(** [ws.insert_cols(idx, amount)] *)
Definition insert_cols (ws : Worksheet) (idx amount : Z) : Worksheet :=
  {| cells := fun r c =>
       if c <? idx then cells ws r c
       else if c <? idx + amount then VNone
       else cells ws r (c - amount);
     max_row := max_row ws;
     max_column := if idx <=? max_column ws then max_column ws + amount
                   else max_column ws |}.

Global Arguments cell : simpl never.
Global Arguments set_cell : simpl never.
Global Arguments insert_rows : simpl never.
Global Arguments insert_cols : simpl never.

(** Two worksheets that hold the same cells and extent. *)
Definition same_sheet (a b : Worksheet) : Prop :=
  (forall r c, cell a r c = cell b r c) /\
  max_row a = max_row b /\ max_column a = max_column b.

(** The cells a list of writes leaves behind. *)
Definition apply_writes (ws : Worksheet) (W : list (Z * Z * value)) : Worksheet :=
  foldl (fun ws x => set_cell ws x.1.1 x.1.2 x.2) ws W.

(** The value the last effective write of [W] puts into cell (r, c). *)
Fixpoint written (W : list (Z * Z * value)) (r c : Z) : option value :=
  match W with
  | [] => None
  | x :: W' =>
      match written W' r c with
      | Some y => Some y
      | None => if (r =? x.1.1) && (c =? x.1.2) && negb (is_none x.2) then Some x.2 else None
      end
  end.

(** Hours from one time of day to a later one, both in seconds; never
    negative. *)
Definition hours_between (ein_seconds aus_seconds : Qc) : Qc :=
  let diff := ((aus_seconds - ein_seconds) / #3600)%Qc in
  if decide (diff < #0)%Qc then #0 else diff.

Definition in_bounds (ws : Worksheet) (W : list (Z * Z * value)) : Prop :=
  Forall (fun x => x.1.1 <= max_row ws /\ x.1.2 <= max_column ws) W.

(** ** Configuration ([config.py]) *)

(** The configuration dictionary.  A key that the code reads with
    [.get(key, default)] is optional; [carry_over_balance] absent reads as
    the empty dictionary.  Its keys are years written as text. *)
Record Config := {
  travel_offset_minutes : option Z;
  expected_hours : gmap string Qc;
  auto_break_threshold_hours : option Qc;
  auto_break_deduction_minutes : option Qc;
  carry_over_balance : gmap string Qc
}.

Definition WEEKDAY_KEYS : list string :=
  ["monday"; "tuesday"; "wednesday"; "thursday"; "friday"].

Definition get_expected_hours (cfg : Config) (wd : Z) : Qc :=
  if (wd <? 0) || (4 <? wd) then #0
  else match WEEKDAY_KEYS !! Z.to_nat wd with
       | Some key => default #0 (expected_hours cfg !! key)
       | None => #0
       end.

Definition get_travel_offset (cfg : Config) : Z :=
  default 2 (travel_offset_minutes cfg).

Definition get_carry_over (cfg : Config) (y : Z) : Qc :=
  default #0 (carry_over_balance cfg !! pretty y).

(** ** Sheet layout ([excel.py]) *)

Definition MONTH_NAMES : list string :=
  ["Jan"; "Feb"; "Mar"; "Apr"; "Mai"; "Jun";
   "Jul"; "Aug"; "Sep"; "Okt"; "Nov"; "Dez"].

Definition WEEKDAY_NAMES : list string :=
  ["Mo"; "Di"; "Mi"; "Do"; "Fr"; "Sa"; "So"].

Definition DATE_COLS : Z := 2.
Definition BLOCK_WIDTH : Z := 3.
Definition INITIAL_BLOCKS : Z := 3.
Definition HEADER_ROW : Z := 1.

Definition _hours_to_fraction (hours : Qc) : Qc := (hours / #24)%Qc.

Definition _fraction_to_hours (fraction : Qc) : Qc := (fraction * #24)%Qc.

Definition _ein_col (block_num : Z) : Z :=
  DATE_COLS + (block_num - 1) * BLOCK_WIDTH + 1.

Definition _aus_col (block_num : Z) : Z := _ein_col block_num + 1.

Definition _stunden_col (block_num : Z) : Z := _ein_col block_num + 2.

Definition _get_summary_col_indices (num_blocks : Z) : Z * Z * Z * Z :=
  let status := DATE_COLS + num_blocks * BLOCK_WIDTH + 1 in
  (status, status + 1, status + 2, status + 3).

(** The three labels of the summary rows below the day rows. *)
Definition is_summary_label (v : value) : bool :=
  match v with
  | VStr s => bool_decide (s = "Summe") || bool_decide (s = "Uebertrag")
              || bool_decide (s = "Kumuliert")
  | _ => false
  end.

(** [text.split(":")] *)
Fixpoint split_colon_go (s cur : string) : list string :=
  match s with
  | EmptyString => [String.rev cur]
  | String a rest =>
      if Ascii.eqb a ":"%char then String.rev cur :: split_colon_go rest EmptyString
      else split_colon_go rest (String a cur)
  end.

Definition split_colon (s : string) : list string := split_colon_go s EmptyString.

(** The writes of [set_day_sick] on the row [row] of a sheet with [n]
    blocks, [e] being the expected hours of the row. *)
Definition sick_writes (n row : Z) (e : Qc) : list (Z * Z * value) :=
  [(row, 3 * n + 3, VStr "Krank");
   (row, 3 * n + 4, VNum (_hours_to_fraction e));
   (row, 3 * n + 6, VNum #0)].

(** The expected hours of the row are settled: the Soll cell is filled,
    or the configured hours it would be filled with read back
    unchanged (at most two decimals, less than a day). *)
Definition soll_settled (ws : Worksheet) (n row : Z) (d : date) (cfg : Config) : Prop :=
  cell ws row (3 * n + 5) <> VNone \/
  (let e := get_expected_hours cfg (weekday d) in
   py_round e 2 = e /\ (Qc_abs (_hours_to_fraction e) < #1)%Qc).

(** A workbook maps sheet names to worksheets; the data directory maps the
    stem of each [*.xlsx] file to the workbook stored in it. *)
Abbreviation Workbook := (gmap string Worksheet).
Abbreviation DataDir := (gmap string Workbook).

Section Stechuhr.

Variable py : Builtins.

(** [str(v)] *)
Definition str_of_value (v : value) : string :=
  match v with
  | VStr s => s
  | _ => py_repr py v
  end.

Definition _read_hours_value (val : value) : result Qc :=
  match val with
  | VNone => Ok #0
  | VTimedelta s => Ok (py_round (s / #3600) 2)
  | VTime t => Ok (py_round (#(hour t) + #(minute t) / #60) 2)
  | VNum v =>
      if decide (Qc_abs v < #1)%Qc then Ok (py_round (_fraction_to_hours v) 2)
      else Ok v
  | VStr s =>
      match py_float py s with
      | Some v =>
          if decide (Qc_abs v < #1)%Qc then Ok (py_round (_fraction_to_hours v) 2)
          else Ok v
      | None => Err NotANumber
      end
  | VDate _ | VDateTime _ _ => Err NotANumber
  end.

(** The loop of [_find_summary_cols] over the header columns. *)
Definition _find_summary_cols (ws : Worksheet) : result (Z * Z * Z * Z) :=
  match List.find (fun col => bool_decide (cell ws HEADER_ROW col = VStr "Status"))
                  (range 1 (max_column ws + 1)) with
  | Some col => Ok (col, col + 1, col + 2, col + 3)
  | None => Err SummaryColumnsNotFound
  end.

Definition is_ein_header (v : value) : bool :=
  truthy v && bool_decide (String.prefix "Ein" (str_of_value v) = true).

(** The [while] loop of [_count_blocks]; the column grows by three each
    turn, so [max_column] turns are enough. *)
Fixpoint count_blocks_loop (fuel : nat) (ws : Worksheet) (col count : Z) : Z :=
  match fuel with
  | O => count
  | S fuel' =>
      if col <=? max_column ws then
        if is_ein_header (cell ws HEADER_ROW col)
        then count_blocks_loop fuel' ws (col + BLOCK_WIDTH) (count + 1)
        else count
      else count
  end.

Definition _count_blocks (ws : Worksheet) : Z :=
  Z.max (count_blocks_loop (Z.to_nat (max_column ws)) ws (DATE_COLS + 1) 0)
        INITIAL_BLOCKS.

Definition date_cell_matches (d : date) (val : value) : bool :=
  match val with
  | VStr s => bool_decide (s = strftime_dmy d)
  | VDateTime d' _ => bool_decide (d' = d)
  | _ => false
  end.

Definition find_day_row (ws : Worksheet) (d : date) : option Z :=
  List.find (fun row => date_cell_matches d (cell ws row 1))
            (range (HEADER_ROW + 1) (max_row ws + 1)).

Definition _to_time (val : value) : option time :=
  match val with
  | VNone => None
  | VTime t => Some t
  | VDateTime _ t => Some t
  | VStr s =>
      let s := py_strip py s in
      if bool_decide (s = "") then None
      else match split_colon s with
           | p0 :: p1 :: _ =>
               match py_int py p0, py_int py p1 with
               | Some h, Some m =>
                   if (0 <=? h) && (h <? 24) && (0 <=? m) && (m <? 60)
                   then Some (mkTime h m 0 0) else None
               | _, _ => None
               end
           | _ => None
           end
  | _ => None
  end.

Definition _get_status_col (ws : Worksheet) : result Z :=
  match _find_summary_cols ws with
  | Ok (status_col, _, _, _) => Ok status_col
  | Err e => Err e
  end.

Definition _read_day_status (ws : Worksheet) (row_num : Z) : result string :=
  match _get_status_col ws with
  | Ok status_col =>
      let val := cell ws row_num status_col in
      Ok (if truthy val then str_of_value val else "")
  | Err e => Err e
  end.

(** The date a date cell holds, as the row loops of [fill_missing_days]
    and [iter_day_rows_with_data] read it. *)
Definition parse_date_cell (val : value) : option date :=
  match val with
  | VStr s => py_strptime py s
  | VDateTime d _ => Some d
  | VDate d => Some d
  | _ => None
  end.

(** *** Mutating the worksheet *)

(** A computation on the worksheet that Python mutates in place: it leaves
    a worksheet behind and either returns or raises. *)
Definition M (A : Type) : Type := Worksheet -> Worksheet * result A.

Definition ret {A} (a : A) : M A := fun ws => (ws, Ok a).

Definition bind {A B} (m : M A) (k : A -> M B) : M B :=
  fun ws =>
    match m ws with
    | (ws', Ok a) => k a ws'
    | (ws', Err e) => (ws', Err e)
    end.

Definition raise {A} (e : error) : M A := fun ws => (ws, Err e).

Definition gets {A} (f : Worksheet -> A) : M A := fun ws => (ws, Ok (f ws)).

Definition attempt {A} (f : Worksheet -> result A) : M A := fun ws => (ws, f ws).

Definition modify (f : Worksheet -> Worksheet) : M unit :=
  fun ws => (f ws, Ok tt).

Definition write (r c : Z) (v : value) : M unit :=
  fun ws => (set_cell ws r c v, Ok tt).

Notation "'let*' x := m 'in' k" := (bind m (fun x => k))
  (at level 10, x name, m at level 100, k at level 200, only parsing).
Notation "'let*' ' pat := m 'in' k" := (bind m (fun x => match x with pat => k end))
  (at level 10, pat pattern, m at level 100, k at level 200, only parsing).

Notation "m ;;; k" := (bind m (fun _ => k))
  (at level 100, k at level 200, only parsing, right associativity).

(** A [for] loop whose body mutates the worksheet. *)
Fixpoint for_each {A} (l : list A) (body : A -> M unit) : M unit :=
  match l with
  | [] => ret tt
  | x :: rest => body x ;;; for_each rest body
  end.

(** Where [_insert_day_row] stops its scan: at a summary label, or at the
    first text date later than the new one. *)
Definition is_insert_position (d : date) (date_val : value) : bool :=
  match date_val with
  | VStr s =>
      is_summary_label date_val ||
      match py_strptime py s with
      | Some dt => date_gtb dt d
      | None => false
      end
  | _ => false
  end.

Definition _insert_day_row (d : date) (cfg : Config) : M Z :=
  let* found := gets (fun ws =>
    List.find (fun row => is_insert_position d (cell ws row 1))
              (range (HEADER_ROW + 1) (max_row ws + 1))) in
  let* max_r := gets max_row in
  let insert_row := default (max_r + 1) found in
  modify (fun ws => insert_rows ws insert_row) ;;;
  let* '(status_col, gesamt_col, soll_col, saldo_col) := attempt _find_summary_cols in
  write insert_row 1 (VStr (strftime_dmy d)) ;;;
  write insert_row 2 (VStr (default "" (WEEKDAY_NAMES !! Z.to_nat (weekday d)))) ;;;
  let expected := get_expected_hours cfg (weekday d) in
  write insert_row soll_col (VNum (_hours_to_fraction expected)) ;;;
  (* the border loop visits the cells of columns 3 .. saldo_col *)
  write insert_row saldo_col VNone ;;;
  ret insert_row.

Definition _expand_blocks (new_block_num : Z) : M unit :=
  let* insert_col := attempt _get_status_col in
  modify (fun ws => insert_cols ws insert_col BLOCK_WIDTH) ;;;
  write HEADER_ROW insert_col (VStr ("Ein " +:+ pretty new_block_num)) ;;;
  write HEADER_ROW (insert_col + 1) (VStr ("Aus " +:+ pretty new_block_num)) ;;;
  write HEADER_ROW (insert_col + 2) (VStr ("Stunden " +:+ pretty new_block_num)).

(** The stamps of a day row, block by block. *)
Definition read_blocks (ws : Worksheet) (row_num num_blocks : Z)
  : list (Z * option time * option time) :=
  (fun b => (b, _to_time (cell ws row_num (_ein_col b)),
                _to_time (cell ws row_num (_aus_col b))))
  <$> range 1 (num_blocks + 1).

Definition first_ein (blocks : list (Z * option time * option time)) : option Z :=
  (fun x => x.1.1) <$> List.find (fun x => bool_decide (is_Some x.1.2)) blocks.

Definition last_aus (blocks : list (Z * option time * option time)) : option Z :=
  (fun x => x.1.1) <$> List.find (fun x => bool_decide (is_Some x.2)) (reverse blocks).

(** Hours between the stamps of block [b], the travel offset applied when
    [b] is the first block with an entry or the last block with an exit;
    never negative. *)
Definition block_diff (offset : Z) (first_ein_block last_aus_block : option Z)
    (b : Z) (ein aus : time) : Qc :=
  let ein_dt :=
    if bool_decide (Some b = first_ein_block)
    then (seconds_of_day ein - #(offset * 60))%Qc else seconds_of_day ein in
  let aus_dt :=
    if bool_decide (Some b = last_aus_block)
    then (seconds_of_day aus + #(offset * 60))%Qc else seconds_of_day aus in
  let diff := ((aus_dt - ein_dt) / #3600)%Qc in
  if decide (diff < #0)%Qc then #0 else diff.

(** The automatic break deduction. *)
Definition auto_break (threshold deduction_min total_work : Qc) : Qc :=
  if decide (threshold + deduction_min / #60 < total_work)%Qc
  then (total_work - deduction_min / #60)%Qc
  else if decide (threshold < total_work)%Qc then threshold
  else total_work.

Fixpoint recalculate_blocks (row_num offset : Z)
    (first_ein_block last_aus_block : option Z)
    (blocks : list (Z * option time * option time)) (total_work : Qc) : M Qc :=
  match blocks with
  | [] => ret total_work
  | (b, ein, aus) :: rest =>
      let s_col := _stunden_col b in
      match ein, aus with
      | Some e, Some a =>
          let hours := py_round (block_diff offset first_ein_block last_aus_block b e a) 4 in
          write row_num s_col (VNum (_hours_to_fraction (py_round hours 2))) ;;;
          recalculate_blocks row_num offset first_ein_block last_aus_block rest
                             (total_work + hours)%Qc
      | _, _ =>
          write row_num s_col VNone ;;;
          recalculate_blocks row_num offset first_ein_block last_aus_block rest
                             total_work
      end
  end.

Definition recalculate_day (d : date) (cfg : Config) : M unit :=
  let* found := gets (fun ws => find_day_row ws d) in
  match found with
  | None => ret tt
  | Some row_num =>
      let* num_blocks := gets _count_blocks in
      let offset := get_travel_offset cfg in
      let threshold := default #6 (auto_break_threshold_hours cfg) in
      let deduction_min := default #30 (auto_break_deduction_minutes cfg) in
      let* day_status := attempt (fun ws => _read_day_status ws row_num) in
      let is_home := bool_decide (day_status = "Home") in
      let* blocks := gets (fun ws => read_blocks ws row_num num_blocks) in
      let first_ein_block := if is_home then None else first_ein blocks in
      let last_aus_block := if is_home then None else last_aus blocks in
      let* total_work := recalculate_blocks row_num offset first_ein_block
                                       last_aus_block blocks #0 in
      let total_work := auto_break threshold deduction_min total_work in
      let* '(_, gesamt_col, soll_col, saldo_col) := attempt _find_summary_cols in
      write row_num gesamt_col (VNum (_hours_to_fraction (py_round total_work 2))) ;;;
      let* soll_raw := gets (fun ws => cell ws row_num soll_col) in
      let* expected :=
        (if is_none soll_raw then
           let expected := get_expected_hours cfg (weekday d) in
           write row_num soll_col (VNum (_hours_to_fraction expected)) ;;;
           ret expected
         else attempt (fun _ => _read_hours_value soll_raw)) in
      let saldo := py_round (total_work - expected) 2 in
      write row_num saldo_col (VNum (_hours_to_fraction saldo))
  end.

Definition write_stamp (d : date) (stamp_time : time) (stamp_type : string)
    (is_home : bool) (cfg : Config) : M unit :=
  let* found := gets (fun ws => find_day_row ws d) in
  let* row_num := match found with
             | Some r => ret r
             | None => _insert_day_row d cfg
             end in
  let* num_blocks := gets _count_blocks in
  (if bool_decide (stamp_type = "ein") then
     let* free := gets (fun ws =>
       List.find (fun b => is_none (cell ws row_num (_ein_col b)))
                 (range 1 (num_blocks + 1))) in
     let* target_block := match free with
                     | Some b => ret b
                     | None => _expand_blocks (num_blocks + 1) ;;;
                               ret (num_blocks + 1)
                     end in
     write row_num (_ein_col target_block) (VTime stamp_time) ;;;
     if target_block =? 1 then
       let* status_col := attempt _get_status_col in
       write row_num status_col (VStr (if is_home then "Home" else "Office"))
     else ret tt
   else if bool_decide (stamp_type = "aus") then
     let* open := gets (fun ws =>
       List.find (fun b => negb (is_none (cell ws row_num (_ein_col b)))
                           && is_none (cell ws row_num (_aus_col b)))
                 (reverse (range 1 (num_blocks + 1)))) in
     match open with
     | None => raise NoOpenEntry
     | Some target_block =>
         write row_num (_aus_col target_block) (VTime stamp_time)
     end
   else ret tt) ;;;
  recalculate_day d cfg.

(** The last row in [rows] whose first cell is the text [label]. *)
Definition find_label_row (ws : Worksheet) (label : string) (rows : list Z) : option Z :=
  List.find (fun row => bool_decide (cell ws row 1 = VStr label)) (reverse rows).

(** The sums of the Gesamt, Soll and Saldo columns over the data rows. *)
Fixpoint sum_data_rows (ws : Worksheet) (gesamt_col soll_col saldo_col : Z)
    (rows : list Z) (acc : Qc * Qc * Qc) : result (Qc * Qc * Qc) :=
  match rows with
  | [] => Ok acc
  | row :: rest =>
      if is_none (cell ws row 1)
      then sum_data_rows ws gesamt_col soll_col saldo_col rest acc
      else
        let '(total_gesamt, total_soll, total_saldo) := acc in
        match _read_hours_value (cell ws row gesamt_col),
              _read_hours_value (cell ws row soll_col),
              _read_hours_value (cell ws row saldo_col) with
        | Ok g, Ok s, Ok b =>
            sum_data_rows ws gesamt_col soll_col saldo_col rest
              ((total_gesamt + g)%Qc, (total_soll + s)%Qc, (total_saldo + b)%Qc)
        | Err e, _, _ | _, Err e, _ | _, _, Err e => Err e
        end
  end.

Definition recalculate_sheet_summary (y m : Z) (carry_over : Qc) (cfg : Config)
  : M Qc :=
  let* '(_, gesamt_col, soll_col, saldo_col) := attempt _find_summary_cols in
  let* rows := gets (fun ws => range (HEADER_ROW + 1) (max_row ws + 1)) in
  let* sum_row := gets (fun ws => find_label_row ws "Summe" rows) in
  let* carry_row := gets (fun ws => find_label_row ws "Uebertrag" rows) in
  let* cum_row := gets (fun ws => find_label_row ws "Kumuliert" rows) in
  match sum_row with
  | None => ret carry_over
  | Some sum_row =>
      let* '(total_gesamt, total_soll, total_saldo) :=
        attempt (fun ws => sum_data_rows ws gesamt_col soll_col saldo_col
                             (range (HEADER_ROW + 1) sum_row) (#0, #0, #0)) in
      write sum_row gesamt_col (VNum (_hours_to_fraction (py_round total_gesamt 2))) ;;;
      write sum_row soll_col (VNum (_hours_to_fraction (py_round total_soll 2))) ;;;
      write sum_row saldo_col (VNum (_hours_to_fraction (py_round total_saldo 2))) ;;;
      match carry_row with
      | Some carry_row =>
          write carry_row saldo_col (VNum (_hours_to_fraction (py_round carry_over 2)))
      | None => ret tt
      end ;;;
      let cumulative := py_round (carry_over + total_saldo) 2 in
      match cum_row with
      | Some cum_row => write cum_row saldo_col (VNum (_hours_to_fraction cumulative))
      | None => ret tt
      end ;;;
      ret cumulative
  end.

(** Whether some block of the row holds a clock-in. *)
Definition has_stamps (ws : Worksheet) (row num_blocks : Z) : bool :=
  existsb (fun b => negb (is_none (cell ws row (_ein_col b))))
          (range 1 (num_blocks + 1)).

(** The body of the row loop of [fill_missing_days]. *)
Definition fill_row (cfg : Config) (up_to_date : date)
    (gesamt_col soll_col saldo_col : Z) (row : Z) : M unit :=
  fun ws =>
    match parse_date_cell (cell ws row 1) with
    | None => (ws, Ok tt)
    | Some dt =>
        if date_geb dt up_to_date then (ws, Ok tt)
        else if has_stamps ws row (_count_blocks ws) then (ws, Ok tt)
        else if negb (is_none (cell ws row gesamt_col)) then (ws, Ok tt)
        else
          let expected := get_expected_hours cfg (weekday dt) in
          (write row gesamt_col (VNum (_hours_to_fraction expected)) ;;;
           write row soll_col (VNum (_hours_to_fraction expected)) ;;;
           write row saldo_col (VNum #0)) ws
    end.

Definition fill_missing_days (cfg : Config) (up_to_date : date) : M unit :=
  let* '(_, gesamt_col, soll_col, saldo_col) := attempt _find_summary_cols in
  let* rows := gets (fun ws => range (HEADER_ROW + 1) (max_row ws + 1)) in
  for_each rows (fill_row cfg up_to_date gesamt_col soll_col saldo_col).

(** A number cell read through [_read_hours_value], or nothing when the
    cell is empty. *)
Definition read_optional_hours (val : value) : result (option Qc) :=
  if is_none val then Ok None
  else match _read_hours_value val with
       | Ok x => Ok (Some x)
       | Err e => Err e
       end.

Fixpoint iter_rows_loop (ws : Worksheet) (gesamt_col soll_col saldo_col : Z)
    (rows : list Z) : result (list (date * option Qc * Qc * option Qc)) :=
  match rows with
  | [] => Ok []
  | row :: rest =>
      let date_val := cell ws row 1 in
      if is_none date_val then iter_rows_loop ws gesamt_col soll_col saldo_col rest
      else if is_summary_label date_val then Ok []
      else match parse_date_cell date_val with
           | None => iter_rows_loop ws gesamt_col soll_col saldo_col rest
           | Some dt =>
               match read_optional_hours (cell ws row gesamt_col),
                     _read_hours_value (cell ws row soll_col),
                     read_optional_hours (cell ws row saldo_col) with
               | Ok total_f, Ok expected_f, Ok saldo_f =>
                   match iter_rows_loop ws gesamt_col soll_col saldo_col rest with
                   | Ok results => Ok ((dt, total_f, expected_f, saldo_f) :: results)
                   | Err e => Err e
                   end
               | Err e, _, _ | _, Err e, _ | _, _, Err e => Err e
               end
           end
  end.

Definition iter_day_rows_with_data (ws : Worksheet)
  : result (list (date * option Qc * Qc * option Qc)) :=
  match _find_summary_cols ws with
  | Ok (_, gesamt_col, soll_col, saldo_col) =>
      iter_rows_loop ws gesamt_col soll_col saldo_col
                     (range (HEADER_ROW + 1) (max_row ws + 1))
  | Err e => Err e
  end.

Definition has_open_stamp (ws : Worksheet) (d : date) : bool :=
  match find_day_row ws d with
  | None => false
  | Some row_num =>
      existsb (fun b => negb (is_none (cell ws row_num (_ein_col b)))
                        && is_none (cell ws row_num (_aus_col b)))
              (range 1 (_count_blocks ws + 1))
  end.

Definition set_day_sick (d : date) (cfg : Config) : M unit :=
  let* found := gets (fun ws => find_day_row ws d) in
  match found with
  | None => ret tt
  | Some row_num =>
      let* '(status_col, gesamt_col, soll_col, saldo_col) := attempt _find_summary_cols in
      write row_num status_col (VStr "Krank") ;;;
      let* soll := gets (fun ws => cell ws row_num soll_col) in
      let expected :=
        if is_none soll then VNum (get_expected_hours cfg (weekday d)) else soll in
      let* expected_hours := attempt (fun _ => _read_hours_value expected) in
      write row_num gesamt_col (VNum (_hours_to_fraction expected_hours)) ;;;
      write row_num saldo_col (VNum #0)
  end.

(** The blocks as [calculate_current_hours] reads them: an open block is
    closed at [now]. *)
Definition read_blocks_now (ws : Worksheet) (row_num num_blocks : Z) (now : time)
  : list (Z * option time * option time) :=
  (fun x => match x with
            | (b, Some ein, None) => (b, Some ein, Some now)
            | _ => x
            end) <$> read_blocks ws row_num num_blocks.

Definition current_block_hours (offset : Z) (first_ein_block last_aus_block : option Z)
    (x : Z * option time * option time) : Qc :=
  match x with
  | (b, Some ein, Some aus) => block_diff offset first_ein_block last_aus_block b ein aus
  | _ => #0
  end.

(** [now] is the wall clock, cut to the minute. *)
Definition calculate_current_hours (ws : Worksheet) (d : date) (cfg : Config)
    (now : time) : result (option Qc) :=
  match find_day_row ws d with
  | None => Ok None
  | Some row_num =>
      let num_blocks := _count_blocks ws in
      let offset := get_travel_offset cfg in
      let threshold := default #6 (auto_break_threshold_hours cfg) in
      let deduction_min := default #30 (auto_break_deduction_minutes cfg) in
      match _read_day_status ws row_num with
      | Err e => Err e
      | Ok day_status =>
          let is_home := bool_decide (day_status = "Home") in
          let blocks := read_blocks_now ws row_num num_blocks now in
          if negb (existsb (fun x => bool_decide (is_Some x.1.2)) blocks) then Ok None
          else
            let first_ein_block := if is_home then None else first_ein blocks in
            let last_aus_block := if is_home then None else last_aus blocks in
            let total_work :=
              foldl (fun acc x =>
                       (acc + current_block_hours offset first_ein_block last_aus_block x)%Qc)
                    #0 blocks in
            Ok (Some (py_round (auto_break threshold deduction_min total_work) 2))
      end
  end.

(** ** The overtime accumulator ([engine.py]) *)

(** One call of [recalculate_sheet_summary] made by the accumulator: the
    period, the carry passed in and what the call returned. *)
Record SummaryCall := mkCall {
  call_year : Z;
  call_month : Z;
  call_carry : Qc;
  call_result : result Qc
}.

(** The loop over the year files that finds the earliest year. *)
Definition earliest_year_of (stems : list string) : option Z :=
  foldl (fun earliest stem =>
           match py_int py stem with
           | Some y =>
               match earliest with
               | None => Some y
               | Some e => if y <? e then Some y else Some e
               end
           | None => earliest
           end) None stems.

(** The carry-over configured for years before the earliest year. *)
Definition carry_before (cfg : Config) (earliest_year : Z) : Qc :=
  map_fold (fun year_str balance total_balance =>
              match py_int py year_str with
              | Some y => if y <? earliest_year then (total_balance + balance)%Qc
                          else total_balance
              | None => total_balance
              end) #0 (carry_over_balance cfg).

(** The loop over the day rows of one sheet. *)
Definition add_day_rows (up_to_date : date)
    (day_rows : list (date * option Qc * Qc * option Qc)) (total_balance : Qc) : Qc :=
  foldl (fun total_balance x =>
           let '(dt, total, expected, saldo) := x in
           if date_geb dt up_to_date then total_balance
           else match saldo, total with
                | Some saldo, _ => (total_balance + saldo)%Qc
                | None, Some total => (total_balance + (total - expected))%Qc
                | None, None => total_balance
                end) total_balance day_rows.

Definition month_name (m : Z) : string := default "" (MONTH_NAMES !! Z.to_nat (m - 1)).

(** The loop over the months of one year.  It returns the calls of
    [recalculate_sheet_summary] it made, and the workbook and running total
    it ends with unless a call raised. *)
Fixpoint months_loop (cfg : Config) (up_to_date : date) (y : Z) (months : list Z)
    (wb : Workbook) (month_carry total_balance : Qc)
  : list SummaryCall * result (Workbook * Qc) :=
  match months with
  | [] => ([], Ok (wb, total_balance))
  | m :: rest =>
      if (y =? year up_to_date) && (month up_to_date <? m)
      then ([], Ok (wb, total_balance))
      else
        match wb !! month_name m with
        | None => months_loop cfg up_to_date y rest wb month_carry total_balance
        | Some ws =>
            match fill_missing_days cfg up_to_date ws with
            | (_, Err e) => ([], Err e)
            | (ws1, Ok _) =>
                match recalculate_sheet_summary y m month_carry cfg ws1 with
                | (_, Err e) => ([mkCall y m month_carry (Err e)], Err e)
                | (ws2, Ok cumulative) =>
                    let this_call := mkCall y m month_carry (Ok cumulative) in
                    match iter_day_rows_with_data ws2 with
                    | Err e => ([this_call], Err e)
                    | Ok day_rows =>
                        let total_balance := add_day_rows up_to_date day_rows total_balance in
                        let '(calls, r) :=
                          months_loop cfg up_to_date y rest (<[month_name m := ws2]> wb)
                                      cumulative total_balance in
                        (this_call :: calls, r)
                    end
                end
            end
        end
  end.

(** The loop over the years; a workbook is saved when its year is done. *)
Fixpoint years_loop (cfg : Config) (up_to_date : date) (years : list Z)
    (data_dir : DataDir) (total_balance : Qc)
  : DataDir * list SummaryCall * result Qc :=
  match years with
  | [] => (data_dir, [], Ok total_balance)
  | y :: rest =>
      match data_dir !! pretty y with
      | None => years_loop cfg up_to_date rest data_dir total_balance
      | Some wb =>
          let year_carry := get_carry_over cfg y in
          match months_loop cfg up_to_date y (range 1 13) wb year_carry total_balance with
          | (calls, Err e) => (data_dir, calls, Err e)
          | (calls, Ok (wb', total_balance)) =>
              let '(data_dir', calls', r) :=
                years_loop cfg up_to_date rest (<[pretty y := wb']> data_dir)
                           total_balance in
              (data_dir', calls ++ calls', r)
          end
      end
  end.

(** [calculate_overtime_balance], with the data directory it leaves behind
    and the calls of [recalculate_sheet_summary] it made. *)
Definition calculate_overtime_balance (data_dir : DataDir) (cfg : Config)
    (up_to_date : date) : DataDir * list SummaryCall * result Qc :=
  match earliest_year_of (map_to_list data_dir).*1 with
  | None => (data_dir, [], Ok #0)
  | Some earliest_year =>
      let total_balance := carry_before cfg earliest_year in
      let '(data_dir', calls, r) :=
        years_loop cfg up_to_date (range earliest_year (year up_to_date + 1))
                   data_dir total_balance in
      (data_dir', calls,
       match r with
       | Ok total_balance => Ok (py_round total_balance 2)
       | Err e => Err e
       end)
  end.

(** ** Reading the recalculation as a list of writes *)

(** The header of a sheet with [n] stamp blocks, as [_create_month_sheet]
    and [_expand_blocks] lay it out. *)
Definition header_layout (ws : Worksheet) (n : Z) : Prop :=
  3 <= n /\
  (forall b, 1 <= b <= n -> is_ein_header (cell ws HEADER_ROW (_ein_col b)) = true) /\
  (forall c, 1 <= c < 3 * n + 3 -> cell ws HEADER_ROW c <> VStr "Status") /\
  cell ws HEADER_ROW (3 * n + 3) = VStr "Status" /\
  3 * n + 6 <= max_column ws /\
  HEADER_ROW <= max_row ws.

(** The hours [set_day_sick] takes as the expected hours of a row. *)
Definition sick_expected (ws : Worksheet) (n row : Z) (d : date) (cfg : Config) : result Qc :=
  let soll := cell ws row (3 * n + 5) in
  _read_hours_value
    (if is_none soll then VNum (get_expected_hours cfg (weekday d)) else soll).

(** What [recalculate_day] stores as the hours of a block. *)
Definition block_stunden (offset : Z) (first_ein_block last_aus_block : option Z)
    (x : Z * option time * option time) : value :=
  match x with
  | (b, Some e, Some a) =>
      VNum (_hours_to_fraction
              (py_round (py_round (block_diff offset first_ein_block last_aus_block b e a) 4) 2))
  | _ => VNone
  end.

Definition stunden_writes (row_num offset : Z) (first_ein_block last_aus_block : option Z)
    (blocks : list (Z * option time * option time)) : list (Z * Z * value) :=
  (fun x => (row_num, _stunden_col x.1.1,
             block_stunden offset first_ein_block last_aus_block x)) <$> blocks.

(** The hours of the complete blocks, added to [total_work]. *)
Definition worked_hours (offset : Z) (first_ein_block last_aus_block : option Z)
    (blocks : list (Z * option time * option time)) (total_work : Qc) : Qc :=
  foldl (fun acc x =>
           match x with
           | (b, Some e, Some a) =>
               (acc + py_round (block_diff offset first_ein_block last_aus_block b e a) 4)%Qc
           | _ => acc
           end) total_work blocks.

(** The status text of a day row. *)
Definition day_status (ws : Worksheet) (n row_num : Z) : string :=
  let val := cell ws row_num (3 * n + 3) in
  if truthy val then str_of_value val else "".

(** The first block with an entry and the last block with an exit, on a
    day that is not a Home day. *)
Definition offset_blocks (ws : Worksheet) (n row_num : Z) : option Z * option Z :=
  let blocks := read_blocks ws row_num n in
  if bool_decide (day_status ws n row_num = "Home") then (None, None)
  else (first_ein blocks, last_aus blocks).

(** The total of the day after the break deduction. *)
Definition day_total (ws : Worksheet) (n row_num : Z) (cfg : Config) : Qc :=
  let '(first, last) := offset_blocks ws n row_num in
  auto_break (default #6 (auto_break_threshold_hours cfg))
             (default #30 (auto_break_deduction_minutes cfg))
             (worked_hours (get_travel_offset cfg) first last
                           (read_blocks ws row_num n) #0).

(** The writes of [recalculate_day] on the row [row_num] of a sheet with
    [n] blocks, and its outcome. *)
Definition recalc_writes (ws : Worksheet) (n row_num : Z) (d : date) (cfg : Config)
  : list (Z * Z * value) * result unit :=
  let '(first, last) := offset_blocks ws n row_num in
  let total_work := day_total ws n row_num cfg in
  let W := stunden_writes row_num (get_travel_offset cfg) first last
                          (read_blocks ws row_num n)
           ++ [(row_num, 3 * n + 4, VNum (_hours_to_fraction (py_round total_work 2)))] in
  let soll_raw := cell ws row_num (3 * n + 5) in
  if is_none soll_raw then
    let expected := get_expected_hours cfg (weekday d) in
    (W ++ [(row_num, 3 * n + 5, VNum (_hours_to_fraction expected));
           (row_num, 3 * n + 6,
            VNum (_hours_to_fraction (py_round (total_work - expected) 2)))], Ok tt)
  else
    match _read_hours_value soll_raw with
    | Ok expected =>
        (W ++ [(row_num, 3 * n + 6,
                VNum (_hours_to_fraction (py_round (total_work - expected) 2)))], Ok tt)
    | Err e => (W, Err e)
    end.

Definition entry_of (ws : Worksheet) (row b : Z) : option time :=
  _to_time (cell ws row (_ein_col b)).

Definition exit_of (ws : Worksheet) (row b : Z) : option time :=
  _to_time (cell ws row (_aus_col b)).

(** [b] is the first block, in block order, that holds an entry. *)
Definition is_first_entry (ws : Worksheet) (n row b : Z) : Prop :=
  1 <= b <= n /\ is_Some (entry_of ws row b) /\
  forall j, 1 <= j < b -> entry_of ws row j = None.

(** [b] is the last block, in block order, that holds an exit. *)
Definition is_last_exit (ws : Worksheet) (n row b : Z) : Prop :=
  1 <= b <= n /\ is_Some (exit_of ws row b) /\
  forall j, b < j <= n -> exit_of ws row j = None.

End Stechuhr.

(** ** A reading of the library interface, and sheets to run the model on *)

Definition digit_value (a : ascii) : option Z :=
  let n := Z.of_nat (nat_of_ascii a) in
  if (48 <=? n) && (n <=? 57) then Some (n - 48) else None.

Fixpoint digits_value (s : string) (acc : Z) : option Z :=
  match s with
  | EmptyString => Some acc
  | String a rest =>
      match digit_value a with
      | Some k => digits_value rest (10 * acc + k)
      | None => None
      end
  end.

(** Text made of decimal digits only. *)
Definition int_of_digits (s : string) : option Z :=
  match s with
  | EmptyString => None
  | _ => digits_value s 0
  end.

(** Text of the shape [dd.mm.yyyy]. *)
Definition date_of_dmy (s : string) : option date :=
  if bool_decide (String.length s = 10%nat) then
    match int_of_digits (String.substring 0 2 s),
          int_of_digits (String.substring 3 2 s),
          int_of_digits (String.substring 6 4 s) with
    | Some d, Some m, Some y =>
        if bool_decide (String.substring 2 1 s = ".")
           && bool_decide (String.substring 5 1 s = ".")
           && (1 <=? m) && (m <=? 12) && (1 <=? d) && (d <=? days_in_month y m)
           && (1 <=? y)
        then Some (mkDate y m d) else None
    | _, _, _ => None
    end
  else None.

(** The library functions on the plain texts the program itself writes:
    digits for numbers, [dd.mm.yyyy] for dates, no surrounding blanks. *)
Definition plain : Builtins :=
  {| py_float := fun s => Qc_of_Z <$> int_of_digits s;
     py_int := int_of_digits;
     py_strip := fun s => s;
     py_repr := fun _ => "";
     py_strptime := date_of_dmy |}.

(** The worksheet that holds the given rows of values, first row first. *)
Definition sheet_of_rows (rows : list (list value)) : Worksheet :=
  {| cells := fun r c =>
       if (1 <=? r) && (1 <=? c)
       then default VNone (rows !! Z.to_nat (r - 1) ≫= fun row => row !! Z.to_nat (c - 1))
       else VNone;
     max_row := Z.of_nat (length rows);
     max_column := foldr Z.max 0 ((fun row => Z.of_nat (length row)) <$> rows) |}.

(** The header row that [_create_month_sheet] writes. *)
Definition header3 : list value :=
  VStr <$> ["Datum"; "Tag"; "Ein 1"; "Aus 1"; "Stunden 1"; "Ein 2"; "Aus 2"; "Stunden 2";
            "Ein 3"; "Aus 3"; "Stunden 3"; "Status"; "Gesamt"; "Soll"; "Saldo"].

(** A fresh day row: date, weekday name, and expected hours in the Soll
    column. *)
Definition fresh_row (d : string) (wd : string) (soll : Qc) : list value :=
  [VStr d; VStr wd] ++ replicate 11 VNone ++ [VNum (_hours_to_fraction soll); VNone].

Definition default_config : Config :=
  {| travel_offset_minutes := Some 2;
     expected_hours := list_to_map ((fun k => (k, #8)) <$> WEEKDAY_KEYS);
     auto_break_threshold_hours := Some #6;
     auto_break_deduction_minutes := Some #30;
     carry_over_balance := ∅ |}.

Definition t0900 : time := mkTime 9 0 0 0.
Definition t1700 : time := mkTime 17 0 0 0.

Definition stamped_row (status : string) : list value :=
  [VStr "02.01.2023"; VStr "Mo"; VTime t0900; VTime t1700] ++ replicate 7 VNone
  ++ [VStr status; VNone; VNum (_hours_to_fraction #8); VNone].

Definition office_day : Worksheet := sheet_of_rows [header3; stamped_row "Office"].
Definition home_day : Worksheet := sheet_of_rows [header3; stamped_row "Home"].
Definition monday : date := mkDate 2023 1 2.

(** The Office day after the Sick override. *)
Definition sick_day : Worksheet := (set_day_sick plain monday default_config office_day).1.

Global Instance result_eq_dec {A} `{EqDecision A} : EqDecision (result A).
Proof. solve_decision. Defined.

Global Instance SummaryCall_eq_dec : EqDecision SummaryCall.
Proof. solve_decision. Defined.

Definition summary_rows : list (list value) :=
  [[VStr "Summe"]; [VStr "Uebertrag"]; [VStr "Kumuliert"]].

(** A day row with a stored total, 8 expected hours and the balance. *)
Definition worked_row (d wd : string) (total : Qc) : list value :=
  [VStr d; VStr wd] ++ replicate 9 VNone
  ++ [VStr "Office"; VNum (_hours_to_fraction total); VNum (_hours_to_fraction #8);
      VNum (_hours_to_fraction (total - #8))].

Definition month_sheet (rows : list (list value)) : Worksheet :=
  sheet_of_rows (header3 :: rows ++ summary_rows).

(** Tracking that starts in 2023: one January day, 2 h over. *)
Definition tracked_from_2023 : DataDir :=
  {[ "2023" := {[ "Jan" := month_sheet [worked_row "02.01.2023" "Mo" #10] ]} ]}.

(** Tracking that starts in 2024: one January day, 2 h over. *)
Definition tracked_from_2024 : DataDir :=
  {[ "2024" := {[ "Jan" := month_sheet [worked_row "02.01.2024" "Di" #10] ]} ]}.

Definition carry_2023 : Config :=
  {| travel_offset_minutes := Some 2;
     expected_hours := list_to_map ((fun k => (k, #8)) <$> WEEKDAY_KEYS);
     auto_break_threshold_hours := Some #6;
     auto_break_deduction_minutes := Some #30;
     carry_over_balance := {[ "2023" := #5 ]} |}.

(** Two tracked years: December 2023 ends 1 h over, January 2024 has one
    untouched workday; no carry-over is configured. *)
Definition two_years : DataDir :=
  {[ "2023" := {[ "Dez" := month_sheet [worked_row "29.12.2023" "Fr" #9] ]};
     "2024" := {[ "Jan" := month_sheet [fresh_row "02.01.2024" "Di" #8] ]} ]}.

Definition tuesday : date := mkDate 2023 1 3.

(** A Monday row whose three entry slots are taken. *)
Definition full_day : Worksheet :=
  sheet_of_rows
    [header3;
     [VStr "02.01.2023"; VStr "Mo"; VTime t0900; VTime (mkTime 10 0 0 0); VNone;
      VTime (mkTime 11 0 0 0); VTime (mkTime 12 0 0 0); VNone;
      VTime (mkTime 13 0 0 0); VTime t1700; VNone;
      VStr "Home"; VNone; VNum (_hours_to_fraction #8); VNone]].

(** An untouched Monday. *)
Definition blank_day : Worksheet :=
  sheet_of_rows [header3; fresh_row "02.01.2023" "Mo" #8].

(** A Monday row that holds an exit and no entry. *)
Definition exit_only_day : Worksheet :=
  sheet_of_rows
    [header3;
     [VStr "02.01.2023"; VStr "Mo"; VNone; VTime t1700] ++ replicate 9 VNone
     ++ [VNum (_hours_to_fraction #8); VNone]].

(** Expected hours with three decimals, and a Home day from 09:00 to 17:10
    whose Soll cell is empty. *)
Definition odd_hours : Config :=
  {| travel_offset_minutes := Some 2;
     expected_hours := list_to_map ((fun k => (k, #7444 / #1000)%Qc) <$> WEEKDAY_KEYS);
     auto_break_threshold_hours := Some #6;
     auto_break_deduction_minutes := Some #30;
     carry_over_balance := ∅ |}.


Definition unsettled_day : Worksheet :=
  sheet_of_rows
    [header3;
     [VStr "02.01.2023"; VStr "Mo"; VTime t0900; VTime (mkTime 17 10 0 0)]
     ++ replicate 7 VNone ++ [VStr "Home"; VNone; VNone; VNone]].

(** ** More of the interface: configuration, sheet creation, display *)

(** [set_carry_over]: the balance, rounded to four decimals, is stored
    under the year written as text.  Saving the configuration file is
    left out. *)
Definition set_carry_over (cfg : Config) (y : Z) (balance : Qc) : Config :=
  {| travel_offset_minutes := travel_offset_minutes cfg;
     expected_hours := expected_hours cfg;
     auto_break_threshold_hours := auto_break_threshold_hours cfg;
     auto_break_deduction_minutes := auto_break_deduction_minutes cfg;
     carry_over_balance := <[pretty y := py_round balance 4]> (carry_over_balance cfg) |}.

(** [_fmt_hours] of [cli.py]: decimal hours as H:MM. *)
Definition _fmt_hours (value : Qc) : string :=
  let sign := if decide (value < #0)%Qc then "-" else "" in
  let total_minutes := round_half_even (Qc_abs value * #60) in
  let h := total_minutes / 60 in
  let m := total_minutes mod 60 in
  sign +:+ pretty h +:+ ":" +:+ pad2 m.

(** A worksheet that openpyxl has just created. *)
Definition new_sheet : Worksheet :=
  {| cells := fun _ _ => VNone; max_row := 1; max_column := 1 |}.

(** The headers [_create_month_sheet] writes. *)
Definition month_headers : list string :=
  ["Datum"; "Tag"]
  ++ concat ((fun b => ["Ein " +:+ pretty b; "Aus " +:+ pretty b; "Stunden " +:+ pretty b])
             <$> range 1 (INITIAL_BLOCKS + 1))
  ++ ["Status"; "Gesamt"; "Soll"; "Saldo"].

Definition header_writes : list (Z * Z * value) :=
  imap (fun i h => (HEADER_ROW, Z.of_nat i + 1, VStr h)) month_headers.

(** The cells [_create_month_sheet] sets up for one day; the loop over
    the columns 3 .. saldo_col that draws the borders creates those
    cells. *)
Definition day_row_writes (cfg : Config) (d : date) (row : Z) : list (Z * Z * value) :=
  let '(_, _, soll_col, saldo_col) := _get_summary_col_indices INITIAL_BLOCKS in
  [(row, 1, VStr (strftime_dmy d));
   (row, 2, VStr (default "" (WEEKDAY_NAMES !! Z.to_nat (weekday d))));
   (row, soll_col, VNum (_hours_to_fraction (get_expected_hours cfg (weekday d))));
   (row, saldo_col, VNone)].

(** The loop over the days of the month: a row for each day with expected
    hours above 0.  It returns the writes and the row after the last day
    row. *)
Fixpoint month_rows (cfg : Config) (y m : Z) (days : list Z) (row : Z)
  : list (Z * Z * value) * Z :=
  match days with
  | [] => ([], row)
  | day_num :: rest =>
      let d := mkDate y m day_num in
      if decide (get_expected_hours cfg (weekday d) <= #0)%Qc
      then month_rows cfg y m rest row
      else let '(W, row') := month_rows cfg y m rest (row + 1) in
           (day_row_writes cfg d row ++ W, row')
  end.

(** The three summary rows, a blank row below the last day row. *)
Definition summary_row_writes (row : Z) : list (Z * Z * value) :=
  let '(_, gesamt_col, soll_col, saldo_col) := _get_summary_col_indices INITIAL_BLOCKS in
  let summary_start := row + 1 in
  [(summary_start, 1, VStr "Summe");
   (summary_start, gesamt_col, VNone); (summary_start, soll_col, VNone);
   (summary_start, saldo_col, VNone);
   (summary_start + 1, 1, VStr "Uebertrag"); (summary_start + 1, saldo_col, VNone);
   (summary_start + 2, 1, VStr "Kumuliert"); (summary_start + 2, saldo_col, VNone)].

(** [_create_month_sheet], as the worksheet it returns. *)
Definition _create_month_sheet (y m : Z) (cfg : Config) : Worksheet :=
  let '(W, row) := month_rows cfg y m (range 1 (days_in_month y m + 1)) (HEADER_ROW + 1) in
  apply_writes new_sheet (header_writes ++ W ++ summary_row_writes row).

(** [ensure_workbook] on the data directory.  The directory holds each
    file as [load_workbook] reads it, and [saved_as wb] is what is read
    from the file that [wb.save] writes: openpyxl does not read every cell
    back as it was written (a number in a cell of the format [[h]:mm]
    comes back as a duration).  When the file of the year exists the
    workbook read from it is returned; else a new workbook with the twelve
    month sheets is saved and returned as it is in memory. *)
Definition ensure_workbook (saved_as : Workbook -> Workbook)
    (data_dir : DataDir) (y : Z) (cfg : Config) : DataDir * Workbook :=
  match data_dir !! pretty y with
  | Some wb => (data_dir, wb)
  | None =>
      let wb : Workbook :=
        foldl (fun wb m => <[month_name m := _create_month_sheet y m cfg]> wb)
              ∅ (range 1 13) in
      (<[pretty y := saved_as wb]> data_dir, wb)
  end.

(** A reading of saving and loading for workbooks whose numbers all carry
    the format [[h]:mm], as those of a new month sheet do: the numbers
    come back as durations in seconds, everything else as it was. *)
Definition durations_read_back (wb : Workbook) : Workbook :=
  (fun ws =>
     {| cells := fun r c =>
          match cell ws r c with
          | VNum x => VTimedelta (x * #86400)
          | v => v
          end;
        max_row := max_row ws;
        max_column := max_column ws |}) <$> wb.

(** ** Reading a day back ([read_day_row]) *)

(** The dataclasses [StampBlock] and [DayRow]; the fields carry a prefix
    where the source name is taken. *)
Record StampBlock := mkStampBlock {
  block_ein : option time;
  block_aus : option time;
  block_hours : option Qc
}.

Record DayRow := mkDayRow {
  row_date : date;
  weekday_name : string;
  row_blocks : list StampBlock;
  row_status : string;
  row_total : option Qc;
  row_expected : Qc;
  row_balance : option Qc;
  row_num : Z
}.

Global Instance StampBlock_eq_dec : EqDecision StampBlock.
Proof. solve_decision. Defined.

Global Instance DayRow_eq_dec : EqDecision DayRow.
Proof. solve_decision. Defined.

Section ReadDay.
Variable py : Builtins.

(** [str(val or "")] *)
Definition text_or_empty (val : value) : string :=
  if truthy val then str_of_value py val else "".

(** The loop over the blocks: a block is listed when it holds an entry or
    an exit. *)
Fixpoint read_stamp_blocks (ws : Worksheet) (row_num : Z) (blocks : list Z)
  : result (list StampBlock) :=
  match blocks with
  | [] => Ok []
  | b :: rest =>
      let ein_time := _to_time py (cell ws row_num (_ein_col b)) in
      let aus_time := _to_time py (cell ws row_num (_aus_col b)) in
      if bool_decide (is_Some ein_time) || bool_decide (is_Some aus_time) then
        match read_optional_hours py (cell ws row_num (_stunden_col b)) with
        | Ok hours_val =>
            match read_stamp_blocks ws row_num rest with
            | Ok l => Ok (mkStampBlock ein_time aus_time hours_val :: l)
            | Err e => Err e
            end
        | Err e => Err e
        end
      else read_stamp_blocks ws row_num rest
  end.

Definition read_day_row (ws : Worksheet) (d : date) (cfg : Config)
  : result (option DayRow) :=
  match find_day_row ws d with
  | None => Ok None
  | Some row_num =>
      match read_stamp_blocks ws row_num (range 1 (_count_blocks py ws + 1)) with
      | Err e => Err e
      | Ok blocks =>
          match _find_summary_cols ws with
          | Err e => Err e
          | Ok (status_col, gesamt_col, soll_col, saldo_col) =>
              let status_val := text_or_empty (cell ws row_num status_col) in
              let weekday_val := text_or_empty (cell ws row_num 2) in
              match read_optional_hours py (cell ws row_num gesamt_col),
                    _read_hours_value py (cell ws row_num soll_col),
                    read_optional_hours py (cell ws row_num saldo_col) with
              | Ok total, Ok expected, Ok balance =>
                  Ok (Some (mkDayRow d weekday_val blocks status_val total expected
                                     balance row_num))
              | Err e, _, _ | _, Err e, _ | _, _, Err e => Err e
              end
          end
      end
  end.

End ReadDay.

(** January 2023 with two worked days. *)
Definition two_days : Worksheet :=
  month_sheet [worked_row "02.01.2023" "Mo" #10; worked_row "04.01.2023" "Mi" #9].

(** A data directory that also holds a file that is no year. *)
Definition with_notes : DataDir := <["notes" := ∅]> two_years.

(** * Properties *)

(** Closed equalities between cell values, numbers and dates are decided by
    evaluation. *)
Ltac by_eval := apply (bool_decide_unpack _); vm_compute; exact I.

Section Foundations.

Variable py : Builtins.

Lemma range_nil a b : b <= a -> range a b = [].
Proof. intros. unfold range, seqZ. replace (Z.to_nat (b - a)) with 0%nat by lia. done. Qed.

Lemma range_cons a b : a < b -> range a b = a :: range (a + 1) b.
Proof.
  intros. unfold range. rewrite seqZ_cons by lia. f_equal.
  f_equal; lia.
Qed.

Lemma range_snoc a b : a < b -> range a b = range a (b - 1) ++ [b - 1].
Proof.
  intros. unfold range.
  replace (b - a) with ((b - 1 - a) + 1) by lia.
  rewrite seqZ_app by lia. simpl. do 2 f_equal. 
  rewrite seqZ_cons by lia. simpl. f_equal. lia.
Qed.

Lemma elem_of_range a b k : k ∈ range a b <-> a <= k < b.
Proof. unfold range. rewrite elem_of_seqZ. lia. Qed.

Lemma find_first {A} (f : A -> bool) l1 x l2 :
  Forall (fun y => f y = false) l1 -> f x = true -> List.find f (l1 ++ x :: l2) = Some x.
Proof.
  induction 1 as [|y l1 Hy _ IH]; simpl; intros Hx.
  - by rewrite Hx.
  - rewrite Hy. auto.
Qed.

Lemma find_none_Forall {A} (f : A -> bool) l :
  List.find f l = None <-> Forall (fun y => f y = false) l.
Proof.
  induction l as [|y l IH]; simpl.
  - split; auto.
  - destruct (f y) eqn:E.
    + split; [done|]. inversion 1; congruence.
    + rewrite IH. split; [by constructor|]. by inversion 1.
Qed.

Lemma find_some_split {A} (f : A -> bool) l x :
  List.find f l = Some x ->
  exists l1 l2, l = l1 ++ x :: l2 /\ Forall (fun y => f y = false) l1 /\ f x = true.
Proof.
  induction l as [|y l IH]; simpl; [done|].
  destruct (f y) eqn:E.
  - intros [= ->]. exists [], l. auto.
  - intros H. destruct (IH H) as (l1 & l2 & -> & ? & ?).
    exists (y :: l1), l2. split; [done|]. split; [by constructor|done].
Qed.

Lemma range_split a b k : a <= k < b -> range a b = range a k ++ k :: range (k + 1) b.
Proof.
  intros. unfold range.
  replace (b - a) with ((k - a) + (b - k)) by lia.
  rewrite seqZ_app by lia. f_equal.
  replace (a + (k - a)) with k by lia.
  rewrite seqZ_cons by lia. f_equal. f_equal; lia.
Qed.

Lemma find_range_first (f : Z -> bool) a b k :
  a <= k < b -> f k = true -> (forall j, a <= j < k -> f j = false) ->
  List.find f (range a b) = Some k.
Proof.
  intros Hk Hf Hlt. rewrite (range_split a b k) by done.
  apply find_first; [|done].
  apply Forall_forall. intros j Hj%elem_of_range. auto.
Qed.

Lemma find_range_none (f : Z -> bool) a b :
  (forall j, a <= j < b -> f j = false) -> List.find f (range a b) = None.
Proof.
  intros H. apply find_none_Forall, Forall_forall. intros j Hj%elem_of_range. auto.
Qed.

Lemma find_range_some (f : Z -> bool) a b k :
  List.find f (range a b) = Some k ->
  a <= k < b /\ f k = true /\ forall j, a <= j < k -> f j = false.
Proof.
  remember (Z.to_nat (b - a)) as n eqn:Hn. revert a Hn.
  induction n as [|n IH]; intros a Hn.
  - rewrite range_nil by lia. done.
  - rewrite range_cons by lia. simpl. destruct (f a) eqn:E.
    + intros [= <-]. split; [lia|]. split; [done|]. intros; lia.
    + intros H. apply IH in H as (? & ? & Hlt); [|lia].
      split; [lia|]. split; [done|]. intros j Hj.
      destruct (decide (j = a)) as [->|]; [done|]. apply Hlt. lia.
Qed.

Lemma find_rev_range_last (f : Z -> bool) a b k :
  a <= k < b -> f k = true -> (forall j, k < j < b -> f j = false) ->
  List.find f (reverse (range a b)) = Some k.
Proof.
  intros Hk Hf Hgt. rewrite (range_split a b k) by done.
  rewrite reverse_app, reverse_cons, <- app_assoc. simpl.
  apply find_first; [|done].
  apply Forall_forall. intros j Hj. rewrite elem_of_reverse in Hj. apply elem_of_range in Hj. apply Hgt. lia.
Qed.

Lemma find_rev_range_none (f : Z -> bool) a b :
  (forall j, a <= j < b -> f j = false) -> List.find f (reverse (range a b)) = None.
Proof.
  intros H. apply find_none_Forall, Forall_forall.
  intros j Hj. rewrite elem_of_reverse in Hj. apply elem_of_range in Hj. auto.
Qed.

Lemma find_rev_range_some (f : Z -> bool) a b k :
  List.find f (reverse (range a b)) = Some k ->
  a <= k < b /\ f k = true /\ forall j, k < j < b -> f j = false.
Proof.
  intros H.
  assert (Hin : k ∈ range a b /\ f k = true).
  { apply find_some in H as [Hin ?]. split; [|done].
    apply list_elem_of_In in Hin. by rewrite elem_of_reverse in Hin. }
  destruct Hin as [Hin%elem_of_range Hfk]. split; [done|]. split; [done|].
  intros j Hj. destruct (f j) eqn:E; [|done]. exfalso.
  (* take the greatest such j *)
  assert (exists m, k < m < b /\ f m = true /\ forall i, m < i < b -> f i = false)
    as (m & Hm & Hfm & Hmax).
  { clear H Hfk.
    remember (Z.to_nat (b - j)) as n eqn:Hn. revert j Hj E Hn.
    induction (lt_wf n) as [n _ IH]. intros j Hj E Hn.
    destruct (List.find f (range (j + 1) b)) as [i|] eqn:Hfind.
    - apply find_range_some in Hfind as (Hi & Hfi & _).
      apply (IH (Z.to_nat (b - i))) with i; [lia|lia|done|done].
    - exists j. split; [done|]. split; [done|].
      intros i Hi. rewrite find_none_Forall, Forall_forall in Hfind.
      apply Hfind, elem_of_range. lia. }
  rewrite (find_rev_range_last f a b m) in H by (try done; lia).
  injection H as ->. lia.
Qed.

Lemma cell_set_cell ws r c v r' c' :
  cell (set_cell ws r c v) r' c' =
  if (r' =? r) && (c' =? c) && negb (is_none v) then v else cell ws r' c'.
Proof. done. Qed.

Lemma cell_set_cell_eq ws r c v : v <> VNone -> cell (set_cell ws r c v) r c = v.
Proof.
  intros. rewrite cell_set_cell, !Z.eqb_refl. by destruct v.
Qed.

Lemma cell_set_cell_ne ws r c v r' c' :
  r' <> r \/ c' <> c -> cell (set_cell ws r c v) r' c' = cell ws r' c'.
Proof.
  intros H. rewrite cell_set_cell.
  destruct (Z.eqb_spec r' r), (Z.eqb_spec c' c); simpl; try done. lia.
Qed.

Lemma find_summary_cols_layout ws n :
  header_layout py ws n ->
  _find_summary_cols ws = Ok (3 * n + 3, 3 * n + 4, 3 * n + 5, 3 * n + 6).
Proof.
  intros (Hn & _ & Hno & Hst & Hmax & _). unfold _find_summary_cols.
  rewrite (find_range_first _ 1 _ (3 * n + 3)).
  - replace (3 * n + 3 + 1) with (3 * n + 4) by lia.
    replace (3 * n + 3 + 2) with (3 * n + 5) by lia.
    replace (3 * n + 3 + 3) with (3 * n + 6) by lia. done.
  - lia.
  - by apply bool_decide_eq_true.
  - intros j Hj. apply bool_decide_eq_false. apply Hno. lia.
Qed.

Lemma count_blocks_loop_layout ws n fuel k :
  header_layout py ws n -> 0 <= k <= n -> (Z.to_nat (n - k) < fuel)%nat ->
  count_blocks_loop py fuel ws (_ein_col (k + 1)) k = n.
Proof.
  intros Hl. destruct Hl as (Hn & Hein & Hno & Hst & Hmax & _).
  revert k. induction fuel as [|fuel IH]; intros k Hk Hfuel; [lia|].
  simpl. unfold _ein_col, DATE_COLS, BLOCK_WIDTH in *.
  destruct (Z.leb_spec (2 + (k + 1 - 1) * 3 + 1) (max_column ws)); [|lia].
  destruct (decide (k = n)) as [->|Hne].
  - replace (2 + (n + 1 - 1) * 3 + 1) with (3 * n + 3) by lia.
    rewrite Hst. done.
  - rewrite (Hein (k + 1)) by lia.
    replace (2 + (k + 1 - 1) * 3 + 1 + 3) with (2 + (k + 1 + 1 - 1) * 3 + 1) by lia.
    apply IH; lia.
Qed.

Lemma count_blocks_layout ws n : header_layout py ws n -> _count_blocks py ws = n.
Proof.
  intros Hl. unfold _count_blocks.
  change (DATE_COLS + 1) with (_ein_col (0 + 1)).
  rewrite (count_blocks_loop_layout ws n) by (destruct Hl as (? & ? & ? & ? & ? & ?); lia || done).
  destruct Hl as (? & _). unfold INITIAL_BLOCKS. lia.
Qed.

Lemma header_layout_ext ws ws' n :
  (forall c, cell ws' HEADER_ROW c = cell ws HEADER_ROW c) ->
  max_column ws <= max_column ws' -> max_row ws <= max_row ws' ->
  header_layout py ws n -> header_layout py ws' n.
Proof.
  intros Hc Hm Hr (? & ? & ? & ? & ? & ?).
  repeat split; try done; intros; rewrite ?Hc; auto; lia.
Qed.

Lemma header_layout_set_cell ws n r c v :
  HEADER_ROW < r -> header_layout py ws n -> header_layout py (set_cell ws r c v) n.
Proof.
  intros Hr. apply header_layout_ext.
  - intros c'. apply cell_set_cell_ne. unfold HEADER_ROW in *. lia.
  - simpl. lia.
  - simpl. lia.
Qed.

Lemma header_layout_insert_rows ws n idx :
  HEADER_ROW < idx -> header_layout py ws n -> header_layout py (insert_rows ws idx) n.
Proof.
  intros Hr. apply header_layout_ext.
  - intros c. unfold cell, insert_rows, HEADER_ROW in *. simpl.
    destruct (Z.ltb_spec 1 idx); [done|lia].
  - done.
  - unfold insert_rows. simpl. case_match; lia.
Qed.

Lemma cell_apply_writes W : forall ws r c,
  cell (apply_writes ws W) r c = default (cell ws r c) (written W r c).
Proof.
  induction W as [|x W IH]; intros ws r c; [done|].
  simpl. rewrite IH. destruct (written W r c); [done|].
  simpl. rewrite cell_set_cell. by destruct (_ && _).
Qed.

Lemma written_app W1 W2 r c :
  written (W1 ++ W2) r c =
  match written W2 r c with Some y => Some y | None => written W1 r c end.
Proof.
  induction W1 as [|x W1 IH]; simpl.
  - by destruct (written W2 r c).
  - rewrite IH. by destruct (written W2 r c).
Qed.

Lemma written_none W r c :
  Forall (fun x => x.1.1 <> r \/ x.1.2 <> c \/ x.2 = VNone) W -> written W r c = None.
Proof.
  induction 1 as [|x W Hx _ IH]; [done|]. simpl. rewrite IH.
  destruct (Z.eqb_spec r x.1.1), (Z.eqb_spec c x.1.2); simpl; try done.
  destruct Hx as [?|[?| ->]]; [congruence|congruence|done].
Qed.

Lemma max_row_apply_writes W : forall ws,
  Forall (fun x => x.1.1 <= max_row ws) W -> max_row (apply_writes ws W) = max_row ws.
Proof.
  induction W as [|x W IH]; intros ws H; [done|].
  inversion H as [|? ? Hx HW]; subst. simpl. rewrite IH.
  - simpl. lia.
  - simpl. eapply Forall_impl; [exact HW|]. simpl. intros; lia.
Qed.

Lemma max_column_apply_writes W : forall ws,
  Forall (fun x => x.1.2 <= max_column ws) W -> max_column (apply_writes ws W) = max_column ws.
Proof.
  induction W as [|x W IH]; intros ws H; [done|].
  inversion H as [|? ? Hx HW]; subst. simpl. rewrite IH.
  - simpl. lia.
  - simpl. eapply Forall_impl; [exact HW|]. simpl. intros; lia.
Qed.

Lemma max_column_apply_writes_le W : forall ws,
  max_column ws <= max_column (apply_writes ws W).
Proof.
  induction W as [|x W IH]; intros ws; [done|]. simpl.
  etrans; [|apply IH]. simpl. lia.
Qed.

Lemma apply_writes_app ws W1 W2 :
  apply_writes ws (W1 ++ W2) = apply_writes (apply_writes ws W1) W2.
Proof. apply foldl_app. Qed.

Lemma header_layout_apply_writes ws n W :
  Forall (fun x => HEADER_ROW < x.1.1) W ->
  header_layout py ws n -> header_layout py (apply_writes ws W) n.
Proof.
  revert ws. induction W as [|x W IH]; intros ws H Hl; [done|].
  inversion H; subst. simpl. apply IH; [done|]. by apply header_layout_set_cell.
Qed.

Lemma find_day_row_bounds ws d row :
  find_day_row ws d = Some row -> HEADER_ROW < row <= max_row ws.
Proof.
  unfold find_day_row. intros (? & _)%find_range_some. unfold HEADER_ROW in *. lia.
Qed.

Lemma find_day_row_ext ws ws' d :
  (forall r, cell ws' r 1 = cell ws r 1) -> max_row ws' = max_row ws ->
  find_day_row ws' d = find_day_row ws d.
Proof.
  intros Hc Hm. unfold find_day_row. rewrite Hm.
  induction (range _ _) as [|r l IH]; [done|]. simpl. by rewrite Hc, IH.
Qed.

Lemma set_day_sick_run ws n d cfg row e :
  header_layout py ws n -> find_day_row ws d = Some row ->
  sick_expected py ws n row d cfg = Ok e ->
  set_day_sick py d cfg ws =
  (apply_writes ws [(row, 3 * n + 3, VStr "Krank");
                    (row, 3 * n + 4, VNum (_hours_to_fraction e));
                    (row, 3 * n + 6, VNum #0)], Ok tt).
Proof.
  intros Hl Hf He. unfold set_day_sick, bind, gets, attempt, write, ret.
  rewrite Hf, (find_summary_cols_layout ws n Hl). simpl.
  rewrite cell_set_cell_ne by lia. unfold sick_expected in He.
  rewrite He. done.
Qed.

Lemma recalculate_blocks_run row offset first last blocks : forall total ws,
  recalculate_blocks row offset first last blocks total ws =
  (apply_writes ws (stunden_writes row offset first last blocks),
   Ok (worked_hours offset first last blocks total)).
Proof.
  induction blocks as [|[[b ein] aus] blocks IH]; intros total ws; [done|].
  simpl. destruct ein as [e|], aus as [a|]; unfold bind, write; simpl; by rewrite IH.
Qed.

Lemma elem_of_read_blocks ws row n x :
  x ∈ read_blocks py ws row n ->
  1 <= x.1.1 <= n /\
  x.1.2 = _to_time py (cell ws row (_ein_col x.1.1)) /\
  x.2 = _to_time py (cell ws row (_aus_col x.1.1)).
Proof.
  unfold read_blocks. intros (b & -> & Hb%elem_of_range)%list_elem_of_fmap.
  simpl. split; [lia|done].
Qed.

Lemma stunden_writes_rows row offset first last blocks :
  Forall (fun x => x.1.1 = row) (stunden_writes row offset first last blocks).
Proof. unfold stunden_writes. apply Forall_fmap, Forall_true. done. Qed.

Lemma stunden_writes_cols ws row n offset first last :
  Forall (fun x => exists b, 1 <= b <= n /\ x.1.2 = _stunden_col b)
         (stunden_writes row offset first last (read_blocks py ws row n)).
Proof.
  unfold stunden_writes. apply Forall_fmap, Forall_forall.
  intros x Hx%elem_of_read_blocks. simpl. exists x.1.1. split; [tauto|done].
Qed.

Lemma recalculate_day_run ws n d cfg row :
  header_layout py ws n -> find_day_row ws d = Some row ->
  recalculate_day py d cfg ws =
  (apply_writes ws (recalc_writes py ws n row d cfg).1, (recalc_writes py ws n row d cfg).2).
Proof.
  intros Hl Hf. pose proof (find_day_row_bounds _ _ _ Hf) as Hrow.
  unfold recalculate_day, bind, gets, attempt, write, ret.
  rewrite Hf, (count_blocks_layout ws n Hl).
  unfold _read_day_status, _get_status_col.
  rewrite (find_summary_cols_layout ws n Hl).
  rewrite recalculate_blocks_run.
  unfold recalc_writes, day_total, offset_blocks, day_status.
  set (st := if truthy _ then _ else _).
  set (blocks := read_blocks py ws row n).
  set (first := if bool_decide (st = "Home") then None else first_ein blocks).
  set (last := if bool_decide (st = "Home") then None else last_aus blocks).
  replace (if bool_decide (st = "Home") then (None, None) else (first_ein blocks, last_aus blocks))
    with (first, last) by (subst first last; by destruct (bool_decide _)).
  set (W1 := stunden_writes row (get_travel_offset cfg) first last blocks).
  assert (HW1 : Forall (fun x => HEADER_ROW < x.1.1) W1).
  { eapply Forall_impl; [apply stunden_writes_rows|]. simpl. intros ? ->. lia. }
  rewrite (find_summary_cols_layout _ n (header_layout_apply_writes ws n W1 HW1 Hl)).
  rewrite cell_set_cell_ne by lia.
  rewrite cell_apply_writes, written_none; cycle 1.
  { eapply Forall_impl; [apply (stunden_writes_cols ws row n)|].
    simpl. intros x (b & Hb & Hc). right. left. rewrite Hc.
    unfold _stunden_col, _ein_col, DATE_COLS, BLOCK_WIDTH. lia. }
  simpl. destruct (is_none (cell ws row (3 * n + 5))) eqn:Hs.
  - simpl. rewrite !apply_writes_app. done.
  - destruct (_read_hours_value py _); simpl.
    + rewrite !apply_writes_app. done.
    + rewrite !apply_writes_app. done.
Qed.

Lemma find_fmap {A B} (f : B -> bool) (g : A -> B) (l : list A) :
  List.find f (g <$> l) = g <$> List.find (fun x => f (g x)) l.
Proof.
  induction l as [|x l IH]; [done|]. simpl. destruct (f (g x)); [done|apply IH].
Qed.

Lemma written_singleton r c v r' c' :
  written [(r, c, v)] r' c' =
  if (r' =? r) && (c' =? c) && negb (is_none v) then Some v else None.
Proof. done. Qed.

(** Writes to pairwise different columns of one row: each cell receives
    the value written to it. *)
Lemma written_fmap_range (row : Z) (col : Z -> Z) (val : Z -> value) a b k :
  (forall i j, col i = col j -> i = j) -> a <= k < b ->
  written ((fun i => (row, col i, val i)) <$> range a b) row (col k) =
  if is_none (val k) then None else Some (val k).
Proof.
  intros Hinj Hk. rewrite (range_split a b k) by done.
  rewrite fmap_app, fmap_cons.
  change (?x :: ?l) with ([x] ++ l) at 1. rewrite !written_app.
  rewrite (written_none (_ <$> range (k + 1) b)); cycle 1.
  { apply Forall_fmap, Forall_forall. intros j Hj%elem_of_range. simpl.
    right. left. intros ->%Hinj. lia. }
  rewrite written_singleton, !Z.eqb_refl. simpl.
  destruct (is_none (val k)); simpl; [|done].
  apply written_none, Forall_fmap, Forall_forall. intros j Hj%elem_of_range. simpl.
  right. left. intros ->%Hinj. lia.
Qed.

Lemma first_ein_read_blocks ws row n b :
  first_ein (read_blocks py ws row n) = Some b <-> is_first_entry py ws n row b.
Proof.
  unfold first_ein, read_blocks, is_first_entry, entry_of.
  rewrite find_fmap. simpl. split.
  - destruct (List.find _ _) as [k|] eqn:E; [|done]. simpl. intros [= <-].
    apply find_range_some in E as (Hk & Hs & Hlt).
    split; [lia|]. split; [by apply bool_decide_eq_true in Hs|].
    intros j Hj. specialize (Hlt j ltac:(lia)).
    apply bool_decide_eq_false in Hlt. by apply eq_None_not_Some.
  - intros (Hb & Hs & Hlt).
    rewrite (find_range_first _ 1 (n + 1) b); [done|lia|by apply bool_decide_eq_true|].
    intros j Hj. apply bool_decide_eq_false. rewrite Hlt by lia. by intros [? ?].
Qed.

Lemma last_aus_read_blocks ws row n b :
  last_aus (read_blocks py ws row n) = Some b <-> is_last_exit py ws n row b.
Proof.
  unfold last_aus, read_blocks, is_last_exit, exit_of.
  rewrite <- fmap_reverse, find_fmap. simpl. split.
  - destruct (List.find _ _) as [k|] eqn:E; [|done]. simpl. intros [= <-].
    apply find_rev_range_some in E as (Hk & Hs & Hgt).
    split; [lia|]. split; [by apply bool_decide_eq_true in Hs|].
    intros j Hj. specialize (Hgt j ltac:(lia)).
    apply bool_decide_eq_false in Hgt. by apply eq_None_not_Some.
  - intros (Hb & Hs & Hgt).
    rewrite (find_rev_range_last _ 1 (n + 1) b); [done|lia|by apply bool_decide_eq_true|].
    intros j Hj. apply bool_decide_eq_false. rewrite Hgt by lia. by intros [? ?].
Qed.

Lemma is_first_entry_unique ws n row b b' :
  is_first_entry py ws n row b -> is_first_entry py ws n row b' -> b = b'.
Proof.
  intros (Hb & [? Hs] & Hlt) (Hb' & [? Hs'] & Hlt').
  destruct (Z.lt_trichotomy b b') as [?|[?|?]]; [|done|].
  - rewrite Hlt' in Hs by lia. done.
  - rewrite Hlt in Hs' by lia. done.
Qed.

Lemma is_last_exit_unique ws n row b b' :
  is_last_exit py ws n row b -> is_last_exit py ws n row b' -> b = b'.
Proof.
  intros (Hb & [? Hs] & Hgt) (Hb' & [? Hs'] & Hgt').
  destruct (Z.lt_trichotomy b b') as [?|[?|?]]; [|done|].
  - rewrite Hgt in Hs' by lia. done.
  - rewrite Hgt' in Hs by lia. done.
Qed.

Lemma stunden_col_inj i j : _stunden_col i = _stunden_col j -> i = j.
Proof. unfold _stunden_col, _ein_col, DATE_COLS, BLOCK_WIDTH. lia. Qed.

Lemma written_stunden ws row n offset first last b :
  1 <= b <= n ->
  written (stunden_writes row offset first last (read_blocks py ws row n))
          row (_stunden_col b) =
  match entry_of py ws row b, exit_of py ws row b with
  | Some e, Some a => Some (block_stunden offset first last (b, Some e, Some a))
  | _, _ => None
  end.
Proof.
  intros Hb. unfold stunden_writes, read_blocks. rewrite <- list_fmap_compose.
  unfold compose. cbn beta iota delta [fst snd].
  rewrite (written_fmap_range row _stunden_col
    (fun i => block_stunden offset first last
                (i, _to_time py (cell ws row (_ein_col i)),
                    _to_time py (cell ws row (_aus_col i)))) 1 (n + 1) b)
    by (auto using stunden_col_inj || lia).
  unfold entry_of, exit_of.
  destruct (_to_time py (cell ws row (_ein_col b))), (_to_time py (cell ws row (_aus_col b))); done.
Qed.

(** The cells of the row after [recalculate_day]. *)
Lemma recalc_writes_other ws n row d cfg r c :
  (r <> row \/ c < 5 \/ (forall b, c <> _stunden_col b) /\ c < 3 * n + 4 \/ 3 * n + 6 < c) ->
  1 <= n ->
  written (recalc_writes py ws n row d cfg).1 r c = None.
Proof.
  intros Hrc Hn. apply written_none.
  assert (Hst : Forall (fun x : Z * Z * value => x.1.1 ≠ r ∨ x.1.2 ≠ c ∨ x.2 = VNone)
    (stunden_writes row (get_travel_offset cfg) (offset_blocks py ws n row).1
       (offset_blocks py ws n row).2 (read_blocks py ws row n))).
  { eapply Forall_impl;
      [apply Forall_and; split;
         [apply stunden_writes_rows|apply (stunden_writes_cols ws row n)]|].
    simpl. intros x [Hr (b & Hb & Hc)].
    destruct Hrc as [?|[?|[[? ?]|?]]]; [left; congruence|right; left|right; left|right; left].
    - rewrite Hc. unfold _stunden_col, _ein_col, DATE_COLS, BLOCK_WIDTH. lia.
    - rewrite Hc. auto.
    - rewrite Hc. unfold _stunden_col, _ein_col, DATE_COLS, BLOCK_WIDTH. lia. }
  unfold recalc_writes. destruct (offset_blocks py ws n row) as [first last]. simpl in Hst.
  assert (Hg : forall v, (row ≠ r ∨ 3 * n + 4 ≠ c ∨ v = VNone)).
  { intros v. destruct Hrc as [?|[?|[[? ?]|?]]]; [left; congruence|right; left; lia..]. }
  assert (Hs : forall v, (row ≠ r ∨ 3 * n + 5 ≠ c ∨ v = VNone)).
  { intros v. destruct Hrc as [?|[?|[[? ?]|?]]]; [left; congruence|right; left; lia..]. }
  assert (Hb : forall v, (row ≠ r ∨ 3 * n + 6 ≠ c ∨ v = VNone)).
  { intros v. destruct Hrc as [?|[?|[[? ?]|?]]]; [left; congruence|right; left; lia..]. }
  destruct (is_none _); [|destruct (_read_hours_value _ _)]; simpl;
    rewrite ?Forall_app; repeat split; try done;
    repeat (apply Forall_cons; split; [simpl; auto|]); apply Forall_nil_2.
Qed.

Lemma recalc_writes_gesamt ws n row d cfg :
  written (recalc_writes py ws n row d cfg).1 row (3 * n + 4) =
  Some (VNum (_hours_to_fraction (py_round (day_total py ws n row cfg) 2))).
Proof.
  unfold recalc_writes. destruct (offset_blocks py ws n row) as [first last].
  destruct (is_none _); [|destruct (_read_hours_value _ _)]; simpl;
    rewrite ?written_app; simpl; rewrite ?Z.eqb_refl; simpl;
    repeat match goal with
    | |- context [(?a =? ?b)] =>
        destruct (Z.eqb_spec a b); [lia|]; simpl
    end; done.
Qed.

Lemma same_sheet_refl ws : same_sheet ws ws.
Proof. done. Qed.

Lemma apply_writes_bounds ws W :
  in_bounds ws W ->
  max_row (apply_writes ws W) = max_row ws /\
  max_column (apply_writes ws W) = max_column ws.
Proof.
  intros H. split.
  - apply max_row_apply_writes. eapply Forall_impl; [exact H|]. simpl. tauto.
  - apply max_column_apply_writes. eapply Forall_impl; [exact H|]. simpl. tauto.
Qed.

(** Writes that find their values already in place change nothing. *)
Lemma apply_writes_absorb ws W :
  in_bounds ws W ->
  (forall r c v, written W r c = Some v -> cell ws r c = v) ->
  same_sheet (apply_writes ws W) ws.
Proof.
  intros Hb Hw. destruct (apply_writes_bounds ws W Hb) as [Hr Hc].
  split; [|done]. intros r c. rewrite cell_apply_writes.
  destruct (written W r c) as [v|] eqn:E; [|done]. simpl. symmetry. by apply Hw.
Qed.

Lemma apply_writes_twice ws W :
  in_bounds ws W ->
  same_sheet (apply_writes (apply_writes ws W) W) (apply_writes ws W).
Proof.
  intros Hb. destruct (apply_writes_bounds ws W Hb) as [Hr Hc].
  apply apply_writes_absorb.
  - unfold in_bounds. by rewrite Hr, Hc.
  - intros r c v E. by rewrite cell_apply_writes, E.
Qed.

Lemma header3_layout rows : header_layout py (sheet_of_rows (header3 :: rows)) 3.
Proof.
  unfold header_layout. split; [lia|]. split; [|split; [|split]].
  - intros b Hb. assert (b = 1 \/ b = 2 \/ b = 3) as [-> | [-> | ->]] by lia; done.
  - intros c Hc.
    assert (c = 1 \/ c = 2 \/ c = 3 \/ c = 4 \/ c = 5 \/ c = 6 \/ c = 7 \/ c = 8 \/ c = 9
            \/ c = 10 \/ c = 11) as H by lia.
    repeat (destruct H as [-> | H]); try subst c; done.
  - done.
  - split; [simpl; lia|]. unfold sheet_of_rows, max_row, HEADER_ROW.
    rewrite length_cons. lia.
Qed.

End Foundations.

Section DayLedger.
Variable py : Builtins.

Lemma find_day_row_apply_writes ws W d :
  in_bounds ws W -> Forall (fun x => x.1.2 <> 1) W ->
  find_day_row (apply_writes ws W) d = find_day_row ws d.
Proof.
  intros Hb Hc. apply find_day_row_ext.
  - intros r. rewrite cell_apply_writes, written_none; [done|].
    eapply Forall_impl; [exact Hc|]. simpl. auto.
  - by apply apply_writes_bounds.
Qed.

Lemma recalc_writes_shape ws n row d cfg :
  1 <= n ->
  Forall (fun x => x.1.1 = row /\ 5 <= x.1.2 <= 3 * n + 6)
         (recalc_writes py ws n row d cfg).1.
Proof.
  intros Hn.
  assert (Hst : forall first last,
    Forall (fun x : Z * Z * value => x.1.1 = row /\ 5 <= x.1.2 <= 3 * n + 6)
           (stunden_writes row (get_travel_offset cfg) first last (read_blocks py ws row n))).
  { intros first last. eapply Forall_impl;
      [apply Forall_and; split;
         [apply stunden_writes_rows|apply (stunden_writes_cols py ws row n)]|].
    simpl. intros x [Hr (b & Hb & Hc)]. split; [done|]. rewrite Hc.
    unfold _stunden_col, _ein_col, DATE_COLS, BLOCK_WIDTH. lia. }
  unfold recalc_writes. destruct (offset_blocks py ws n row) as [first last].
  destruct (is_none _); [|destruct (_read_hours_value _ _)]; simpl;
    rewrite ?Forall_app; repeat split; try apply Hst;
    repeat (apply Forall_cons; split; [simpl; lia|]); apply Forall_nil_2.
Qed.

Lemma recalc_writes_in_bounds ws n row d cfg :
  header_layout py ws n -> row <= max_row ws ->
  in_bounds ws (recalc_writes py ws n row d cfg).1.
Proof.
  intros (Hn & _ & _ & _ & Hmax & _) Hrow.
  eapply Forall_impl; [apply recalc_writes_shape; lia|].
  simpl. intros x [-> ?]. lia.
Qed.

(** The cells that [recalculate_day] leaves behind. *)
Lemma recalculate_day_cell ws n d cfg row r c :
  header_layout py ws n -> find_day_row ws d = Some row ->
  cell (recalculate_day py d cfg ws).1 r c =
  default (cell ws r c) (written (recalc_writes py ws n row d cfg).1 r c).
Proof.
  intros Hl Hf. rewrite (recalculate_day_run py ws n d cfg row Hl Hf). simpl.
  apply cell_apply_writes.
Qed.

Lemma recalc_writes_stunden ws n row d cfg b :
  1 <= b <= n ->
  written (recalc_writes py ws n row d cfg).1 row (_stunden_col b) =
  match entry_of py ws row b, exit_of py ws row b with
  | Some e, Some a =>
      Some (block_stunden (get_travel_offset cfg) (offset_blocks py ws n row).1
                          (offset_blocks py ws n row).2 (b, Some e, Some a))
  | _, _ => None
  end.
Proof.
  intros Hb. unfold recalc_writes.
  destruct (offset_blocks py ws n row) as [first last]. simpl.
  assert (Hc : forall k, 4 <= k -> (_stunden_col b =? 3 * n + k) = false).
  { intros k Hk. apply Z.eqb_neq.
    unfold _stunden_col, _ein_col, DATE_COLS, BLOCK_WIDTH. lia. }
  destruct (is_none _); [|destruct (_read_hours_value _ _)]; simpl;
    rewrite ?written_app; simpl; rewrite ?Hc by lia; simpl;
    rewrite ?andb_false_r; simpl; apply (written_stunden py); done.
Qed.

Lemma recalc_writes_saldo ws n row d cfg :
  written (recalc_writes py ws n row d cfg).1 row (3 * n + 6) =
  let soll := cell ws row (3 * n + 5) in
  if is_none soll then
    Some (VNum (_hours_to_fraction
      (py_round (day_total py ws n row cfg - get_expected_hours cfg (weekday d)) 2)))
  else match _read_hours_value py soll with
       | Ok expected =>
           Some (VNum (_hours_to_fraction
             (py_round (day_total py ws n row cfg - expected) 2)))
       | Err _ => None
       end.
Proof.
  unfold recalc_writes. destruct (offset_blocks py ws n row) as [first last]. simpl.
  destruct (is_none _); [|destruct (_read_hours_value _ _)]; simpl;
    rewrite ?written_app; simpl; rewrite ?Z.eqb_refl; simpl; try done.
  all: destruct (Z.eqb_spec (3 * n + 6) (3 * n + 4)) as [|_]; [lia|]; simpl.
  all: rewrite ?andb_false_r; simpl.
  all: apply written_none.
  all: eapply Forall_impl; [apply (stunden_writes_cols py ws row n)|].
  all: simpl; intros x (b & Hb & Hc); right; left; rewrite Hc.
  all: unfold _stunden_col, _ein_col, DATE_COLS, BLOCK_WIDTH; lia.
Qed.

End DayLedger.

Section DayTheorems.
Variable py : Builtins.

Lemma sick_writes_in_bounds ws n row (e : Qc) :
  header_layout py ws n -> row <= max_row ws ->
  in_bounds ws [(row, 3 * n + 3, VStr "Krank");
                (row, 3 * n + 4, VNum (_hours_to_fraction e));
                (row, 3 * n + 6, VNum #0)].
Proof.
  intros (Hn & _ & _ & _ & Hmax & _) Hrow.
  repeat (apply Forall_cons; split; [simpl; lia|]). apply Forall_nil_2.
Qed.

Lemma sick_writes_cell ws n row e c :
  cell (apply_writes ws (sick_writes n row e)) row c =
  if decide (c = 3 * n + 3) then VStr "Krank"
  else if decide (c = 3 * n + 4) then VNum (_hours_to_fraction e)
  else if decide (c = 3 * n + 6) then VNum #0
  else cell ws row c.
Proof.
  rewrite cell_apply_writes. unfold sick_writes. simpl. rewrite Z.eqb_refl. simpl.
  repeat case_decide; subst;
    repeat match goal with
    | |- context [(?a =? ?b)] => destruct (Z.eqb_spec a b); try lia; simpl
    end; done.
Qed.

Lemma sick_writes_rows n row e :
  Forall (fun x => x.1.1 = row /\ 3 * n + 3 <= x.1.2 <= 3 * n + 6) (sick_writes n row e).
Proof. repeat (apply Forall_cons; split; [simpl; lia|]). apply Forall_nil_2. Qed.

Lemma set_day_sick_sheet ws n d cfg row e :
  header_layout py ws n -> find_day_row ws d = Some row ->
  sick_expected py ws n row d cfg = Ok e ->
  let sick := apply_writes ws (sick_writes n row e) in
  set_day_sick py d cfg ws = (sick, Ok tt) /\
  in_bounds ws (sick_writes n row e) /\
  header_layout py sick n /\ find_day_row sick d = Some row /\
  sick_expected py sick n row d cfg = Ok e.
Proof.
  intros Hl Hf He sick.
  pose proof (find_day_row_bounds _ _ _ Hf) as Hrow.
  assert (Hn : 3 <= n /\ 3 * n + 6 <= max_column ws) by (destruct Hl as (? & _ & _ & _ & ? & _); done).
  assert (Hb : in_bounds ws (sick_writes n row e)).
  { eapply Forall_impl; [apply sick_writes_rows|]. simpl. intros x [-> ?]. lia. }
  split; [by apply set_day_sick_run|]. split; [done|]. split; [|split].
  - apply header_layout_apply_writes; [|done].
    eapply Forall_impl; [apply sick_writes_rows|]. simpl. intros x [-> ?]. lia.
  - subst sick. rewrite find_day_row_apply_writes; [done|done|].
    eapply Forall_impl; [apply sick_writes_rows|]. simpl. intros x [? ?]. lia.
  - unfold sick_expected in *. subst sick. rewrite sick_writes_cell.
    repeat case_decide; try lia. done.
Qed.


Lemma recalc_keeps_stamps ws n row d cfg c :
  1 <= n -> c < 3 * n + 4 -> (forall b, c <> _stunden_col b) ->
  written (recalc_writes py ws n row d cfg).1 row c = None.
Proof. intros. apply recalc_writes_other; auto. Qed.

Lemma ein_col_not_stunden b b' : _ein_col b <> _stunden_col b'.
Proof. unfold _stunden_col, _ein_col, DATE_COLS, BLOCK_WIDTH. lia. Qed.

Lemma aus_col_not_stunden b b' : _aus_col b <> _stunden_col b'.
Proof. unfold _aus_col, _stunden_col, _ein_col, DATE_COLS, BLOCK_WIDTH. lia. Qed.

(** C2: the break deduction is the two-branch policy, [recalculate_day]
    stores the total it yields, and with threshold 6 h and deduction
    30 min a total of 6.2 h becomes 6.0 h and 6.6 h becomes 6.1 h. *)
Theorem break_deduction_two_branch :
  (forall threshold deduction_min total_work : Qc,
     ((threshold + deduction_min / #60 < total_work)%Qc ->
      auto_break threshold deduction_min total_work
      = (total_work - deduction_min / #60)%Qc) /\
     (~ (threshold + deduction_min / #60 < total_work)%Qc ->
      (threshold < total_work)%Qc ->
      auto_break threshold deduction_min total_work = threshold) /\
     (~ (threshold + deduction_min / #60 < total_work)%Qc ->
      ~ (threshold < total_work)%Qc ->
      auto_break threshold deduction_min total_work = total_work)) /\
  (forall ws n d cfg row,
     header_layout py ws n -> find_day_row ws d = Some row ->
     cell (recalculate_day py d cfg ws).1 row (3 * n + 4) =
     VNum (_hours_to_fraction (py_round
       (auto_break (default #6 (auto_break_threshold_hours cfg))
                   (default #30 (auto_break_deduction_minutes cfg))
                   (worked_hours (get_travel_offset cfg)
                                 (offset_blocks py ws n row).1
                                 (offset_blocks py ws n row).2
                                 (read_blocks py ws row n) #0)) 2))) /\
  (forall ws d cfg now h,
     calculate_current_hours py ws d cfg now = Ok (Some h) ->
     exists total_work,
       h = py_round (auto_break (default #6 (auto_break_threshold_hours cfg))
                                (default #30 (auto_break_deduction_minutes cfg))
                                total_work) 2) /\
  auto_break #6 #30 (cents 620) = #6 /\
  auto_break #6 #30 (cents 660) = cents 610.
Proof.
  split; [|split; [|split; [|split]]].
  - intros threshold deduction_min total_work. unfold auto_break.
    repeat split; intros; repeat case_decide; done.
  - intros ws n d cfg row Hl Hf.
    rewrite (recalculate_day_cell py ws n d cfg row) by done.
    rewrite recalc_writes_gesamt. simpl. unfold day_total.
    by destruct (offset_blocks py ws n row).
  - intros ws d cfg now h. unfold calculate_current_hours.
    destruct (find_day_row ws d); [|done].
    destruct (_read_day_status py ws z); [|done].
    destruct (negb _); [done|]. intros [= <-]. eauto.
  - apply (bool_decide_unpack _). vm_compute. exact I.
  - apply (bool_decide_unpack _). vm_compute. exact I.
Qed.

Lemma block_diff_hours_between offset first last b e a :
  block_diff offset first last b e a =
  hours_between
    (if bool_decide (Some b = first)
     then (seconds_of_day e - #(offset * 60))%Qc else seconds_of_day e)
    (if bool_decide (Some b = last)
     then (seconds_of_day a + #(offset * 60))%Qc else seconds_of_day a).
Proof. done. Qed.

(** C3: on a day that is not a Home day the travel offset is taken off
    the entry of the first block that has an entry and added to the exit
    of the last block that has an exit, and to no other stamp; on a Home
    day no stamp is shifted.  Entry 09:00, exit 17:00 and offset 2 min give
    8 h 4 min (stored as 8.07 h) on an Office day and 8 h on a Home
    day. *)
Theorem travel_offset_once :
  (forall ws n d cfg row b e a,
     header_layout py ws n -> find_day_row ws d = Some row ->
     1 <= b <= n ->
     entry_of py ws row b = Some e -> exit_of py ws row b = Some a ->
     exists shift_entry shift_exit : bool,
       (shift_entry = true <->
        day_status py ws n row <> "Home" /\ is_first_entry py ws n row b) /\
       (shift_exit = true <->
        day_status py ws n row <> "Home" /\ is_last_exit py ws n row b) /\
       cell (recalculate_day py d cfg ws).1 row (_stunden_col b) =
       VNum (_hours_to_fraction (py_round (py_round
         (hours_between
            (if shift_entry
             then (seconds_of_day e - #(get_travel_offset cfg * 60))%Qc
             else seconds_of_day e)
            (if shift_exit
             then (seconds_of_day a + #(get_travel_offset cfg * 60))%Qc
             else seconds_of_day a)) 4) 2))) /\
  (forall ws n row b b',
     is_first_entry py ws n row b -> is_first_entry py ws n row b' -> b = b') /\
  (forall ws n row b b',
     is_last_exit py ws n row b -> is_last_exit py ws n row b' -> b = b') /\
  hours_between (seconds_of_day t0900 - #(2 * 60))%Qc
                (seconds_of_day t1700 + #(2 * 60))%Qc = (#8 + #4 / #60)%Qc /\
  cell (recalculate_day py monday default_config office_day).1 2 (_stunden_col 1)
  = VNum (_hours_to_fraction (cents 807)) /\
  cell (recalculate_day py monday default_config home_day).1 2 (_stunden_col 1)
  = VNum (_hours_to_fraction #8).
Proof.
  split; [|split; [|split; [|split; [|split]]]].
  - intros ws n d cfg row b e a Hl Hf Hb He Ha.
    exists (bool_decide (Some b = (offset_blocks py ws n row).1)),
           (bool_decide (Some b = (offset_blocks py ws n row).2)).
    split; [|split].
    + rewrite bool_decide_eq_true. unfold offset_blocks.
      case_bool_decide as Hh; simpl.
      * split; [done|]. intros [? _]. done.
      * rewrite <- first_ein_read_blocks. split; [by intros <-|]. by intros [_ ->].
    + rewrite bool_decide_eq_true. unfold offset_blocks.
      case_bool_decide as Hh; simpl.
      * split; [done|]. intros [? _]. done.
      * rewrite <- last_aus_read_blocks. split; [by intros <-|]. by intros [_ ->].
    + rewrite (recalculate_day_cell py ws n d cfg row) by done.
      rewrite recalc_writes_stunden by done. rewrite He, Ha. simpl.
      by rewrite block_diff_hours_between.
  - intros ws n row b b'. apply is_first_entry_unique.
  - intros ws n row b b'. apply is_last_exit_unique.
  - apply (bool_decide_unpack _). vm_compute. exact I.
  - apply (bool_decide_unpack _). vm_compute. exact I.
  - apply (bool_decide_unpack _). vm_compute. exact I.
Qed.

Lemma read_blocks_ext ws ws' row n :
  (forall b, 1 <= b <= n ->
     cell ws' row (_ein_col b) = cell ws row (_ein_col b) /\
     cell ws' row (_aus_col b) = cell ws row (_aus_col b)) ->
  read_blocks py ws' row n = read_blocks py ws row n.
Proof.
  intros H. unfold read_blocks. apply list_fmap_ext.
  intros i b Hb. apply list_elem_of_lookup_2, elem_of_range in Hb.
  destruct (H b ltac:(lia)) as [-> ->]. done.
Qed.

(** [recalculate_day] reads the stamps, the status and the Soll cell of
    the row, and nothing else of it. *)
Lemma recalc_writes_ext ws ws' n row d cfg :
  read_blocks py ws' row n = read_blocks py ws row n ->
  cell ws' row (3 * n + 3) = cell ws row (3 * n + 3) ->
  cell ws' row (3 * n + 5) = cell ws row (3 * n + 5) ->
  recalc_writes py ws' n row d cfg = recalc_writes py ws n row d cfg.
Proof.
  intros Hb Hs Hsoll.
  unfold recalc_writes, day_total, offset_blocks, day_status.
  by rewrite Hb, Hs, Hsoll.
Qed.

Lemma first_ein_is_Some ws n row b e :
  1 <= b <= n -> entry_of py ws row b = Some e ->
  is_Some (first_ein (read_blocks py ws row n)).
Proof.
  intros Hb He. unfold first_ein, read_blocks. rewrite find_fmap. simpl.
  destruct (List.find _ _) eqn:E; [by eexists|exfalso].
  rewrite find_none_Forall, Forall_forall in E.
  specialize (E b ltac:(apply elem_of_range; lia)).
  apply bool_decide_eq_false in E. apply E. unfold entry_of in He. by rewrite He.
Qed.

Lemma last_aus_is_Some ws n row b a :
  1 <= b <= n -> exit_of py ws row b = Some a ->
  is_Some (last_aus (read_blocks py ws row n)).
Proof.
  intros Hb Ha. unfold last_aus, read_blocks. rewrite <- fmap_reverse, find_fmap. simpl.
  destruct (List.find _ _) eqn:E; [by eexists|exfalso].
  rewrite find_none_Forall, Forall_forall in E.
  specialize (E b ltac:(rewrite elem_of_reverse; apply elem_of_range; lia)).
  apply bool_decide_eq_false in E. apply E. unfold exit_of in Ha. by rewrite Ha.
Qed.

(** C10: recalculation does not keep the Sick override.  On a day with a
    complete block, [recalculate_day] after [set_day_sick] takes the day
    as an Office day: the first entry and the last exit are shifted, and
    total and balance are computed anew from the stamps over the values
    the override had set. *)
Theorem recalculate_overwrites_sick :
  (forall ws n d cfg row e b ein aus,
     header_layout py ws n -> find_day_row ws d = Some row ->
     sick_expected py ws n row d cfg = Ok e ->
     1 <= b <= n ->
     entry_of py ws row b = Some ein -> exit_of py ws row b = Some aus ->
     let sick := (set_day_sick py d cfg ws).1 in
     let after := (recalculate_day py d cfg sick).1 in
     let blocks := read_blocks py ws row n in
     let total_work :=
       auto_break (default #6 (auto_break_threshold_hours cfg))
                  (default #30 (auto_break_deduction_minutes cfg))
                  (worked_hours (get_travel_offset cfg) (first_ein blocks)
                                (last_aus blocks) blocks #0) in
     let expected :=
       if is_none (cell ws row (3 * n + 5))
       then get_expected_hours cfg (weekday d) else e in
     cell sick row (3 * n + 4) = VNum (_hours_to_fraction e) /\
     cell sick row (3 * n + 6) = VNum #0 /\
     is_Some (first_ein blocks) /\ is_Some (last_aus blocks) /\
     cell after row (3 * n + 3) = VStr "Krank" /\
     cell after row (3 * n + 4) = VNum (_hours_to_fraction (py_round total_work 2)) /\
     cell after row (3 * n + 6)
     = VNum (_hours_to_fraction (py_round (total_work - expected) 2))) /\
  (cell sick_day 2 13 = VNum (_hours_to_fraction #8) /\
   cell sick_day 2 15 = VNum #0 /\
   cell (recalculate_day plain monday default_config sick_day).1 2 13
   = VNum (_hours_to_fraction (cents 757)) /\
   cell (recalculate_day plain monday default_config sick_day).1 2 15
   = VNum (_hours_to_fraction (cents (-43)))).
Proof.
  split.
  - intros ws n d cfg row e b ein aus Hl Hf He Hb Hein Haus sick after blocks total_work expected.
    pose proof (find_day_row_bounds _ _ _ Hf) as Hrow.
    destruct (set_day_sick_sheet ws n d cfg row e Hl Hf He) as (Hrun & Hb' & Hl' & Hf' & He').
    assert (Hsick : sick = apply_writes ws (sick_writes n row e))
      by (subst sick; by rewrite Hrun).
    rewrite <- Hsick in Hl', Hf', He'.
    assert (Hn : 3 <= n) by (by destruct Hl).
    assert (Hcell : forall c, cell sick row c =
              if decide (c = 3 * n + 3) then VStr "Krank"
              else if decide (c = 3 * n + 4) then VNum (_hours_to_fraction e)
              else if decide (c = 3 * n + 6) then VNum #0
              else cell ws row c)
      by (intros; rewrite Hsick; apply sick_writes_cell).
    assert (Hst : cell sick row (3 * n + 3) = VStr "Krank")
      by (rewrite Hcell; repeat case_decide; try lia; done).
    assert (Hg : cell sick row (3 * n + 4) = VNum (_hours_to_fraction e))
      by (rewrite Hcell; repeat case_decide; try lia; done).
    assert (Hs : cell sick row (3 * n + 6) = VNum #0)
      by (rewrite Hcell; repeat case_decide; try lia; done).
    assert (Hfr : forall c, c < 3 * n + 3 -> cell sick row c = cell ws row c)
      by (intros c Hc; rewrite Hcell; repeat case_decide; try lia; done).
    assert (Hblocks : read_blocks py sick row n = blocks).
    { apply read_blocks_ext. intros k Hk. split; apply Hfr;
        unfold _aus_col, _ein_col, DATE_COLS, BLOCK_WIDTH; lia. }
    assert (Hsoll : cell sick row (3 * n + 5) = cell ws row (3 * n + 5))
      by (rewrite Hcell; repeat case_decide; try lia; done).
    assert (Hob : offset_blocks py sick n row = (first_ein blocks, last_aus blocks)).
    { unfold offset_blocks, day_status. rewrite Hst, Hblocks. done. }
    assert (Htot : day_total py sick n row cfg = total_work).
    { unfold day_total. rewrite Hob, Hblocks. done. }
    split; [done|]. split; [done|].
    split; [by eapply first_ein_is_Some|]. split; [by eapply last_aus_is_Some|].
    subst after. rewrite !(recalculate_day_cell py sick n d cfg row) by done.
    rewrite recalc_writes_gesamt, recalc_writes_saldo, Htot, Hsoll.
    rewrite recalc_keeps_stamps; [|lia|lia|]; cycle 1.
    { intros k. unfold _stunden_col, _ein_col, DATE_COLS, BLOCK_WIDTH. lia. }
    simpl. split; [done|]. split; [done|].
    subst expected. unfold sick_expected in He.
    destruct (is_none (cell ws row (3 * n + 5))); [done|]. by rewrite He.
  - repeat split; apply (bool_decide_unpack _); vm_compute; exact I.
Qed.

End DayTheorems.

Section Idempotence.
Variable py : Builtins.

Lemma is_none_spec v : is_none v = true <-> v = VNone.
Proof. destruct v; simpl; split; congruence. Qed.

Lemma Qc24_ne_0 : #24 <> Q2Qc 0.
Proof. intros H. apply (f_equal (fun q => Qnum (this q))) in H. simpl in H. lia. Qed.

Lemma fraction_to_hours_to_fraction e : _fraction_to_hours (_hours_to_fraction e) = e.
Proof.
  unfold _fraction_to_hours, _hours_to_fraction.
  unfold Qcdiv. rewrite <- Qcmult_assoc, (Qcmult_comm (/ #24)), Qcmult_inv_r, Qcmult_1_r; [done|].
  apply Qc24_ne_0.
Qed.

Lemma written_some_elem W r c v :
  written W r c = Some v -> (r, c, v) ∈ W.
Proof.
  induction W as [|[[r' c'] v'] W IH]; simpl; [done|].
  destruct (written W r c) eqn:E.
  - intros [= ->]. right. by apply IH.
  - destruct (Z.eqb_spec r r'), (Z.eqb_spec c c'); simpl; try done.
    destruct (is_none v'); simpl; [done|]. intros [= ->]. subst. left.
Qed.

(** C8: on a row whose expected hours are settled (the Soll cell is
    filled, or the configured hours have at most two decimals),
    recalculating a day twice gives what recalculating it once gives: the
    same outcome and the same sheet, so the same block hours, total and
    balance. *)
Theorem recalculate_day_idempotent ws n d cfg :
  header_layout py ws n ->
  (forall row, find_day_row ws d = Some row -> soll_settled ws n row d cfg) ->
  let once := recalculate_day py d cfg ws in
  let twice := recalculate_day py d cfg once.1 in
  twice.2 = once.2 /\ same_sheet twice.1 once.1.
Proof.
  intros Hl Hsettled once twice. subst twice once.
  destruct (find_day_row ws d) as [row|] eqn:Hf; cycle 1.
  { unfold recalculate_day, bind, gets, ret. rewrite Hf. simpl. rewrite Hf. done. }
  specialize (Hsettled row eq_refl).
  pose proof (find_day_row_bounds _ _ _ Hf) as Hrow.
  assert (Hn : 3 <= n) by (by destruct Hl).
  rewrite (recalculate_day_run py ws n d cfg row Hl Hf). cbn [fst snd].
  set (W := (recalc_writes py ws n row d cfg).1).
  set (ws1 := apply_writes ws W).
  assert (Hshape : Forall (fun x => x.1.1 = row /\ 5 <= x.1.2 <= 3 * n + 6) W)
    by (apply recalc_writes_shape; lia).
  assert (Hb : in_bounds ws W) by (apply recalc_writes_in_bounds; [done|lia]).
  destruct (apply_writes_bounds ws W Hb) as [Hmr Hmc]. fold ws1 in Hmr, Hmc.
  assert (Hl1 : header_layout py ws1 n).
  { apply header_layout_apply_writes; [|done].
    eapply Forall_impl; [exact Hshape|]. simpl. intros x [-> _]. lia. }
  assert (Hf1 : find_day_row ws1 d = Some row).
  { subst ws1. rewrite find_day_row_apply_writes; [done|done|].
    eapply Forall_impl; [exact Hshape|]. simpl. intros x [_ ?]. lia. }
  rewrite (recalculate_day_run py ws1 n d cfg row Hl1 Hf1). cbn [fst snd].
  assert (Hcell : forall c, cell ws1 row c = default (cell ws row c) (written W row c))
    by (intros; apply cell_apply_writes).
  assert (Hblocks : read_blocks py ws1 row n = read_blocks py ws row n).
  { apply read_blocks_ext. intros k Hk. rewrite !Hcell. subst W.
    rewrite (recalc_keeps_stamps py ws n row d cfg (_ein_col k)); cycle 1.
    { lia. }
    { unfold _ein_col, DATE_COLS, BLOCK_WIDTH. lia. }
    { intros b. apply ein_col_not_stunden. }
    rewrite (recalc_keeps_stamps py ws n row d cfg (_aus_col k)); cycle 1.
    { lia. }
    { unfold _aus_col, _ein_col, DATE_COLS, BLOCK_WIDTH. lia. }
    { intros b. apply aus_col_not_stunden. }
    done. }
  assert (Hstat : cell ws1 row (3 * n + 3) = cell ws row (3 * n + 3)).
  { rewrite Hcell. subst W. rewrite recalc_keeps_stamps; [done|lia|lia|].
    intros b. unfold _stunden_col, _ein_col, DATE_COLS, BLOCK_WIDTH. lia. }
  destruct (is_none (cell ws row (3 * n + 5))) eqn:Hsoll.
  - (* the Soll cell was empty and has been filled from the configuration *)
    destruct Hsettled as [Hne|[Hround Hday]];
      [by apply is_none_spec in Hsoll|].
    set (e := get_expected_hours cfg (weekday d)) in *.
    assert (HW : W = (stunden_writes row (get_travel_offset cfg)
                        (offset_blocks py ws n row).1 (offset_blocks py ws n row).2
                        (read_blocks py ws row n)
                      ++ [(row, 3 * n + 4,
                           VNum (_hours_to_fraction (py_round (day_total py ws n row cfg) 2)))])
                     ++ [(row, 3 * n + 5, VNum (_hours_to_fraction e));
                         (row, 3 * n + 6,
                          VNum (_hours_to_fraction
                                  (py_round (day_total py ws n row cfg - e) 2)))]).
    { subst W. unfold recalc_writes. destruct (offset_blocks py ws n row). by rewrite Hsoll. }
    assert (Hs1 : cell ws1 row (3 * n + 5) = VNum (_hours_to_fraction e)).
    { rewrite Hcell, HW, written_app. simpl. rewrite !Z.eqb_refl.
      destruct (Z.eqb_spec (3 * n + 5) (3 * n + 6)); [lia|]. by rewrite andb_false_r. }
    assert (Hob : offset_blocks py ws1 n row = offset_blocks py ws n row).
    { unfold offset_blocks, day_status. by rewrite Hstat, Hblocks. }
    assert (Hdt : day_total py ws1 n row cfg = day_total py ws n row cfg).
    { unfold day_total. by rewrite Hob, Hblocks. }
    assert (Hrd : _read_hours_value py (VNum (_hours_to_fraction e)) = Ok e).
    { unfold _read_hours_value. case_decide; [|done]. by rewrite fraction_to_hours_to_fraction, Hround. }
    assert (HW1 : recalc_writes py ws1 n row d cfg =
             ((stunden_writes row (get_travel_offset cfg)
                        (offset_blocks py ws n row).1 (offset_blocks py ws n row).2
                        (read_blocks py ws row n)
                      ++ [(row, 3 * n + 4,
                           VNum (_hours_to_fraction (py_round (day_total py ws n row cfg) 2)))])
                     ++ [(row, 3 * n + 6,
                          VNum (_hours_to_fraction
                                  (py_round (day_total py ws n row cfg - e) 2)))], Ok tt)).
    { unfold recalc_writes. rewrite Hdt, Hob, Hblocks, Hs1.
      destruct (offset_blocks py ws n row). simpl is_none. cbv iota. by rewrite Hrd. }
    rewrite HW1. cbn [fst snd]. split.
    { unfold recalc_writes. destruct (offset_blocks py ws n row). by rewrite Hsoll. }
    apply apply_writes_absorb.
    + unfold in_bounds. rewrite Hmr, Hmc.
      rewrite HW in Hb. unfold in_bounds in Hb. rewrite !Forall_app in Hb.
      destruct Hb as [[Hb1 Hb2] Hb3]. rewrite !Forall_app. split; [by split|].
      inversion Hb3 as [|? ? _ Hb4]. done.
    + intros r c v Hw. unfold ws1. rewrite cell_apply_writes, HW.
      rewrite written_app in Hw. rewrite written_app.
      cbn [written fst snd is_none negb andb] in Hw.
      cbn [written fst snd is_none negb andb].
      rewrite !andb_true_r in *.
      destruct ((r =? row) && (c =? 3 * n + 6)) eqn:E6.
      { by injection Hw as <-. }
      destruct ((r =? row) && (c =? 3 * n + 5)) eqn:E5.
      * exfalso. apply andb_prop in E5 as [->%Z.eqb_eq ->%Z.eqb_eq].
        apply written_some_elem in Hw.
        assert (Hcols : Forall (fun x : Z * Z * value => x.1.2 <= 3 * n + 4)
          (stunden_writes row (get_travel_offset cfg)
             (offset_blocks py ws n row).1 (offset_blocks py ws n row).2
             (read_blocks py ws row n)
           ++ [(row, 3 * n + 4,
                VNum (_hours_to_fraction (py_round (day_total py ws n row cfg) 2)))])).
        { apply Forall_app. split.
          - eapply Forall_impl; [apply (stunden_writes_cols py ws row n)|].
            cbn beta. intros x (b & Hb' & ->).
            unfold _stunden_col, _ein_col, DATE_COLS, BLOCK_WIDTH. lia.
          - apply Forall_cons. split; [cbn [fst snd]; lia|]. apply Forall_nil_2. }
        rewrite Forall_forall in Hcols. specialize (Hcols _ Hw). cbn [fst snd] in Hcols. lia.
      * rewrite Hw. done.
  - (* the Soll cell was filled: the second run reads what the first read *)
    assert (Hs1 : cell ws1 row (3 * n + 5) = cell ws row (3 * n + 5)).
    { rewrite Hcell. replace (written W row (3 * n + 5)) with (@None value); [done|].
      symmetry. apply written_none. subst W. unfold recalc_writes.
      destruct (offset_blocks py ws n row) as [first last]. rewrite Hsoll.
      assert (Hst : Forall (fun x : Z * Z * value => x.1.1 <> row \/ x.1.2 <> 3 * n + 5 \/ x.2 = VNone)
               (stunden_writes row (get_travel_offset cfg) first last (read_blocks py ws row n))).
      { eapply Forall_impl; [apply (stunden_writes_cols py ws row n)|].
        simpl. intros x (b & Hb' & ->). right. left.
        unfold _stunden_col, _ein_col, DATE_COLS, BLOCK_WIDTH. lia. }
      destruct (_read_hours_value py _); simpl; rewrite ?Forall_app; repeat split; try done;
        repeat (apply Forall_cons; split; [simpl; right; left; lia|]); apply Forall_nil_2. }
    rewrite (recalc_writes_ext py ws ws1 n row d cfg Hblocks Hstat Hs1).
    split; [done|]. fold W. by apply apply_writes_twice.
Qed.

End Idempotence.

Section Stamps.
Variable py : Builtins.

Lemma cell_insert_rows ws idx r c :
  cell (insert_rows ws idx) r c =
  if r <? idx then cell ws r c else if r =? idx then VNone else cell ws (r - 1) c.
Proof. done. Qed.

Lemma cell_insert_cols ws idx amount r c :
  cell (insert_cols ws idx amount) r c =
  if c <? idx then cell ws r c
  else if c <? idx + amount then VNone else cell ws r (c - amount).
Proof. done. Qed.

(** The writes of [_insert_day_row] into the row it has inserted. *)
Definition new_row_writes (n insert_row : Z) (d : date) (cfg : Config)
  : list (Z * Z * value) :=
  [(insert_row, 1, VStr (strftime_dmy d));
   (insert_row, 2, VStr (default "" (WEEKDAY_NAMES !! Z.to_nat (weekday d))));
   (insert_row, 3 * n + 5, VNum (_hours_to_fraction (get_expected_hours cfg (weekday d))));
   (insert_row, 3 * n + 6, VNone)].

(** The row at which [_insert_day_row] inserts. *)
Definition insert_position (ws : Worksheet) (d : date) : Z :=
  default (max_row ws + 1)
    (List.find (fun row => is_insert_position py d (cell ws row 1))
               (range (HEADER_ROW + 1) (max_row ws + 1))).

Lemma insert_position_bounds ws d :
  HEADER_ROW <= max_row ws ->
  HEADER_ROW < insert_position ws d <= max_row ws + 1.
Proof.
  intros Hm. unfold insert_position.
  destruct (List.find _ _) as [r|] eqn:E; simpl.
  - apply find_range_some in E as (? & _). unfold HEADER_ROW in *. lia.
  - unfold HEADER_ROW in *. lia.
Qed.

Lemma insert_day_row_run ws n d cfg :
  header_layout py ws n ->
  _insert_day_row py d cfg ws =
  (apply_writes (insert_rows ws (insert_position ws d))
                (new_row_writes n (insert_position ws d) d cfg),
   Ok (insert_position ws d)).
Proof.
  intros Hl.
  assert (Hm : HEADER_ROW <= max_row ws) by (destruct Hl as (_ & _ & _ & _ & _ & ?); done).
  pose proof (insert_position_bounds ws d Hm) as Hpos.
  unfold _insert_day_row, bind, gets, modify, attempt, write, ret.
  fold (insert_position ws d).
  rewrite (find_summary_cols_layout py _ n
             (header_layout_insert_rows py ws n _ (proj1 Hpos) Hl)).
  done.
Qed.

Lemma find_day_row_none ws d r :
  find_day_row ws d = None -> HEADER_ROW < r <= max_row ws ->
  date_cell_matches d (cell ws r 1) = false.
Proof.
  unfold find_day_row. rewrite find_none_Forall, Forall_forall.
  intros H Hr. apply H, elem_of_range. unfold HEADER_ROW in *. lia.
Qed.

Lemma date_cell_matches_own d : date_cell_matches d (VStr (strftime_dmy d)) = true.
Proof. simpl. by apply bool_decide_eq_true. Qed.

Lemma max_row_apply_writes_row W r : forall ws,
  Forall (fun x : Z * Z * value => x.1.1 = r) W -> W <> [] ->
  max_row (apply_writes ws W) = Z.max (max_row ws) r.
Proof.
  induction W as [|x W IH]; intros ws HW Hne; [done|].
  inversion HW as [|? ? Hx HW']; subst. cbn [apply_writes foldl].
  destruct W as [|y W].
  - cbn [foldl]. unfold set_cell. cbn [max_row]. done.
  - fold (apply_writes (set_cell ws x.1.1 x.1.2 x.2) (y :: W)).
    rewrite IH by done. unfold set_cell. cbn [max_row]. lia.
Qed.

(** The sheet that [_insert_day_row] leaves behind. *)
Lemma inserted_row_sheet ws n d cfg :
  header_layout py ws n ->
  let row := insert_position ws d in
  let ws' := apply_writes (insert_rows ws row) (new_row_writes n row d cfg) in
  header_layout py ws' n /\
  max_row ws' = max_row ws + 1 /\
  (forall c, cell ws' row c =
     if decide (c = 1) then VStr (strftime_dmy d)
     else if decide (c = 2)
          then VStr (default "" (WEEKDAY_NAMES !! Z.to_nat (weekday d)))
     else if decide (c = 3 * n + 5)
          then VNum (_hours_to_fraction (get_expected_hours cfg (weekday d)))
     else VNone) /\
  (forall r c, r < row -> cell ws' r c = cell ws r c) /\
  (forall r c, row < r -> cell ws' r c = cell ws (r - 1) c).
Proof.
  intros Hl row ws'.
  assert (Hm : HEADER_ROW <= max_row ws) by (destruct Hl as (_ & _ & _ & _ & _ & ?); done).
  assert (Hn : 3 <= n) by (by destruct Hl).
  pose proof (insert_position_bounds ws d Hm) as Hpos. fold row in Hpos.
  assert (Hrows : Forall (fun x : Z * Z * value => x.1.1 = row) (new_row_writes n row d cfg))
    by (repeat (apply Forall_cons; split; [done|]); apply Forall_nil_2).
  split; [|split; [|split; [|split]]].
  - apply header_layout_apply_writes.
    + eapply Forall_impl; [exact Hrows|]. cbn beta. intros x ->. lia.
    + apply header_layout_insert_rows; [apply Hpos|done].
  - subst ws'. rewrite (max_row_apply_writes_row _ row) by done.
    unfold insert_rows. cbn [max_row].
    destruct (Z.leb_spec row (max_row ws)); lia.
  - intros c. subst ws'. rewrite cell_apply_writes, cell_insert_rows.
    unfold new_row_writes. cbn [written fst snd is_none negb andb].
    rewrite Z.eqb_refl, Z.ltb_irrefl. cbn [andb].
    repeat case_decide; subst;
      repeat match goal with
      | |- context [(?a =? ?b)] => destruct (Z.eqb_spec a b); try lia; cbn [andb]
      end; done.
  - intros r c Hr. subst ws'. rewrite cell_apply_writes, cell_insert_rows.
    rewrite written_none.
    + cbn [default]. destruct (Z.ltb_spec r row); [done|lia].
    + eapply Forall_impl; [exact Hrows|]. cbn beta. intros x ->. left. lia.
  - intros r c Hr. subst ws'. rewrite cell_apply_writes, cell_insert_rows.
    rewrite written_none.
    + cbn [default]. destruct (Z.ltb_spec r row); [lia|].
      destruct (Z.eqb_spec r row); [lia|done].
    + eapply Forall_impl; [exact Hrows|]. cbn beta. intros x ->. left. lia.
Qed.

Lemma inserted_row_found ws n d cfg :
  header_layout py ws n -> find_day_row ws d = None ->
  let row := insert_position ws d in
  find_day_row (apply_writes (insert_rows ws row) (new_row_writes n row d cfg)) d
  = Some row.
Proof.
  intros Hl Hf row.
  destruct (inserted_row_sheet ws n d cfg Hl) as (_ & Hmax & Hrow & Hlt & _).
  fold row in Hmax, Hrow, Hlt.
  assert (Hm : HEADER_ROW <= max_row ws) by (destruct Hl as (_ & _ & _ & _ & _ & ?); done).
  pose proof (insert_position_bounds ws d Hm) as Hpos. fold row in Hpos.
  unfold find_day_row. rewrite Hmax. apply find_range_first.
  - unfold HEADER_ROW in *. lia.
  - rewrite Hrow. case_decide; [|done]. apply date_cell_matches_own.
  - intros j Hj. rewrite Hlt by lia. apply (find_day_row_none ws d j Hf).
    unfold HEADER_ROW in *. lia.
Qed.

(** [recalculate_day] raises nothing but what reading the sheet raises. *)
Lemma read_hours_error v e : _read_hours_value py v = Err e -> e = NotANumber.
Proof.
  destruct v; simpl; try congruence.
  - destruct (py_float py s); [|congruence]. case_decide; congruence.
  - case_decide; congruence.
Qed.

Lemma recalc_writes_outcome ws n row d cfg :
  (recalc_writes py ws n row d cfg).2 = Ok tt \/
  (recalc_writes py ws n row d cfg).2 = Err NotANumber.
Proof.
  unfold recalc_writes. destruct (offset_blocks py ws n row).
  destruct (is_none _); [by left|].
  destruct (_read_hours_value py _) eqn:E; [by left|].
  right. cbn [snd]. f_equal. by eapply read_hours_error.
Qed.

Lemma recalc_writes_ok ws n row d cfg e :
  _read_hours_value py (cell ws row (3 * n + 5)) = Ok e ->
  (recalc_writes py ws n row d cfg).2 = Ok tt.
Proof.
  intros E. unfold recalc_writes. destruct (offset_blocks py ws n row).
  destruct (is_none _); [done|]. by rewrite E.
Qed.

(** The sheet and the row that [write_stamp] works on once it has found
    the day row or inserted one. *)
Definition located (ws : Worksheet) (n : Z) (d : date) (cfg : Config) : Worksheet * Z :=
  match find_day_row ws d with
  | Some row => (ws, row)
  | None =>
      (apply_writes (insert_rows ws (insert_position ws d))
                    (new_row_writes n (insert_position ws d) d cfg),
       insert_position ws d)
  end.

(** Block [b] of the row holds an entry and no exit. *)
Definition open_block (ws : Worksheet) (row b : Z) : bool :=
  negb (is_none (cell ws row (_ein_col b))) && is_none (cell ws row (_aus_col b)).

Lemma located_spec ws n d cfg :
  header_layout py ws n ->
  header_layout py (located ws n d cfg).1 n /\
  find_day_row (located ws n d cfg).1 d = Some (located ws n d cfg).2.
Proof.
  intros Hl. unfold located. destruct (find_day_row ws d) as [row|] eqn:Hf; cbn [fst snd].
  - done.
  - split; [apply (inserted_row_sheet ws n d cfg Hl)|by apply inserted_row_found].
Qed.

Lemma write_stamp_aus_run ws n d t is_home cfg :
  header_layout py ws n ->
  write_stamp py d t "aus" is_home cfg ws =
  match List.find (open_block (located ws n d cfg).1 (located ws n d cfg).2)
                  (reverse (range 1 (n + 1))) with
  | None => ((located ws n d cfg).1, Err NoOpenEntry)
  | Some b =>
      recalculate_day py d cfg
        (set_cell (located ws n d cfg).1 (located ws n d cfg).2 (_aus_col b) (VTime t))
  end.
Proof.
  intros Hl. destruct (located_spec ws n d cfg Hl) as [Hl1 _].
  unfold write_stamp, bind at 1. unfold gets at 1.
  assert (Hrow : (match find_day_row ws d with
                  | Some r => ret r
                  | None => _insert_day_row py d cfg
                  end) ws = ((located ws n d cfg).1, Ok (located ws n d cfg).2)).
  { unfold located. destruct (find_day_row ws d); [done|].
    by rewrite (insert_day_row_run ws n d cfg Hl). }
  unfold bind at 1. rewrite Hrow.
  unfold bind at 1. unfold gets at 1. rewrite (count_blocks_layout py _ n Hl1).
  rewrite (bool_decide_eq_false_2 ("aus" = "ein")) by done.
  rewrite (bool_decide_eq_true_2 ("aus" = "aus")) by done.
  unfold bind, gets. fold (open_block (located ws n d cfg).1 (located ws n d cfg).2).
  destruct (List.find _ _); done.
Qed.

(** Computations that never raise the clock-out error. *)
Definition no_open_error {A} (m : M A) : Prop :=
  forall ws, (m ws).2 <> Err NoOpenEntry.

Lemma no_open_error_ret {A} (a : A) : no_open_error (ret a).
Proof. intros ws. done. Qed.

Lemma no_open_error_gets {A} (f : Worksheet -> A) : no_open_error (gets f).
Proof. intros ws. done. Qed.

Lemma no_open_error_write r c v : no_open_error (write r c v).
Proof. intros ws. done. Qed.

Lemma no_open_error_modify f : no_open_error (modify f).
Proof. intros ws. done. Qed.

Lemma no_open_error_attempt {A} (f : Worksheet -> result A) :
  (forall ws, f ws <> Err NoOpenEntry) -> no_open_error (attempt f).
Proof. intros H ws. apply H. Qed.

Lemma no_open_error_bind {A B} (m : M A) (k : A -> M B) :
  no_open_error m -> (forall a, no_open_error (k a)) -> no_open_error (bind m k).
Proof.
  intros Hm Hk ws. unfold bind. specialize (Hm ws).
  destruct (m ws) as [ws' [a|e]]; [apply Hk|].
  cbn [snd] in *. congruence.
Qed.

Lemma find_summary_cols_error ws : _find_summary_cols ws <> Err NoOpenEntry.
Proof. unfold _find_summary_cols. by destruct (List.find _ _). Qed.

Lemma get_status_col_error ws : _get_status_col ws <> Err NoOpenEntry.
Proof.
  unfold _get_status_col. pose proof (find_summary_cols_error ws).
  destruct (_find_summary_cols ws) as [[[[? ?] ?] ?]|]; congruence.
Qed.

Lemma read_day_status_error ws row : _read_day_status py ws row <> Err NoOpenEntry.
Proof.
  unfold _read_day_status. pose proof (get_status_col_error ws).
  destruct (_get_status_col ws); congruence.
Qed.

Lemma read_hours_not_open v : _read_hours_value py v <> Err NoOpenEntry.
Proof. intros H. by apply read_hours_error in H. Qed.

Create HintDb no_open.

Local Hint Resolve no_open_error_ret no_open_error_gets no_open_error_write
  no_open_error_modify no_open_error_attempt no_open_error_bind
  find_summary_cols_error get_status_col_error read_day_status_error
  read_hours_not_open : no_open.

Lemma no_open_error_recalculate_blocks row offset first last blocks :
  forall total, no_open_error (recalculate_blocks row offset first last blocks total).
Proof.
  induction blocks as [|[[b ein] aus] blocks IH]; intros total; cbn [recalculate_blocks].
  - auto with no_open.
  - destruct ein, aus; apply no_open_error_bind; auto with no_open.
Qed.

Lemma no_open_error_recalculate_day d cfg : no_open_error (recalculate_day py d cfg).
Proof.
  unfold recalculate_day.
  apply no_open_error_bind; [auto with no_open|]. intros [row|]; [|auto with no_open].
  apply no_open_error_bind; [auto with no_open|]. intros n.
  apply no_open_error_bind; [auto with no_open|]. intros st.
  apply no_open_error_bind; [auto with no_open|]. intros blocks.
  apply no_open_error_bind; [apply no_open_error_recalculate_blocks|]. intros total.
  apply no_open_error_bind; [auto with no_open|]. intros [[[? g] s] b].
  apply no_open_error_bind; [auto with no_open|]. intros _.
  apply no_open_error_bind; [auto with no_open|]. intros soll.
  apply no_open_error_bind; [|auto with no_open].
  destruct (is_none soll); [auto with no_open|].
  apply no_open_error_attempt. intros _. apply read_hours_not_open.
Qed.

Lemma no_open_error_insert_day_row d cfg : no_open_error (_insert_day_row py d cfg).
Proof.
  unfold _insert_day_row.
  apply no_open_error_bind; [auto with no_open|]. intros found.
  apply no_open_error_bind; [auto with no_open|]. intros mr.
  apply no_open_error_bind; [auto with no_open|]. intros _.
  apply no_open_error_bind; [auto with no_open|]. intros [[[? g] s] b].
  repeat (apply no_open_error_bind; [auto with no_open|]; intros _).
  auto with no_open.
Qed.

Lemma no_open_error_expand_blocks k : no_open_error (_expand_blocks k).
Proof.
  unfold _expand_blocks.
  apply no_open_error_bind; [auto with no_open|]. intros c.
  repeat (apply no_open_error_bind; [auto with no_open|]; intros _).
  auto with no_open.
Qed.

Lemma no_open_error_clock_in d t is_home cfg :
  no_open_error (write_stamp py d t "ein" is_home cfg).
Proof.
  unfold write_stamp.
  apply no_open_error_bind; [auto with no_open|]. intros found.
  apply no_open_error_bind.
  { destruct found; [auto with no_open|apply no_open_error_insert_day_row]. }
  intros row.
  apply no_open_error_bind; [auto with no_open|]. intros n.
  apply no_open_error_bind; [|intros _; apply no_open_error_recalculate_day].
  rewrite (bool_decide_eq_true_2 ("ein" = "ein")) by done.
  apply no_open_error_bind; [auto with no_open|]. intros free.
  apply no_open_error_bind.
  { destruct free; [auto with no_open|].
    apply no_open_error_bind; [apply no_open_error_expand_blocks|auto with no_open]. }
  intros b.
  apply no_open_error_bind; [auto with no_open|]. intros _.
  destruct (b =? 1); [|auto with no_open].
  apply no_open_error_bind; [auto with no_open|]. intros c. auto with no_open.
Qed.

(** The sheet after [_expand_blocks] has added block [n + 1]. *)
Definition expanded (ws : Worksheet) (n : Z) : Worksheet :=
  apply_writes (insert_cols ws (3 * n + 3) BLOCK_WIDTH)
    [(HEADER_ROW, 3 * n + 3, VStr ("Ein " +:+ pretty (n + 1)));
     (HEADER_ROW, 3 * n + 3 + 1, VStr ("Aus " +:+ pretty (n + 1)));
     (HEADER_ROW, 3 * n + 3 + 2, VStr ("Stunden " +:+ pretty (n + 1)))].

Lemma expand_blocks_run ws n :
  header_layout py ws n -> _expand_blocks (n + 1) ws = (expanded ws n, Ok tt).
Proof.
  intros Hl. unfold _expand_blocks, bind, attempt, modify, write, _get_status_col.
  by rewrite (find_summary_cols_layout py ws n Hl).
Qed.

Lemma expanded_cell ws n r c :
  HEADER_ROW < r ->
  cell (expanded ws n) r c =
  if c <? 3 * n + 3 then cell ws r c
  else if c <? 3 * n + 6 then VNone else cell ws r (c - 3).
Proof.
  intros Hr. unfold expanded. rewrite cell_apply_writes, written_none.
  - cbn [default]. rewrite cell_insert_cols. unfold BLOCK_WIDTH.
    replace (3 * n + 3 + 3) with (3 * n + 6) by lia. done.
  - repeat (apply Forall_cons; split; [cbn [fst snd]; left; lia|]). apply Forall_nil_2.
Qed.

Lemma expanded_header ws n c :
  cell (expanded ws n) HEADER_ROW c =
  if decide (c = 3 * n + 3) then VStr ("Ein " +:+ pretty (n + 1))
  else if decide (c = 3 * n + 4) then VStr ("Aus " +:+ pretty (n + 1))
  else if decide (c = 3 * n + 5) then VStr ("Stunden " +:+ pretty (n + 1))
  else if decide (c < 3 * n + 3) then cell ws HEADER_ROW c
  else cell ws HEADER_ROW (c - 3).
Proof.
  unfold expanded. rewrite cell_apply_writes, cell_insert_cols. unfold BLOCK_WIDTH.
  cbn [written fst snd is_none negb andb]. rewrite !Z.eqb_refl. cbn [andb].
  repeat case_decide; subst;
    repeat match goal with
    | |- context [(?a =? ?b)] => destruct (Z.eqb_spec a b); try lia; cbn [andb]
    end; cbn [default];
    repeat match goal with
    | |- context [(?a <? ?b)] => destruct (Z.ltb_spec a b); try lia
    end; done.
Qed.

Lemma expanded_extent ws n :
  header_layout py ws n ->
  max_row (expanded ws n) = max_row ws /\
  max_column (expanded ws n) = max_column ws + 3.
Proof.
  intros (Hn & _ & _ & _ & Hmax & Hrow).
  unfold expanded.
  assert (Hc : max_column (insert_cols ws (3 * n + 3) BLOCK_WIDTH) = max_column ws + 3).
  { unfold insert_cols, BLOCK_WIDTH. cbn [max_column].
    destruct (Z.leb_spec (3 * n + 3) (max_column ws)); lia. }
  assert (Hr : max_row (insert_cols ws (3 * n + 3) BLOCK_WIDTH) = max_row ws) by done.
  rewrite <- Hc, <- Hr. apply apply_writes_bounds.
  repeat (apply Forall_cons; split; [cbn [fst snd]; rewrite Hc, Hr; lia|]).
  apply Forall_nil_2.
Qed.

Lemma expanded_layout ws n :
  header_layout py ws n -> header_layout py (expanded ws n) (n + 1).
Proof.
  intros Hl. destruct (expanded_extent ws n Hl) as [Hr Hc].
  destruct Hl as (Hn & Hein & Hno & Hst & Hmax & Hrow).
  split; [lia|]. split; [|split; [|split; [|split]]].
  - intros b Hb. rewrite expanded_header.
    unfold _ein_col, DATE_COLS, BLOCK_WIDTH in *.
    repeat case_decide; try lia.
    + done.
    + apply Hein. lia.
  - intros c Hc'. rewrite expanded_header.
    repeat case_decide; try lia; try done.
    apply Hno. lia.
  - rewrite expanded_header. repeat case_decide; try lia.
    replace (3 * (n + 1) + 3 - 3) with (3 * n + 3) by lia. done.
  - lia.
  - lia.
Qed.

(** C9: a clock-out on a date without a day row fails only after the row
    has been inserted: the sheet the failed call leaves behind holds a new
    row for the date, with the weekday and the expected hours filled in and
    no stamp, and the rows below it have moved down. *)
Theorem failed_clock_out_inserts_row ws n d t is_home cfg :
  header_layout py ws n -> find_day_row ws d = None ->
  let out := write_stamp py d t "aus" is_home cfg ws in
  exists row,
    out.2 = Err NoOpenEntry /\
    find_day_row out.1 d = Some row /\
    max_row out.1 = max_row ws + 1 /\
    cell out.1 row 1 = VStr (strftime_dmy d) /\
    cell out.1 row 2 = VStr (default "" (WEEKDAY_NAMES !! Z.to_nat (weekday d))) /\
    cell out.1 row (3 * n + 5)
    = VNum (_hours_to_fraction (get_expected_hours cfg (weekday d))) /\
    (forall c, c <> 1 -> c <> 2 -> c <> 3 * n + 5 -> cell out.1 row c = VNone) /\
    (forall r c, r < row -> cell out.1 r c = cell ws r c) /\
    (forall r c, row < r -> cell out.1 r c = cell ws (r - 1) c).
Proof.
  intros Hl Hf out. subst out. exists (insert_position ws d).
  assert (Hn : 3 <= n) by (by destruct Hl).
  destruct (inserted_row_sheet ws n d cfg Hl) as (Hl' & Hmax & Hrow & Hlt & Hgt).
  rewrite (write_stamp_aus_run ws n d t is_home cfg Hl).
  unfold located. rewrite Hf. cbn [fst snd].
  rewrite find_rev_range_none; cycle 1.
  { intros b Hb. unfold open_block. rewrite Hrow.
    unfold _ein_col, DATE_COLS, BLOCK_WIDTH. repeat case_decide; try lia. done. }
  cbn [fst snd]. split; [done|]. split; [by apply inserted_row_found|].
  split; [done|]. rewrite !Hrow. repeat case_decide; try lia.
  split; [done|]. split; [done|]. split; [done|]. split; [|done].
  intros c ? ? ?. rewrite Hrow. repeat case_decide; try lia. done.
Qed.

Lemma write_stamp_ein_full_run ws n d t is_home cfg row :
  header_layout py ws n -> find_day_row ws d = Some row ->
  (forall b, 1 <= b <= n -> cell ws row (_ein_col b) <> VNone) ->
  write_stamp py d t "ein" is_home cfg ws =
  recalculate_day py d cfg (set_cell (expanded ws n) row (_ein_col (n + 1)) (VTime t)).
Proof.
  intros Hl Hf Hfull. assert (Hn : 3 <= n) by (by destruct Hl).
  unfold write_stamp, bind at 1. unfold gets at 1. rewrite Hf.
  unfold bind at 1. unfold ret at 1.
  unfold bind at 1. unfold gets at 1. rewrite (count_blocks_layout py _ n Hl).
  rewrite (bool_decide_eq_true_2 ("ein" = "ein")) by done.
  unfold bind at 1. unfold bind at 1. unfold gets at 1.
  rewrite find_range_none; cycle 1.
  { intros b Hb. specialize (Hfull b ltac:(lia)).
    by destruct (cell ws row (_ein_col b)). }
  unfold bind at 1. unfold bind at 1. rewrite (expand_blocks_run ws n Hl).
  unfold ret at 1. unfold bind at 1. unfold write at 1.
  destruct (Z.eqb_spec (n + 1) 1); [lia|]. done.
Qed.

(** C5: a clock-out raises the no-open-entry error exactly when no block
    of the day holds an entry without an exit, and otherwise stamps the
    last such block; a clock-in never raises that error, and when every
    entry slot of the row is taken it appends a block and stamps it. *)
Theorem write_stamp_errors :
  (forall ws n d t is_home cfg,
     header_layout py ws n ->
     ((write_stamp py d t "aus" is_home cfg ws).2 = Err NoOpenEntry <->
      ~ exists row b, find_day_row ws d = Some row /\ 1 <= b <= n /\
                      open_block ws row b = true)) /\
  (forall ws n d t is_home cfg row b,
     header_layout py ws n -> find_day_row ws d = Some row ->
     1 <= b <= n -> open_block ws row b = true ->
     (forall j, b < j <= n -> open_block ws row j = false) ->
     cell (write_stamp py d t "aus" is_home cfg ws).1 row (_aus_col b) = VTime t) /\
  (forall ws d t is_home cfg,
     (write_stamp py d t "ein" is_home cfg ws).2 <> Err NoOpenEntry) /\
  (forall ws n d t is_home cfg row,
     header_layout py ws n -> find_day_row ws d = Some row ->
     (forall b, 1 <= b <= n -> cell ws row (_ein_col b) <> VNone) ->
     let out := write_stamp py d t "ein" is_home cfg ws in
     header_layout py out.1 (n + 1) /\
     cell out.1 row (_ein_col (n + 1)) = VTime t /\
     (forall b, 1 <= b <= n ->
        cell out.1 row (_ein_col b) = cell ws row (_ein_col b) /\
        cell out.1 row (_aus_col b) = cell ws row (_aus_col b)) /\
     (out.2 = Ok tt \/ out.2 = Err NotANumber) /\
     (forall e, _read_hours_value py (cell ws row (3 * n + 5)) = Ok e -> out.2 = Ok tt)).
Proof.
  split; [|split; [|split]].
  - intros ws n d t is_home cfg Hl.
    rewrite (write_stamp_aus_run ws n d t is_home cfg Hl).
    unfold located. destruct (find_day_row ws d) as [row|] eqn:Hf; cbn [fst snd].
    + destruct (List.find _ _) as [b|] eqn:E.
      * split.
        { intros H. by apply no_open_error_recalculate_day in H. }
        intros H. exfalso. apply H. exists row, b.
        apply find_rev_range_some in E as (? & ? & _). split; [done|]. split; [lia|done].
      * split; [|done]. intros _ (row' & b & [= <-] & Hb & Ho).
        rewrite find_none_Forall, Forall_forall in E.
        rewrite (E b) in Ho; [done|]. rewrite elem_of_reverse. apply elem_of_range. lia.
    + destruct (inserted_row_sheet ws n d cfg Hl) as (_ & _ & Hrow & _).
      assert (Hn : 3 <= n) by (by destruct Hl).
      rewrite find_rev_range_none; cycle 1.
      { intros b Hb. unfold open_block. rewrite Hrow.
        unfold _ein_col, DATE_COLS, BLOCK_WIDTH. repeat case_decide; try lia. done. }
      split; [|done]. intros _ (row' & b & ? & _). done.
  - intros ws n d t is_home cfg row b Hl Hf Hb Ho Hlast.
    assert (Hn : 3 <= n) by (by destruct Hl).
    pose proof (find_day_row_bounds _ _ _ Hf) as Hrow.
    rewrite (write_stamp_aus_run ws n d t is_home cfg Hl).
    unfold located. rewrite Hf. cbn [fst snd].
    rewrite (find_rev_range_last _ 1 (n + 1) b); [|lia|done|intros; apply Hlast; lia].
    set (ws1 := set_cell ws row (_aus_col b) (VTime t)).
    assert (Hl1 : header_layout py ws1 n) by (apply header_layout_set_cell; [lia|done]).
    assert (Hf1 : find_day_row ws1 d = Some row).
    { rewrite <- Hf. apply find_day_row_ext.
      - intros r. apply cell_set_cell_ne. right.
        unfold _aus_col, _ein_col, DATE_COLS, BLOCK_WIDTH. lia.
      - unfold ws1, set_cell. cbn [max_row]. lia. }
    rewrite (recalculate_day_cell py ws1 n d cfg row) by done.
    rewrite recalc_keeps_stamps; [|lia| |].
    + cbn [default]. unfold ws1. by rewrite cell_set_cell_eq.
    + unfold _aus_col, _ein_col, DATE_COLS, BLOCK_WIDTH. lia.
    + intros k. apply aus_col_not_stunden.
  - intros ws d t is_home cfg. apply no_open_error_clock_in.
  - intros ws n d t is_home cfg row Hl Hf Hfull out. subst out.
    assert (Hn : 3 <= n) by (by destruct Hl).
    pose proof (find_day_row_bounds _ _ _ Hf) as Hrow.
    rewrite (write_stamp_ein_full_run ws n d t is_home cfg row Hl Hf Hfull).
    set (ws1 := set_cell (expanded ws n) row (_ein_col (n + 1)) (VTime t)).
    destruct (expanded_extent ws n Hl) as [Her Hec].
    assert (Hl1 : header_layout py ws1 (n + 1)).
    { apply header_layout_set_cell; [lia|]. by apply expanded_layout. }
    assert (Hf1 : find_day_row ws1 d = Some row).
    { rewrite <- Hf. apply find_day_row_ext.
      - intros r. unfold ws1. rewrite cell_set_cell_ne
          by (right; unfold _ein_col, DATE_COLS, BLOCK_WIDTH; lia).
        destruct (decide (r = HEADER_ROW)) as [->|].
        + rewrite expanded_header. repeat case_decide; try lia. done.
        + destruct (Z.lt_trichotomy r HEADER_ROW) as [?|[?|?]]; [|done|].
          * unfold expanded. rewrite cell_apply_writes, written_none.
            -- cbn [default]. rewrite cell_insert_cols.
               destruct (Z.ltb_spec 1 (3 * n + 3)); [done|lia].
            -- repeat (apply Forall_cons; split; [cbn [fst snd]; left; lia|]).
               apply Forall_nil_2.
          * rewrite expanded_cell by done.
            destruct (Z.ltb_spec 1 (3 * n + 3)); [done|lia].
      - unfold ws1, set_cell. cbn [max_row]. lia. }
    assert (Hkeep : forall c, c < 3 * n + 3 ->
              (forall k, c <> _stunden_col k) ->
              cell (recalculate_day py d cfg ws1).1 row c = cell ws row c).
    { intros c Hc Hk. rewrite (recalculate_day_cell py ws1 (n + 1) d cfg row) by done.
      rewrite recalc_keeps_stamps; [|lia|lia|done]. cbn [default].
      unfold ws1. rewrite cell_set_cell_ne
        by (right; unfold _ein_col, DATE_COLS, BLOCK_WIDTH; lia).
      rewrite expanded_cell by lia. destruct (Z.ltb_spec c (3 * n + 3)); [done|lia]. }
    split; [|split; [|split; [|split]]].
    + rewrite (recalculate_day_run py ws1 (n + 1) d cfg row Hl1 Hf1). cbn [fst].
      apply header_layout_apply_writes; [|done].
      eapply Forall_impl; [apply (recalc_writes_shape py ws1 (n + 1) row d cfg); lia|].
      cbn beta. intros x [-> _]. lia.
    + rewrite (recalculate_day_cell py ws1 (n + 1) d cfg row) by done.
      rewrite recalc_keeps_stamps; [|lia| |].
      * cbn [default]. unfold ws1. by rewrite cell_set_cell_eq.
      * unfold _ein_col, DATE_COLS, BLOCK_WIDTH. lia.
      * intros k. apply ein_col_not_stunden.
    + intros b Hb. split; apply Hkeep.
      * unfold _ein_col, DATE_COLS, BLOCK_WIDTH. lia.
      * intros k. apply ein_col_not_stunden.
      * unfold _aus_col, _ein_col, DATE_COLS, BLOCK_WIDTH. lia.
      * intros k. apply aus_col_not_stunden.
    + rewrite (recalculate_day_run py ws1 (n + 1) d cfg row Hl1 Hf1). cbn [snd].
      apply recalc_writes_outcome.
    + intros e He. rewrite (recalculate_day_run py ws1 (n + 1) d cfg row Hl1 Hf1). cbn [snd].
      apply (recalc_writes_ok ws1 (n + 1) row d cfg e).
      unfold ws1. rewrite cell_set_cell_ne
        by (right; unfold _ein_col, DATE_COLS, BLOCK_WIDTH; lia).
      rewrite expanded_cell by lia.
      destruct (Z.ltb_spec (3 * (n + 1) + 5) (3 * n + 3)); [lia|].
      destruct (Z.ltb_spec (3 * (n + 1) + 5) (3 * n + 6)); [lia|].
      replace (3 * (n + 1) + 5 - 3) with (3 * n + 5) by lia. done.
Qed.

End Stamps.

Section Fill.
Variable py : Builtins.

(** The date of a row that [fill_missing_days] fills: a row dated before
    the cutoff, with no entry stamp and no total. *)
Definition fill_date (ws : Worksheet) (n row : Z) (up_to_date : date) : option date :=
  match parse_date_cell py (cell ws row 1) with
  | Some dt =>
      if date_geb dt up_to_date then None
      else if has_stamps ws row n then None
      else if negb (is_none (cell ws row (3 * n + 4))) then None
      else Some dt
  | None => None
  end.

Definition fill_writes (cfg : Config) (n row : Z) (dt : date) : list (Z * Z * value) :=
  let expected := get_expected_hours cfg (weekday dt) in
  [(row, 3 * n + 4, VNum (_hours_to_fraction expected));
   (row, 3 * n + 5, VNum (_hours_to_fraction expected));
   (row, 3 * n + 6, VNum #0)].

(** The sheet after the row loop has passed row [row]. *)
Definition fill_step (cfg : Config) (up_to_date : date) (n : Z) (ws : Worksheet)
    (row : Z) : Worksheet :=
  match fill_date ws n row up_to_date with
  | Some dt => apply_writes ws (fill_writes cfg n row dt)
  | None => ws
  end.

Lemma fill_row_run ws n cfg up_to_date row :
  header_layout py ws n ->
  fill_row py cfg up_to_date (3 * n + 4) (3 * n + 5) (3 * n + 6) row ws =
  (fill_step cfg up_to_date n ws row, Ok tt).
Proof.
  intros Hl. unfold fill_row, fill_step, fill_date.
  rewrite (count_blocks_layout py ws n Hl).
  destruct (parse_date_cell py (cell ws row 1)) as [dt|]; [|done].
  destruct (date_geb dt up_to_date); [done|].
  destruct (has_stamps ws row n); [done|].
  destruct (negb (is_none (cell ws row (3 * n + 4)))); done.
Qed.

Lemma existsb_ext_in {A} (f g : A -> bool) l :
  (forall x, x ∈ l -> f x = g x) -> existsb f l = existsb g l.
Proof.
  induction l as [|x l IH]; intros H; [done|]. simpl.
  rewrite (H x) by left. rewrite IH; [done|]. intros y Hy. apply H. by right.
Qed.

Lemma fill_date_ext ws ws' n row up_to_date :
  (forall c, cell ws' row c = cell ws row c) ->
  fill_date ws' n row up_to_date = fill_date ws n row up_to_date.
Proof.
  intros H. unfold fill_date, has_stamps. rewrite !H.
  rewrite (existsb_ext_in _ (fun b => negb (is_none (cell ws row (_ein_col b))))); [done|].
  intros b _. by rewrite H.
Qed.

Lemma fill_writes_rows cfg n row dt :
  Forall (fun x => x.1.1 = row /\ 3 * n + 4 <= x.1.2 <= 3 * n + 6) (fill_writes cfg n row dt).
Proof. repeat (apply Forall_cons; split; [cbn [fst snd]; lia|]). apply Forall_nil_2. Qed.

Lemma fill_writes_cell ws cfg n row dt c :
  cell (apply_writes ws (fill_writes cfg n row dt)) row c =
  if decide (c = 3 * n + 4)
  then VNum (_hours_to_fraction (get_expected_hours cfg (weekday dt)))
  else if decide (c = 3 * n + 5)
  then VNum (_hours_to_fraction (get_expected_hours cfg (weekday dt)))
  else if decide (c = 3 * n + 6) then VNum #0
  else cell ws row c.
Proof.
  rewrite cell_apply_writes. unfold fill_writes.
  cbn [written fst snd is_none negb andb]. rewrite Z.eqb_refl. cbn [andb].
  repeat case_decide; subst;
    repeat match goal with
    | |- context [(?a =? ?b)] => destruct (Z.eqb_spec a b); try lia; cbn [andb]
    end; done.
Qed.

(** One pass of the loop touches the row it visits and no other. *)
Lemma fill_step_spec ws n cfg up_to_date row :
  header_layout py ws n -> HEADER_ROW < row <= max_row ws ->
  let ws' := fill_step cfg up_to_date n ws row in
  header_layout py ws' n /\
  max_row ws' = max_row ws /\ max_column ws' = max_column ws /\
  (forall r c, r <> row -> cell ws' r c = cell ws r c).
Proof.
  intros Hl Hrow ws'. subst ws'. unfold fill_step.
  destruct (fill_date ws n row up_to_date) as [dt|]; [|done].
  assert (Hb : in_bounds ws (fill_writes cfg n row dt)).
  { destruct Hl as (_ & _ & _ & _ & ? & _).
    eapply Forall_impl; [apply fill_writes_rows|]. cbn beta. intros x [-> ?]. lia. }
  destruct (apply_writes_bounds _ _ Hb) as [-> ->].
  split; [|split; [done|split; [done|]]].
  - apply header_layout_apply_writes; [|done].
    eapply Forall_impl; [apply fill_writes_rows|]. cbn beta. intros x [-> ?]. lia.
  - intros r c Hr. rewrite cell_apply_writes, written_none; [done|].
    eapply Forall_impl; [apply fill_writes_rows|]. cbn beta. intros x [-> ?]. left. done.
Qed.

(** The cells that [fill_missing_days] leaves in a row. *)
Definition filled_cell (ws : Worksheet) (cfg : Config) (up_to_date : date) (n r c : Z)
  : value :=
  match fill_date ws n r up_to_date with
  | Some dt =>
      if decide (c = 3 * n + 4)
      then VNum (_hours_to_fraction (get_expected_hours cfg (weekday dt)))
      else if decide (c = 3 * n + 5)
      then VNum (_hours_to_fraction (get_expected_hours cfg (weekday dt)))
      else if decide (c = 3 * n + 6) then VNum #0
      else cell ws r c
  | None => cell ws r c
  end.

Lemma fill_loop_spec cfg up_to_date n rows : forall ws,
  header_layout py ws n -> NoDup rows ->
  (forall r, r ∈ rows -> HEADER_ROW < r <= max_row ws) ->
  exists ws',
    for_each rows (fill_row py cfg up_to_date (3 * n + 4) (3 * n + 5) (3 * n + 6)) ws
    = (ws', Ok tt) /\
    header_layout py ws' n /\
    max_row ws' = max_row ws /\ max_column ws' = max_column ws /\
    (forall r c, r ∉ rows -> cell ws' r c = cell ws r c) /\
    (forall r c, r ∈ rows -> cell ws' r c = filled_cell ws cfg up_to_date n r c).
Proof.
  induction rows as [|row rows IH]; intros ws Hl Hnd Hrows.
  - exists ws. do 5 (split; [done|]).
    intros r c Hr. by apply elem_of_nil in Hr.
  - apply NoDup_cons in Hnd as [Hnotin Hnd].
    assert (Hrow : HEADER_ROW < row <= max_row ws) by (apply Hrows; left).
    destruct (fill_step_spec ws n cfg up_to_date row Hl Hrow) as (Hl1 & Hmr & Hmc & Hfr).
    destruct (IH (fill_step cfg up_to_date n ws row) Hl1 Hnd) as
      (ws' & Hrun & Hl' & Hmr' & Hmc' & Hout & Hin).
    { intros r Hr. rewrite Hmr. apply Hrows. by right. }
    exists ws'. split; [|split; [done|split; [lia|split; [lia|split]]]].
    + cbn [for_each]. unfold bind. rewrite (fill_row_run ws n cfg up_to_date row Hl).
      exact Hrun.
    + intros r c Hr. rewrite Hout by (intros ?; apply Hr; by right).
      apply Hfr. intros ->. apply Hr. left.
    + intros r c Hr. apply elem_of_cons in Hr as [->|Hr].
      * rewrite Hout by done. unfold filled_cell, fill_step.
        destruct (fill_date ws n row up_to_date) as [dt|]; [|done].
        apply fill_writes_cell.
      * rewrite Hin by done. unfold filled_cell.
        assert (r <> row) by (intros ->; done).
        rewrite (fill_date_ext ws (fill_step cfg up_to_date n ws row))
          by (intros; by apply Hfr).
        destruct (fill_date ws n r up_to_date); rewrite ?Hfr by done; done.
Qed.

Lemma fill_loop_none cfg up_to_date n rows ws :
  header_layout py ws n ->
  (forall r, r ∈ rows -> fill_date ws n r up_to_date = None) ->
  for_each rows (fill_row py cfg up_to_date (3 * n + 4) (3 * n + 5) (3 * n + 6)) ws
  = (ws, Ok tt).
Proof.
  intros Hl. induction rows as [|row rows IH]; intros Hnone; [done|].
  cbn [for_each]. unfold bind. rewrite (fill_row_run ws n cfg up_to_date row Hl).
  unfold fill_step. rewrite (Hnone row) by left. apply IH.
  intros r Hr. apply Hnone. by right.
Qed.

Lemma fill_missing_days_run cfg up_to_date n ws :
  header_layout py ws n ->
  fill_missing_days py cfg up_to_date ws =
  for_each (range (HEADER_ROW + 1) (max_row ws + 1))
           (fill_row py cfg up_to_date (3 * n + 4) (3 * n + 5) (3 * n + 6)) ws.
Proof.
  intros Hl. unfold fill_missing_days, bind, attempt, gets.
  by rewrite (find_summary_cols_layout py ws n Hl).
Qed.

Lemma fill_date_some ws n r up_to_date dt :
  fill_date ws n r up_to_date = Some dt ->
  parse_date_cell py (cell ws r 1) = Some dt /\
  date_ltb dt up_to_date = true /\
  (forall b, 1 <= b <= n -> cell ws r (_ein_col b) = VNone) /\
  cell ws r (3 * n + 4) = VNone.
Proof.
  unfold fill_date.
  destruct (parse_date_cell py (cell ws r 1)) as [dt'|]; [|done].
  unfold date_geb. destruct (date_ltb dt' up_to_date) eqn:Hlt; cbn [negb]; [|done].
  destruct (has_stamps ws r n) eqn:Hst; [done|].
  destruct (cell ws r (3 * n + 4)) eqn:Hg; cbn [is_none negb]; try done.
  intros [= <-]. split; [done|]. split; [done|]. split; [|done].
  intros b Hb. unfold has_stamps in Hst.
  destruct (cell ws r (_ein_col b)) eqn:E; [done|exfalso..].
  all: assert (existsb (fun b => negb (is_none (cell ws r (_ein_col b))))
                       (range 1 (n + 1)) = true) as Hex
         by (apply existsb_exists; exists b; split;
             [apply list_elem_of_In, elem_of_range; lia|by rewrite E]).
  all: congruence.
Qed.

(** C6: [fill_missing_days] changes a cell only in a day row dated before
    the cutoff that holds no entry and no total (and then no exit either,
    when exits of the row only come with entries), and only its total,
    expected hours and balance, which become the expected hours of the
    weekday, the same, and 0; a second run with the same cutoff changes
    nothing. *)
Theorem fill_missing_days_frame ws n cfg up_to_date :
  header_layout py ws n ->
  let out := fill_missing_days py cfg up_to_date ws in
  out.2 = Ok tt /\
  (forall r c, cell out.1 r c <> cell ws r c ->
     exists dt,
       HEADER_ROW < r <= max_row ws /\
       parse_date_cell py (cell ws r 1) = Some dt /\
       date_ltb dt up_to_date = true /\
       (forall b, 1 <= b <= n -> cell ws r (_ein_col b) = VNone) /\
       ((forall b, 1 <= b <= n ->
           cell ws r (_aus_col b) <> VNone -> cell ws r (_ein_col b) <> VNone) ->
        forall b, 1 <= b <= n -> cell ws r (_aus_col b) = VNone) /\
       cell ws r (3 * n + 4) = VNone /\
       (c = 3 * n + 4 \/ c = 3 * n + 5 \/ c = 3 * n + 6) /\
       cell out.1 r (3 * n + 4)
       = VNum (_hours_to_fraction (get_expected_hours cfg (weekday dt))) /\
       cell out.1 r (3 * n + 5)
       = VNum (_hours_to_fraction (get_expected_hours cfg (weekday dt))) /\
       cell out.1 r (3 * n + 6) = VNum #0) /\
  (forall r dt,
     HEADER_ROW < r <= max_row ws -> fill_date ws n r up_to_date = Some dt ->
     cell out.1 r (3 * n + 4)
     = VNum (_hours_to_fraction (get_expected_hours cfg (weekday dt))) /\
     cell out.1 r (3 * n + 5)
     = VNum (_hours_to_fraction (get_expected_hours cfg (weekday dt))) /\
     cell out.1 r (3 * n + 6) = VNum #0) /\
  fill_missing_days py cfg up_to_date out.1 = (out.1, Ok tt).
Proof.
  intros Hl out. subst out.
  assert (Hn : 3 <= n) by (by destruct Hl).
  rewrite (fill_missing_days_run cfg up_to_date n ws Hl).
  destruct (fill_loop_spec cfg up_to_date n (range (HEADER_ROW + 1) (max_row ws + 1)) ws Hl)
    as (ws' & Hrun & Hl' & Hmr & Hmc & Hout & Hin).
  { apply NoDup_seqZ. }
  { intros r Hr%elem_of_range. unfold HEADER_ROW in *. lia. }
  rewrite Hrun. cbn [fst snd].
  assert (Hfilled : forall r dt,
            HEADER_ROW < r <= max_row ws -> fill_date ws n r up_to_date = Some dt ->
            cell ws' r (3 * n + 4)
            = VNum (_hours_to_fraction (get_expected_hours cfg (weekday dt))) /\
            cell ws' r (3 * n + 5)
            = VNum (_hours_to_fraction (get_expected_hours cfg (weekday dt))) /\
            cell ws' r (3 * n + 6) = VNum #0).
  { intros r dt Hr Hd.
    assert (Hrin : r ∈ range (HEADER_ROW + 1) (max_row ws + 1))
      by (apply elem_of_range; unfold HEADER_ROW in *; lia).
    rewrite !Hin by done. unfold filled_cell. rewrite Hd.
    repeat case_decide; try lia. done. }
  split; [done|]. split; [|split; [done|]].
  - intros r c Hne.
    destruct (decide (r ∈ range (HEADER_ROW + 1) (max_row ws + 1))) as [Hr|Hr];
      [|by rewrite Hout in Hne].
    rewrite Hin in Hne by done. unfold filled_cell in Hne.
    destruct (fill_date ws n r up_to_date) as [dt|] eqn:Hd; [|done].
    apply elem_of_range in Hr.
    destruct (fill_date_some ws n r up_to_date dt Hd) as (Hp & Hlt & Hein & Hg).
    destruct (Hfilled r dt) as (? & ? & ?); [unfold HEADER_ROW in *; lia|done|].
    exists dt. split; [unfold HEADER_ROW in *; lia|].
    split; [done|]. split; [done|]. split; [done|]. split.
    { intros Hinv b Hb. destruct (decide (cell ws r (_aus_col b) = VNone)) as [|Hx]; [done|].
      apply Hinv in Hx; [|done]. by rewrite Hein in Hx. }
    split; [done|]. split; [|done].
    repeat case_decide; auto. done.
  - rewrite (fill_missing_days_run cfg up_to_date n ws' Hl'), Hmr.
    apply fill_loop_none; [done|]. intros r Hr.
    destruct (fill_date ws n r up_to_date) as [dt|] eqn:Hd.
    + unfold fill_date.
      destruct (parse_date_cell py (cell ws' r 1)); [|done].
      destruct (date_geb _ _); [done|]. destruct (has_stamps ws' r n); [done|].
      apply elem_of_range in Hr.
      destruct (Hfilled r dt) as (-> & _); [unfold HEADER_ROW in *; lia|done|]. done.
    + rewrite <- Hd. apply fill_date_ext. intros c. rewrite Hin by done.
      unfold filled_cell. by rewrite Hd.
Qed.

End Fill.

Definition Qc_sum (l : list Qc) : Qc := foldr Qcplus #0 l.

(** What a day row adds to the balance: nothing on or after the cutoff,
    else the stored balance, else total less expected hours. *)
Definition day_contribution (up_to_date : date)
    (x : date * option Qc * Qc * option Qc) : Qc :=
  let '(dt, total, expected, saldo) := x in
  if date_geb dt up_to_date then #0
  else match saldo, total with
       | Some saldo, _ => saldo
       | None, Some total => (total - expected)%Qc
       | None, None => #0
       end.

(** A month the year loop reaches: it stops after the month of the cutoff
    in the year of the cutoff. *)
Definition month_in_reach (up_to_date : date) (y m : Z) : bool :=
  negb ((y =? year up_to_date) && (month up_to_date <? m)).

Lemma Qc_of_Z_0 : #0 = 0%Qc.
Proof. apply Qc_is_canon. reflexivity. Qed.

Lemma Qcplus_zero_r (x : Qc) : (x + #0)%Qc = x.
Proof. rewrite Qc_of_Z_0. apply Qcplus_0_r. Qed.

Lemma Qcplus_zero_l (x : Qc) : (#0 + x)%Qc = x.
Proof. rewrite Qc_of_Z_0. apply Qcplus_0_l. Qed.

Lemma Qc_sum_zero {A} (f : A -> Qc) l :
  (forall x, x ∈ l -> f x = #0) -> Qc_sum (f <$> l) = #0.
Proof.
  induction l as [|x l IH]; intros H; [done|]. cbn [fmap list_fmap Qc_sum foldr].
  rewrite (H x) by left. fold (Qc_sum (f <$> l)). rewrite IH.
  - apply Qcplus_zero_r.
  - intros y Hy. apply H. by right.
Qed.

Lemma Qc_sum_cons x l : Qc_sum (x :: l) = (x + Qc_sum l)%Qc.
Proof. done. Qed.

Lemma add_day_rows_sum up_to_date rows : forall total_balance,
  add_day_rows up_to_date rows total_balance
  = (total_balance + Qc_sum (day_contribution up_to_date <$> rows))%Qc.
Proof.
  induction rows as [|[[[dt total] expected] saldo] rows IH]; intros acc.
  - cbn. by rewrite Qcplus_zero_r.
  - unfold add_day_rows in *. cbn [foldl fmap list_fmap]. rewrite IH, Qc_sum_cons.
    unfold day_contribution at 2.
    destruct (date_geb dt up_to_date).
    + by rewrite Qcplus_zero_l.
    + destruct saldo, total; rewrite ?Qcplus_zero_l; try done; ring.
Qed.

Lemma month_name_inj m m' :
  1 <= m < 13 -> 1 <= m' < 13 -> month_name m = month_name m' -> m = m'.
Proof.
  intros Hm Hm'.
  assert (m = 1 \/ m = 2 \/ m = 3 \/ m = 4 \/ m = 5 \/ m = 6 \/ m = 7 \/ m = 8 \/ m = 9
          \/ m = 10 \/ m = 11 \/ m = 12) as H by lia.
  assert (m' = 1 \/ m' = 2 \/ m' = 3 \/ m' = 4 \/ m' = 5 \/ m' = 6 \/ m' = 7 \/ m' = 8
          \/ m' = 9 \/ m' = 10 \/ m' = 11 \/ m' = 12) as H' by lia.
  repeat (destruct H as [-> | H]); try subst m;
    repeat (destruct H' as [-> | H']); try subst m'; done.
Qed.

Section Engine.
Variable py : Builtins.

(** The balance of the day rows of a sheet before the cutoff. *)
Definition sheet_balance (up_to_date : date) (ws : Worksheet) : Qc :=
  match iter_day_rows_with_data py ws with
  | Ok rows => Qc_sum (day_contribution up_to_date <$> rows)
  | Err _ => #0
  end.

Definition month_balance (up_to_date : date) (y : Z) (wb : Workbook) (m : Z) : Qc :=
  if month_in_reach up_to_date y m then
    match wb !! month_name m with
    | Some ws => sheet_balance up_to_date ws
    | None => #0
    end
  else #0.

Definition year_balance (up_to_date : date) (data_dir : DataDir) (y : Z) : Qc :=
  match data_dir !! pretty y with
  | Some wb => Qc_sum (month_balance up_to_date y wb <$> range 1 13)
  | None => #0
  end.

(** The balance of all day rows before the cutoff, in the sheets of the
    months from January of [earliest_year] to the month of the cutoff. *)
Definition tracked_balance (up_to_date : date) (earliest_year : Z) (data_dir : DataDir)
  : Qc :=
  Qc_sum (year_balance up_to_date data_dir <$> range earliest_year (year up_to_date + 1)).

(** The carry-over configured under a year before [earliest_year]. *)
Definition carry_term (earliest_year : Z) (entry : string * Qc) : Qc :=
  match py_int py entry.1 with
  | Some y => if y <? earliest_year then entry.2 else #0
  | None => #0
  end.

Lemma carry_before_sum cfg e :
  carry_before py cfg e = Qc_sum (carry_term e <$> map_to_list (carry_over_balance cfg)).
Proof.
  unfold carry_before. rewrite map_fold_foldr.
  induction (map_to_list (carry_over_balance cfg)) as [|[k b] l IH]; [done|].
  cbn [foldr fmap list_fmap]. rewrite IH, Qc_sum_cons. unfold carry_term at 2, uncurry.
  cbn [fst snd]. destruct (py_int py k) as [y|]; [|by rewrite Qcplus_zero_l].
  destruct (y <? e); [ring|by rewrite Qcplus_zero_l].
Qed.

Lemma months_loop_total cfg up_to_date y (k : nat) :
  forall a (wb : Workbook) carry total calls wb' total',
  1 <= a -> Z.to_nat (13 - a) = k ->
  months_loop py cfg up_to_date y (range a 13) wb carry total = (calls, Ok (wb', total')) ->
  total' = (total + Qc_sum (month_balance up_to_date y wb' <$> range a 13))%Qc /\
  (forall name, (forall m, a <= m < 13 -> name <> month_name m) -> wb' !! name = wb !! name).
Proof.
  induction k as [|k IH]; intros a wb carry total calls wb' total' Ha Hk.
  - rewrite range_nil by lia. cbn. intros [= <- <- <-].
    split; [by rewrite Qcplus_zero_r|done].
  - rewrite range_cons by lia. cbn [months_loop fmap list_fmap]. rewrite Qc_sum_cons.
    destruct ((y =? year up_to_date) && (month up_to_date <? a)) eqn:Hbreak.
    { intros [= <- <- <-]. split; [|done].
      unfold month_balance at 1, month_in_reach. rewrite Hbreak. cbn [negb].
      rewrite Qc_sum_zero; [by rewrite !Qcplus_zero_r|].
      intros m Hm%elem_of_range. unfold month_balance, month_in_reach.
      apply andb_prop in Hbreak as [-> Hlt%Z.ltb_lt]. cbn [andb].
      destruct (Z.ltb_spec (month up_to_date) m); [done|lia]. }
    assert (Hreach : month_in_reach up_to_date y a = true)
      by (unfold month_in_reach; by rewrite Hbreak).
    assert (Hnames : forall m, a + 1 <= m < 13 -> month_name a <> month_name m).
    { intros m Hm E. apply month_name_inj in E; lia. }
    destruct (wb !! month_name a) as [ws|] eqn:Hws.
    + destruct (fill_missing_days py cfg up_to_date ws) as [ws1 [[]|e1]]; [|by intros [= ]].
      destruct (recalculate_sheet_summary py y a carry cfg ws1) as [ws2 [cum|e2]];
        [|by intros [= ]].
      destruct (iter_day_rows_with_data py ws2) as [rows|e3] eqn:Hrows; [|by intros [= ]].
      destruct (months_loop py cfg up_to_date y (range (a + 1) 13)
                  (<[month_name a := ws2]> wb) cum
                  (add_day_rows up_to_date rows total)) as [calls1 r1] eqn:Hrest.
      intros [= <- ->].
      destruct (IH (a + 1) _ _ _ _ _ _ ltac:(lia) ltac:(lia) Hrest) as [Htot Hframe].
      assert (Hkeep : wb' !! month_name a = Some ws2).
      { rewrite Hframe by (intros m Hm; by apply Hnames). apply lookup_insert_eq. }
      split.
      * rewrite Htot, add_day_rows_sum. unfold month_balance at 2.
        rewrite Hreach, Hkeep. unfold sheet_balance. rewrite Hrows. ring.
      * intros name Hname. rewrite Hframe by (intros m Hm; apply Hname; lia).
        apply lookup_insert_ne. intros E. by apply (Hname a ltac:(lia)).
    + intros Hrest.
      destruct (IH (a + 1) _ _ _ _ _ _ ltac:(lia) ltac:(lia) Hrest) as [Htot Hframe].
      split.
      * rewrite Htot. unfold month_balance at 2. rewrite Hreach.
        rewrite Hframe by (intros m Hm; by apply Hnames). rewrite Hws.
        by rewrite Qcplus_zero_l.
      * intros name Hname. apply Hframe. intros m Hm. apply Hname. lia.
Qed.

Lemma years_loop_total cfg up_to_date b (k : nat) :
  forall a (data_dir : DataDir) total data_dir' calls total',
  Z.to_nat (b - a) = k ->
  years_loop py cfg up_to_date (range a b) data_dir total = (data_dir', calls, Ok total') ->
  total' = (total + Qc_sum (year_balance up_to_date data_dir' <$> range a b))%Qc /\
  (forall name, (forall y, a <= y < b -> name <> pretty y) ->
                data_dir' !! name = data_dir !! name).
Proof.
  induction k as [|k IH]; intros a dd total dd' calls total' Hk.
  - rewrite range_nil by lia. cbn. intros [= <- <- <-].
    split; [by rewrite Qcplus_zero_r|done].
  - rewrite range_cons by lia. cbn [years_loop fmap list_fmap]. rewrite Qc_sum_cons.
    assert (Hnames : forall y, a + 1 <= y < b -> pretty a <> pretty y).
    { intros y Hy E. apply (inj pretty) in E. lia. }
    destruct (dd !! pretty a) as [wb|] eqn:Hwb.
    + destruct (months_loop py cfg up_to_date a (range 1 13) wb (get_carry_over cfg a) total)
        as [calls0 [[wb1 total1]|e]] eqn:Hmonths; [|by intros [= ]].
      destruct (years_loop py cfg up_to_date (range (a + 1) b)
                  (<[pretty a := wb1]> dd) total1) as [[dd1 calls1] r1] eqn:Hrest.
      intros [= <- <- ->].
      destruct (months_loop_total cfg up_to_date a 12 1 _ _ _ _ _ _
                  ltac:(lia) ltac:(lia) Hmonths) as [Htot1 _].
      destruct (IH (a + 1) _ _ _ _ _ ltac:(lia) Hrest) as [Htot Hframe].
      assert (Hkeep : dd1 !! pretty a = Some wb1).
      { rewrite Hframe by (intros y Hy; by apply Hnames). apply lookup_insert_eq. }
      split.
      * rewrite Htot, Htot1. unfold year_balance at 2. rewrite Hkeep. ring.
      * intros name Hname. rewrite Hframe by (intros y Hy; apply Hname; lia).
        apply lookup_insert_ne. intros E. by apply (Hname a ltac:(lia)).
    + intros Hrest.
      destruct (IH (a + 1) _ _ _ _ _ ltac:(lia) Hrest) as [Htot Hframe].
      split.
      * rewrite Htot. unfold year_balance at 2.
        rewrite Hframe by (intros y Hy; by apply Hnames). rewrite Hwb.
        by rewrite Qcplus_zero_l.
      * intros name Hname. apply Hframe. intros y Hy. apply Hname. lia.
Qed.

Lemma earliest_year_of_fold stems : forall acc e,
  foldl (fun earliest stem =>
           match py_int py stem with
           | Some y =>
               match earliest with
               | None => Some y
               | Some e => if y <? e then Some y else Some e
               end
           | None => earliest
           end) acc stems = Some e ->
  ((acc = Some e) \/ (exists stem, stem ∈ stems /\ py_int py stem = Some e)) /\
  (forall a, acc = Some a -> e <= a) /\
  (forall stem y, stem ∈ stems -> py_int py stem = Some y -> e <= y).
Proof.
  induction stems as [|s stems IH]; intros acc e.
  - cbn. intros ->. split; [by left|]. split.
    + intros a [= ->]. lia.
    + intros stem y Hin. by apply elem_of_nil in Hin.
  - cbn [foldl]. intros H. apply IH in H as (Hsrc & Hacc & Hall).
    destruct (py_int py s) as [y|] eqn:Hy.
    + assert (e <= y /\ forall a, acc = Some a -> e <= a) as [Hey Hea].
      { destruct acc as [a|].
        - destruct (Z.ltb_spec y a).
          + specialize (Hacc y eq_refl). split; [lia|]. intros ? [= <-]. lia.
          + specialize (Hacc a eq_refl). split; [lia|]. intros ? [= <-]. lia.
        - specialize (Hacc y eq_refl). split; [lia|]. done. }
      split; [|split; [done|]].
      * destruct Hsrc as [Hsrc|(stem & Hin & Hst)].
        -- destruct acc as [a|].
           ++ destruct (Z.ltb_spec y a).
              ** injection Hsrc as <-. right. exists s. split; [left|done].
              ** by left.
           ++ injection Hsrc as <-. right. exists s. split; [left|done].
        -- right. exists stem. split; [by right|done].
      * intros stem y' Hin Hst. apply elem_of_cons in Hin as [->|Hin].
        -- rewrite Hy in Hst. injection Hst as <-. done.
        -- by eapply Hall.
    + split; [|split; [done|]].
      * destruct Hsrc as [?|(stem & Hin & Hst)]; [by left|].
        right. exists stem. split; [by right|done].
      * intros stem y' Hin Hst. apply elem_of_cons in Hin as [->|Hin].
        -- congruence.
        -- by eapply Hall.
Qed.

(** The earliest year is the least year that names a file. *)
Lemma earliest_year_of_least stems e :
  earliest_year_of py stems = Some e ->
  (exists stem, stem ∈ stems /\ py_int py stem = Some e) /\
  (forall stem y, stem ∈ stems -> py_int py stem = Some y -> e <= y).
Proof.
  intros H. apply earliest_year_of_fold in H as ([?|?] & _ & ?); [done|done].
Qed.

Lemma overtime_balance_formula data_dir cfg up_to_date e data_dir' calls total :
  earliest_year_of py (map_to_list data_dir).*1 = Some e ->
  calculate_overtime_balance py data_dir cfg up_to_date = (data_dir', calls, Ok total) ->
  total = py_round (Qc_sum (carry_term e <$> map_to_list (carry_over_balance cfg))
                    + tracked_balance up_to_date e data_dir') 2.
Proof.
  intros He. unfold calculate_overtime_balance. rewrite He.
  destruct (years_loop py cfg up_to_date (range e (year up_to_date + 1)) data_dir
              (carry_before py cfg e)) as [[dd1 calls1] [t|err]] eqn:Hloop; [|by intros [= ]].
  intros [= <- <- <-].
  destruct (years_loop_total cfg up_to_date (year up_to_date + 1) _ e _ _ _ _ _
              eq_refl Hloop) as [-> _].
  by rewrite carry_before_sum.
Qed.

End Engine.

(** The call is seeded with the carry-over configured for its year, 0
    when none is configured. *)
Definition seeded (cfg : Config) (c : SummaryCall) : Prop :=
  call_carry c = default #0 (carry_over_balance cfg !! pretty (call_year c)).

(** The call [c] comes after [p]: a later month of the same year, seeded
    with what [p] returned, or a month of a later year, seeded with the
    carry-over configured for that year. *)
Definition follows (cfg : Config) (p c : SummaryCall) : Prop :=
  (call_year p = call_year c /\ call_month p < call_month c /\
   call_result p = Ok (call_carry c)) \/
  (call_year p < call_year c /\ seeded cfg c).

Fixpoint chained (cfg : Config) (prev : option SummaryCall) (calls : list SummaryCall)
  : Prop :=
  match calls with
  | [] => True
  | c :: rest =>
      match prev with
      | None => seeded cfg c
      | Some p => follows cfg p c
      end /\ chained cfg (Some c) rest
  end.

Lemma last_or_cons {A} (prev : option A) (c : A) (l : list A) :
  default prev (Some <$> last (c :: l)) = default (Some c) (Some <$> last l).
Proof.
  destruct l as [|c' l]; [cbn; reflexivity|].
  change (last (c :: c' :: l)) with (last (c' :: l)).
  destruct (last (c' :: l)) eqn:E; [cbn; reflexivity|].
  by apply last_None in E.
Qed.

Lemma chained_app cfg l1 : forall prev l2,
  chained cfg prev l1 -> chained cfg (default prev (Some <$> last l1)) l2 ->
  chained cfg prev (l1 ++ l2).
Proof.
  induction l1 as [|c l1 IH]; intros prev l2 H1 H2; [done|].
  destruct H1 as [Hc H1]. split; [done|]. apply IH; [done|].
  by rewrite last_or_cons in H2.
Qed.

Lemma chained_adjacent cfg calls : forall prev i p c,
  chained cfg prev calls ->
  calls !! i = Some p -> calls !! S i = Some c -> follows cfg p c.
Proof.
  induction calls as [|x calls IH]; intros prev i p c Hch Hp Hc; [done|].
  destruct Hch as [_ Hch]. destruct i as [|i].
  - cbn in Hp. injection Hp as ->. destruct calls as [|y calls]; [done|].
    cbn in Hc. injection Hc as ->. by destruct Hch.
  - by eapply IH.
Qed.

Section Chain.
Variable py : Builtins.

(** The carry the month loop holds suits the call made before it. *)
Definition seed_ok (cfg : Config) (y a : Z) (prev : option SummaryCall) (carry : Qc)
  : Prop :=
  match prev with
  | None => carry = get_carry_over cfg y
  | Some p =>
      (call_year p = y /\ call_month p < a /\ call_result p = Ok carry) \/
      (call_year p < y /\ carry = get_carry_over cfg y)
  end.

Lemma seed_ok_link cfg y a prev carry res :
  seed_ok cfg y a prev carry ->
  match prev with
  | None => seeded cfg (mkCall y a carry res)
  | Some p => follows cfg p (mkCall y a carry res)
  end.
Proof.
  unfold seed_ok, follows, seeded, get_carry_over. destruct prev as [p|]; cbn; [|done].
  intros [(? & ? & ?)|(? & ?)]; [left|right]; done.
Qed.

Lemma seed_ok_next cfg y a prev carry :
  seed_ok cfg y a prev carry -> seed_ok cfg y (a + 1) prev carry.
Proof.
  unfold seed_ok. destruct prev as [p|]; [|done].
  intros [(? & ? & ?)|?]; [left|by right]. split; [done|]. split; [lia|done].
Qed.

Lemma months_loop_chain cfg up_to_date y (k : nat) :
  forall a (wb : Workbook) carry total calls r prev,
  Z.to_nat (13 - a) = k ->
  months_loop py cfg up_to_date y (range a 13) wb carry total = (calls, r) ->
  seed_ok cfg y a prev carry ->
  chained cfg prev calls /\ Forall (fun c => call_year c = y) calls.
Proof.
  induction k as [|k IH]; intros a wb carry total calls r prev Hk.
  - rewrite range_nil by lia. cbn. by intros [= <- <-].
  - rewrite range_cons by lia. cbn [months_loop].
    destruct ((y =? year up_to_date) && (month up_to_date <? a)); [by intros [= <- <-]|].
    destruct (wb !! month_name a) as [ws|].
    + destruct (fill_missing_days py cfg up_to_date ws) as [ws1 [[]|e1]];
        [|by intros [= <- <-]].
      destruct (recalculate_sheet_summary py y a carry cfg ws1) as [ws2 [cum|e2]].
      * destruct (iter_day_rows_with_data py ws2) as [rows|e3].
        -- destruct (months_loop py cfg up_to_date y (range (a + 1) 13)
                       (<[month_name a := ws2]> wb) cum
                       (add_day_rows up_to_date rows total)) as [calls1 r1] eqn:Hrest.
           intros [= <- <-] Hseed.
           destruct (IH (a + 1) _ _ _ _ _ (Some (mkCall y a carry (Ok cum)))
                        ltac:(lia) Hrest) as [Hch Hall].
           { left. cbn. split; [done|]. split; [lia|done]. }
           split; [|by constructor].
           split; [by apply seed_ok_link|done].
        -- intros [= <- <-] Hseed. split; [|by repeat constructor].
           split; [by apply seed_ok_link|done].
      * intros [= <- <-] Hseed. split; [|by repeat constructor].
        split; [by apply seed_ok_link|done].
    + intros Hrest Hseed. apply (IH (a + 1) _ _ _ _ _ prev ltac:(lia) Hrest).
      by apply seed_ok_next.
Qed.

(** The call made last lies in a year before [a]. *)
Definition year_before (a : Z) (prev : option SummaryCall) : Prop :=
  match prev with
  | Some p => call_year p < a
  | None => True
  end.

Lemma years_loop_chain cfg up_to_date b (k : nat) :
  forall a (data_dir : DataDir) total data_dir' calls r prev,
  Z.to_nat (b - a) = k ->
  years_loop py cfg up_to_date (range a b) data_dir total = (data_dir', calls, r) ->
  year_before a prev ->
  chained cfg prev calls.
Proof.
  induction k as [|k IH]; intros a dd total dd' calls r prev Hk.
  - rewrite range_nil by lia. cbn. by intros [= <- <- <-].
  - rewrite range_cons by lia. cbn [years_loop].
    destruct (dd !! pretty a) as [wb|].
    + destruct (months_loop py cfg up_to_date a (range 1 13) wb (get_carry_over cfg a) total)
        as [calls0 r0] eqn:Hmonths.
      assert (Hprev : forall prev, year_before a prev ->
                chained cfg prev calls0 /\ Forall (fun c => call_year c = a) calls0).
      { intros prev' Hb. apply (months_loop_chain cfg up_to_date a 12 1 _ _ _ _ _ prev'
                                  ltac:(lia) Hmonths).
        unfold seed_ok. destruct prev'; [right|]; done. }
      destruct r0 as [[wb1 total1]|e].
      * destruct (years_loop py cfg up_to_date (range (a + 1) b)
                    (<[pretty a := wb1]> dd) total1) as [[dd1 calls1] r1] eqn:Hrest.
        intros [= <- <- <-] Hb. destruct (Hprev prev Hb) as [Hch Hall].
        apply chained_app; [done|].
        apply (IH (a + 1) _ _ _ _ _ _ ltac:(lia) Hrest).
        destruct (last calls0) as [c|] eqn:Hlast; cbn.
        -- apply last_Some_elem_of in Hlast. rewrite Forall_forall in Hall.
           rewrite (Hall c Hlast). lia.
        -- destruct prev; cbn in *; [lia|done].
      * intros [= <- <- <-] Hb. by apply Hprev.
    + intros Hrest Hb. apply (IH (a + 1) _ _ _ _ _ prev ltac:(lia) Hrest).
      destruct prev; cbn in *; [lia|done].
Qed.

Lemma overtime_calls_chained data_dir cfg up_to_date :
  chained cfg None (calculate_overtime_balance py data_dir cfg up_to_date).1.2.
Proof.
  unfold calculate_overtime_balance.
  destruct (earliest_year_of py _) as [e|]; [|done].
  destruct (years_loop py cfg up_to_date (range e (year up_to_date + 1)) data_dir
              (carry_before py cfg e)) as [[dd1 calls1] r1] eqn:Hloop.
  cbn [fst snd].
  by apply (years_loop_chain cfg up_to_date (year up_to_date + 1) _ e _ _ _ _ _ None
              eq_refl Hloop).
Qed.

End Chain.

Section Accumulator.
Variable py : Builtins.

(** C1: the carry passed to [recalculate_sheet_summary].  The first month
    of a year that is processed is seeded with the carry-over configured
    for that year, 0 when none is configured; every later month of the
    year is seeded with the cumulative balance the month before it
    returned.  The balance of December is not carried into January. *)
Theorem carry_seeding data_dir cfg up_to_date :
  let calls := (calculate_overtime_balance py data_dir cfg up_to_date).1.2 in
  (forall c, head calls = Some c -> seeded cfg c) /\
  (forall i p c, calls !! i = Some p -> calls !! S i = Some c -> follows cfg p c).
Proof.
  intros calls. pose proof (overtime_calls_chained py data_dir cfg up_to_date) as H.
  fold calls in H. split.
  - intros c Hc. destruct calls as [|c' calls']; [done|].
    injection Hc as ->. by destruct H.
  - intros i p c. by apply (chained_adjacent cfg calls None).
Qed.

(** C4: the grand total is the configured carry-over of the years before
    the earliest tracked year, plus the balance of every day row before
    the cutoff in the sheets from the earliest year to the month of the
    cutoff, rounded to two decimals.  With carry-over 5.0 configured for
    2023 and day balances of 2.0 h the total is 7.0 when tracking starts
    after 2023, and 2.0 when it starts in 2023. *)
Theorem overtime_balance_total :
  (forall data_dir cfg up_to_date e data_dir' calls total,
     earliest_year_of py (map_to_list data_dir).*1 = Some e ->
     calculate_overtime_balance py data_dir cfg up_to_date = (data_dir', calls, Ok total) ->
     (exists stem, data_dir !! stem <> None /\ py_int py stem = Some e) /\
     (forall stem y, data_dir !! stem <> None -> py_int py stem = Some y -> e <= y) /\
     total = py_round (Qc_sum (carry_term py e <$> map_to_list (carry_over_balance cfg))
                       + tracked_balance py up_to_date e data_dir') 2) /\
  (forall data_dir cfg up_to_date,
     earliest_year_of py (map_to_list data_dir).*1 = None ->
     calculate_overtime_balance py data_dir cfg up_to_date = (data_dir, [], Ok #0)) /\
  (calculate_overtime_balance plain tracked_from_2024 carry_2023 (mkDate 2024 2 1)).2
  = Ok #7 /\
  (calculate_overtime_balance plain tracked_from_2023 carry_2023 (mkDate 2023 2 1)).2
  = Ok #2.
Proof.
  split; [|split; [|split]].
  - intros data_dir cfg up_to_date e data_dir' calls total He Hrun.
    destruct (earliest_year_of_least py _ _ He) as [(stem & Hin & Hst) Hleast].
    assert (Hdom : forall s, s ∈ (map_to_list data_dir).*1 <-> data_dir !! s <> None).
    { intros s. rewrite list_elem_of_fmap. split.
      - intros ([s' wb] & -> & Hx). apply elem_of_map_to_list in Hx. cbn. congruence.
      - intros Hs. destruct (data_dir !! s) as [wb|] eqn:E; [|done].
        exists (s, wb). split; [done|]. by apply elem_of_map_to_list. }
    split; [|split].
    + exists stem. split; [by apply Hdom|done].
    + intros s y Hs. apply Hleast. by apply Hdom.
    + by eapply overtime_balance_formula.
  - intros data_dir cfg up_to_date He. unfold calculate_overtime_balance. by rewrite He.
  - by_eval.
  - by_eval.
Qed.

End Accumulator.

(** * Further properties of the sheet operations *)

Section Reading.
Variable py : Builtins.

Lemma Qc24_pos : (0 < #24)%Qc.
Proof. by_eval. Qed.

Lemma Qc_inv24_pos : (0 < / #24)%Qc.
Proof. by_eval. Qed.

Lemma Qc_abs_fraction h : Qc_abs (_hours_to_fraction h) = (Qc_abs h / #24)%Qc.
Proof.
  unfold Qc_abs, _hours_to_fraction, Qcdiv. rewrite Qc_of_Z_0.
  pose proof (Qcmult_lt_mono_pos_r h 0 (/ #24) Qc_inv24_pos) as H.
  rewrite Qcmult_0_l in H.
  repeat case_decide; try tauto.
  apply Qcopp_distr_l || ring.
Qed.

Lemma fraction_below_one h : (Qc_abs (_hours_to_fraction h) < #1)%Qc <-> (Qc_abs h < #24)%Qc.
Proof.
  rewrite Qc_abs_fraction. unfold Qcdiv.
  rewrite (Qcmult_lt_mono_pos_r (Qc_abs h * / #24) #1 #24 Qc24_pos).
  rewrite <- Qcmult_assoc, (Qcmult_comm (/ #24)), Qcmult_inv_r by apply Qc24_ne_0.
  rewrite Qcmult_1_r. replace (#1 * #24)%Qc with #24 by by_eval. done.
Qed.

Lemma py_round_cents k : py_round (cents k) 2 = cents k.
Proof.
  unfold py_round, cents. replace (pow10 2) with #100 by by_eval.
  replace (#k / #100 * #100)%Qc with #k by (field; by_eval).
  unfold round_half_even. change (Qfloor #k) with (Qfloor (inject_Z k)).
  rewrite Qfloor_Z. cbv zeta. replace (#k - #k)%Qc with 0%Qc by ring.
  rewrite decide_True; [done|]. by_eval.
Qed.

(** X13: Hours of whole hundredths, such as the rounded block hours, totals
    and balances that [recalculate_day] stores, written as a fraction of a
    day and read back: they are read back as they were written when they
    are less than a day in size; from a day on it is the stored fraction
    that is returned, as plain hours. *)
Theorem stored_hours_read_back (k : Z) :
  let h := cents k in
  ((Qc_abs h < #24)%Qc ->
   _read_hours_value py (VNum (_hours_to_fraction h)) = Ok h) /\
  (~ (Qc_abs h < #24)%Qc ->
   _read_hours_value py (VNum (_hours_to_fraction h)) = Ok (_hours_to_fraction h)).
Proof.
  intros h. unfold _read_hours_value. split; intros H; case_decide as Hd;
    rewrite fraction_below_one in Hd; try done.
  rewrite fraction_to_hours_to_fraction. unfold h. by rewrite py_round_cents.
Qed.

End Reading.

Section Lookup.
Variable py : Builtins.

(** X16: [_find_summary_cols] returns the first header column, within the
    extent of the sheet, that holds the text Status, and the three columns
    to its right whatever their headers are; it raises when no header cell
    holds Status. *)
Theorem find_summary_cols_first_status ws :
  match _find_summary_cols ws with
  | Ok (status_col, gesamt_col, soll_col, saldo_col) =>
      1 <= status_col <= max_column ws /\
      cell ws HEADER_ROW status_col = VStr "Status" /\
      (forall c, 1 <= c < status_col -> cell ws HEADER_ROW c <> VStr "Status") /\
      gesamt_col = status_col + 1 /\ soll_col = status_col + 2 /\
      saldo_col = status_col + 3
  | Err e =>
      e = SummaryColumnsNotFound /\
      forall c, 1 <= c <= max_column ws -> cell ws HEADER_ROW c <> VStr "Status"
  end.
Proof.
  unfold _find_summary_cols.
  destruct (List.find _ _) as [col|] eqn:E.
  - apply find_range_some in E as (Hb & Hc & Hlt).
    apply bool_decide_eq_true in Hc.
    split; [lia|]. split; [done|]. split; [|done].
    intros c Hc'. specialize (Hlt c Hc'). by apply bool_decide_eq_false in Hlt.
  - split; [done|]. intros c Hc.
    rewrite find_none_Forall, Forall_forall in E.
    specialize (E c ltac:(apply elem_of_range; lia)).
    by apply bool_decide_eq_false in E.
Qed.

(** X17: [find_day_row] returns the first row below the header whose date cell
    is the text of the date or a datetime on that date; a cell that holds
    a plain date is never matched. *)
Theorem find_day_row_first_match ws d :
  match find_day_row ws d with
  | Some row =>
      HEADER_ROW < row <= max_row ws /\
      (cell ws row 1 = VStr (strftime_dmy d) \/ exists t, cell ws row 1 = VDateTime d t) /\
      (forall r, HEADER_ROW < r < row ->
         cell ws r 1 <> VStr (strftime_dmy d) /\ forall t, cell ws r 1 <> VDateTime d t)
  | None =>
      forall r, HEADER_ROW < r <= max_row ws ->
        cell ws r 1 <> VStr (strftime_dmy d) /\ forall t, cell ws r 1 <> VDateTime d t
  end.
Proof.
  assert (Hm : forall v, date_cell_matches d v = true <->
                         v = VStr (strftime_dmy d) \/ exists t, v = VDateTime d t).
  { intros v. destruct v; simpl; try (split; [done|intros [?|[? ?]]; done]).
    - rewrite bool_decide_eq_true. split; [intros ->; by left|].
      intros [[= ->]|[? ?]]; done.
    - rewrite bool_decide_eq_true. split; [intros ->; right; by eexists|].
      intros [?|[? [= -> _]]]; done. }
  assert (Hn : forall v, date_cell_matches d v = false ->
                         v <> VStr (strftime_dmy d) /\ forall t, v <> VDateTime d t).
  { intros v Hv. split; [|intros t]; intros Hx;
      apply (eq_true_false_abs _ (proj2 (Hm v) ltac:(eauto)) Hv). }
  unfold find_day_row, HEADER_ROW.
  destruct (List.find _ _) as [row|] eqn:E.
  - apply find_range_some in E as (Hb & Hc & Hlt).
    split; [lia|]. split; [by apply Hm|].
    intros r Hr. apply Hn, Hlt. lia.
  - intros r Hr. apply Hn.
    rewrite find_none_Forall, Forall_forall in E.
    apply (E r). apply elem_of_range. lia.
Qed.

Lemma count_blocks_loop_spec ws fuel col count :
  col = _ein_col (count + 1) -> 0 <= count ->
  max_column ws < col + 3 * Z.of_nat fuel ->
  let k := count_blocks_loop py fuel ws col count in
  count <= k /\
  (forall b, count < b <= k ->
     _ein_col b <= max_column ws /\ is_ein_header py (cell ws HEADER_ROW (_ein_col b)) = true) /\
  (_ein_col (k + 1) <= max_column ws ->
   is_ein_header py (cell ws HEADER_ROW (_ein_col (k + 1))) = false).
Proof.
  revert col count. induction fuel as [|fuel IH]; intros col count Hcol Hc Hfuel; simpl.
  - split; [lia|]. split; [intros; lia|]. subst col. lia.
  - destruct (Z.leb_spec col (max_column ws)) as [Hle|Hgt].
    + destruct (is_ein_header py (cell ws HEADER_ROW col)) eqn:Hh.
      * destruct (IH (col + BLOCK_WIDTH) (count + 1)) as (H1 & H2 & H3).
        { subst col. unfold _ein_col, DATE_COLS, BLOCK_WIDTH. lia. }
        { lia. }
        { unfold BLOCK_WIDTH. lia. }
        split; [lia|]. split; [|done].
        intros b Hb. destruct (decide (b = count + 1)) as [->|].
        -- rewrite <- Hcol. done.
        -- apply H2. lia.
      * split; [lia|]. split; [intros; lia|]. intros _. by rewrite <- Hcol.
    + split; [lia|]. split; [intros; lia|]. subst col. lia.
Qed.

(** X15: [_count_blocks] counts the run of Ein headers that starts in column 3,
    three columns apart, up to the first header that is not one or the
    end of the sheet, and never reports fewer than three blocks. *)
Theorem count_blocks_run_of_headers ws :
  exists k,
    0 <= k /\ _count_blocks py ws = Z.max k INITIAL_BLOCKS /\
    (forall b, 1 <= b <= k ->
       _ein_col b <= max_column ws /\
       is_ein_header py (cell ws HEADER_ROW (_ein_col b)) = true) /\
    (_ein_col (k + 1) <= max_column ws ->
     is_ein_header py (cell ws HEADER_ROW (_ein_col (k + 1))) = false).
Proof.
  destruct (count_blocks_loop_spec ws (Z.to_nat (max_column ws)) (DATE_COLS + 1) 0)
    as (H1 & H2 & H3).
  { done. } { done. } { unfold DATE_COLS. lia. }
  eexists. split; [exact H1|]. split; [done|]. split; [|done].
  intros b Hb. apply H2. lia.
Qed.

End Lookup.

Lemma pow10_pos n : (0 < pow10 n)%Qc.
Proof.
  unfold pow10.
  assert (H : 0 < 10 ^ Z.of_nat n) by (apply Z.pow_pos_nonneg; lia).
  apply Z2Qc_inj_lt in H. by rewrite Z2Qc_inj_0 in H.
Qed.

Lemma round_half_even_nonneg x : (0 <= x)%Qc -> 0 <= round_half_even x.
Proof.
  intros Hx. unfold round_half_even.
  assert (0 <= Qfloor x).
  { change 0 with (Qfloor 0). apply Qfloor_resp_le. exact Hx. }
  repeat case_decide; try case_match; lia.
Qed.

Lemma py_round_nonneg x n : (0 <= x)%Qc -> (0 <= py_round x n)%Qc.
Proof.
  intros Hx. unfold py_round, Qcdiv.
  apply Qcmult_nonneg_nonneg.
  - assert (H : 0 <= round_half_even (x * pow10 n)).
    { apply round_half_even_nonneg.
      apply Qcmult_nonneg_nonneg; [done|]. apply Qclt_le_weak, pow10_pos. }
    apply Z2Qc_inj_le in H. by rewrite Z2Qc_inj_0 in H.
  - apply Qclt_le_weak, Qcinv_pos, pow10_pos.
Qed.

Lemma block_diff_nonneg offset first last b e a :
  (0 <= block_diff offset first last b e a)%Qc.
Proof.
  unfold block_diff. cbv zeta. case_decide as H.
  - rewrite Qc_of_Z_0. done.
  - rewrite Qc_of_Z_0 in H. by apply Qcle_ngt.
Qed.

Lemma auto_break_nonneg threshold deduction_min total_work :
  (0 <= threshold)%Qc -> (0 <= total_work)%Qc ->
  (0 <= auto_break threshold deduction_min total_work)%Qc.
Proof.
  intros Ht Hw. unfold auto_break. repeat case_decide; try done.
  apply Qclt_le_weak.
  apply (Qcle_lt_trans _ threshold); [done|].
  apply (Qcplus_lt_mono_r _ _ (deduction_min / #60)).
  replace (total_work - deduction_min / #60 + deduction_min / #60)%Qc with total_work by ring.
  done.
Qed.

Lemma worked_hours_nonneg offset first last blocks acc :
  (0 <= acc)%Qc -> (0 <= worked_hours offset first last blocks acc)%Qc.
Proof.
  revert acc. induction blocks as [|[[b [e|]] [a|]] blocks IH]; intros acc Hacc; simpl;
    try done; try (by apply IH).
  apply IH. apply Qcplus_nonneg_nonneg; [done|]. apply py_round_nonneg, block_diff_nonneg.
Qed.

Section Bounds.
Variable py : Builtins.

Lemma current_hours_nonneg offset first last blocks acc :
  (0 <= acc)%Qc ->
  (0 <= foldl (fun acc x => (acc + current_block_hours offset first last x)%Qc) acc blocks)%Qc.
Proof.
  revert acc. induction blocks as [|x blocks IH]; intros acc Hacc; simpl; [done|].
  apply IH. apply Qcplus_nonneg_nonneg; [done|].
  destruct x as [[b [e|]] [a|]]; simpl; try (rewrite Qc_of_Z_0; done).
  apply block_diff_nonneg.
Qed.

(** X9: Hours are never negative: the hours between the stamps of a block are
    cut off at zero, so with a break threshold that is not negative the
    total that [recalculate_day] stores and the hours that
    [calculate_current_hours] reports are at least 0. *)
Theorem hours_never_negative :
  (forall offset first last b e a, (0 <= block_diff offset first last b e a)%Qc) /\
  (forall ws n d cfg row,
     header_layout py ws n -> find_day_row ws d = Some row ->
     (0 <= default #6 (auto_break_threshold_hours cfg))%Qc ->
     exists total,
       cell (recalculate_day py d cfg ws).1 row (3 * n + 4)
       = VNum (_hours_to_fraction total) /\ (0 <= total)%Qc) /\
  (forall ws d cfg now h,
     (0 <= default #6 (auto_break_threshold_hours cfg))%Qc ->
     calculate_current_hours py ws d cfg now = Ok (Some h) -> (0 <= h)%Qc).
Proof.
  split; [apply block_diff_nonneg|]. split.
  - intros ws n d cfg row Hl Hf Ht.
    eexists. split.
    + rewrite (recalculate_day_cell py ws n d cfg row) by done.
      rewrite recalc_writes_gesamt. reflexivity.
    + apply py_round_nonneg. unfold day_total.
      destruct (offset_blocks py ws n row).
      apply auto_break_nonneg; [done|]. apply worked_hours_nonneg.
      rewrite Qc_of_Z_0. done.
  - intros ws d cfg now h Ht. unfold calculate_current_hours.
    destruct (find_day_row ws d); [|done].
    destruct (_read_day_status py ws z); [|done].
    destruct (negb _); [done|]. intros [= <-].
    apply py_round_nonneg, auto_break_nonneg; [done|].
    apply current_hours_nonneg. rewrite Qc_of_Z_0. done.
Qed.

(** X8: What [recalculate_day] leaves alone: the extent of the sheet, every
    other row, the date, the weekday, the stamps and the status of the day,
    the stored hours of a block that lacks an entry or an exit (they are
    not cleared), a filled Soll cell, and when the date has no row the
    whole sheet. *)
Theorem recalculate_day_frame ws n d cfg :
  header_layout py ws n ->
  let out := (recalculate_day py d cfg ws).1 in
  max_row out = max_row ws /\ max_column out = max_column ws /\
  (find_day_row ws d = None -> out = ws) /\
  (forall row, find_day_row ws d = Some row ->
     (forall r c, r <> row -> cell out r c = cell ws r c) /\
     cell out row 1 = cell ws row 1 /\ cell out row 2 = cell ws row 2 /\
     (forall b, 1 <= b <= n ->
        cell out row (_ein_col b) = cell ws row (_ein_col b) /\
        cell out row (_aus_col b) = cell ws row (_aus_col b)) /\
     cell out row (3 * n + 3) = cell ws row (3 * n + 3) /\
     (forall b, 1 <= b <= n ->
        entry_of py ws row b = None \/ exit_of py ws row b = None ->
        cell out row (_stunden_col b) = cell ws row (_stunden_col b)) /\
     (cell ws row (3 * n + 5) <> VNone ->
      cell out row (3 * n + 5) = cell ws row (3 * n + 5)) /\
     (forall c, 3 * n + 6 < c -> cell out row c = cell ws row c)).
Proof.
  intros Hl out. subst out. assert (Hn : 3 <= n) by (by destruct Hl).
  destruct (find_day_row ws d) as [row|] eqn:Hf; cycle 1.
  { unfold recalculate_day, bind, gets, ret. rewrite Hf. done. }
  pose proof (find_day_row_bounds _ _ _ Hf) as Hrow.
  assert (Hb : in_bounds ws (recalc_writes py ws n row d cfg).1)
    by (apply recalc_writes_in_bounds; [done|lia]).
  destruct (apply_writes_bounds ws _ Hb) as [Hmr Hmc].
  rewrite (recalculate_day_run py ws n d cfg row Hl Hf). cbn [fst snd].
  split; [done|]. split; [done|]. split; [done|].
  intros ? [= <-].
  assert (Hother : forall r c,
            (r <> row \/ c < 5 \/ (forall b, c <> _stunden_col b) /\ c < 3 * n + 4
             \/ 3 * n + 6 < c) ->
            cell (apply_writes ws (recalc_writes py ws n row d cfg).1) r c = cell ws r c).
  { intros r c Hrc. rewrite cell_apply_writes, recalc_writes_other; [done|done|lia]. }
  split; [intros; apply Hother; auto|].
  split; [apply Hother; right; left; lia|].
  split; [apply Hother; right; left; lia|].
  split.
  { intros b Hb'. split; apply Hother; right; right; left; split;
      unfold _aus_col, _stunden_col, _ein_col, DATE_COLS, BLOCK_WIDTH; intros; lia. }
  split.
  { apply Hother. right; right; left. split;
      unfold _stunden_col, _ein_col, DATE_COLS, BLOCK_WIDTH; intros; lia. }
  split.
  { intros b Hb' Hopen. rewrite cell_apply_writes, recalc_writes_stunden by done.
    destruct Hopen as [-> | ->]; [done|]. by destruct (entry_of py ws row b). }
  split; [|intros; apply Hother; auto].
  intros Hsoll. rewrite cell_apply_writes.
  replace (written _ row (3 * n + 5)) with (@None value); [done|].
  symmetry. apply written_none. unfold recalc_writes.
  destruct (offset_blocks py ws n row) as [first last].
  destruct (is_none (cell ws row (3 * n + 5))) eqn:E;
    [by apply is_none_spec in E|].
  assert (Hst : Forall (fun x : Z * Z * value => x.1.1 <> row \/ x.1.2 <> 3 * n + 5 \/ x.2 = VNone)
            (stunden_writes row (get_travel_offset cfg) first last (read_blocks py ws row n))).
  { eapply Forall_impl; [apply (stunden_writes_cols py ws row n)|].
    simpl. intros x (b & Hb' & ->). right. left.
    unfold _stunden_col, _ein_col, DATE_COLS, BLOCK_WIDTH. lia. }
  destruct (_read_hours_value py _); simpl; rewrite ?Forall_app; repeat split; try done;
    repeat (apply Forall_cons; split; [simpl; right; left; lia|]); apply Forall_nil_2.
Qed.

End Bounds.

Section Clock.
Variable py : Builtins.

Ltac cols := unfold _aus_col, _stunden_col, _ein_col, DATE_COLS, BLOCK_WIDTH in *.

(** The cells that [recalculate_day] does not write. *)
Lemma recalculate_day_untouched ws n d cfg row r c :
  header_layout py ws n -> find_day_row ws d = Some row ->
  (r <> row \/ c < 5 \/ (forall b, c <> _stunden_col b) /\ c < 3 * n + 4 \/ 3 * n + 6 < c) ->
  cell (recalculate_day py d cfg ws).1 r c = cell ws r c.
Proof.
  intros Hl Hf Hrc. assert (Hn : 3 <= n) by (by destruct Hl).
  rewrite (recalculate_day_cell py ws n d cfg row) by done.
  rewrite recalc_writes_other; [done|done|lia].
Qed.

Lemma recalculate_day_stamps ws n d cfg row b :
  header_layout py ws n -> find_day_row ws d = Some row -> 1 <= b <= n ->
  cell (recalculate_day py d cfg ws).1 row (_ein_col b) = cell ws row (_ein_col b) /\
  cell (recalculate_day py d cfg ws).1 row (_aus_col b) = cell ws row (_aus_col b).
Proof.
  intros Hl Hf Hb.
  split; apply (recalculate_day_untouched ws n d cfg row); try done;
    right; right; left; split; cols; intros; lia.
Qed.

(** The header, the extent and the date column after [recalculate_day]. *)
Lemma recalculate_day_keeps_layout ws n d cfg :
  header_layout py ws n ->
  header_layout py (recalculate_day py d cfg ws).1 n /\
  max_row (recalculate_day py d cfg ws).1 = max_row ws /\
  max_column (recalculate_day py d cfg ws).1 = max_column ws /\
  forall d', find_day_row (recalculate_day py d cfg ws).1 d' = find_day_row ws d'.
Proof.
  intros Hl. assert (Hn : 3 <= n) by (by destruct Hl).
  destruct (find_day_row ws d) as [row|] eqn:Hf; cycle 1.
  { unfold recalculate_day, bind, gets, ret. rewrite Hf. done. }
  pose proof (find_day_row_bounds _ _ _ Hf) as Hrow.
  assert (Hsh := recalc_writes_shape py ws n row d cfg ltac:(lia)).
  assert (Hb : in_bounds ws (recalc_writes py ws n row d cfg).1)
    by (apply recalc_writes_in_bounds; [done|lia]).
  destruct (apply_writes_bounds ws _ Hb) as [Hmr Hmc].
  rewrite (recalculate_day_run py ws n d cfg row Hl Hf). cbn [fst snd].
  split; [|split; [done|split; [done|]]].
  - apply header_layout_apply_writes; [|done].
    eapply Forall_impl; [exact Hsh|]. simpl. intros x [-> _]. lia.
  - intros d'. apply find_day_row_apply_writes; [done|].
    eapply Forall_impl; [exact Hsh|]. simpl. intros x [_ ?]. lia.
Qed.

Lemma has_open_stamp_iff ws n d :
  header_layout py ws n ->
  has_open_stamp py ws d = true <->
  exists row b, find_day_row ws d = Some row /\ 1 <= b <= n /\ open_block ws row b = true.
Proof.
  intros Hl. unfold has_open_stamp. rewrite (count_blocks_layout py ws n Hl).
  destruct (find_day_row ws d) as [row|]; cycle 1.
  { split; [done|]. intros (? & ? & ? & _). done. }
  rewrite existsb_exists. split.
  - intros (b & Hin & Hb). apply list_elem_of_In, elem_of_range in Hin.
    exists row, b. split; [done|]. split; [lia|done].
  - intros (row' & b & [= <-] & Hb & Ho). exists b. split; [|done].
    apply list_elem_of_In, elem_of_range. lia.
Qed.

(** X5: [has_open_stamp] answers whether a clock-out on that date would go
    through: it is false exactly when [write_stamp] with "aus" raises the
    no-open-entry error. *)
Theorem has_open_stamp_predicts_clock_out ws n d t is_home cfg :
  header_layout py ws n ->
  (has_open_stamp py ws d = true <->
   exists row b, find_day_row ws d = Some row /\ 1 <= b <= n /\
                 cell ws row (_ein_col b) <> VNone /\ cell ws row (_aus_col b) = VNone) /\
  (has_open_stamp py ws d = false <->
   (write_stamp py d t "aus" is_home cfg ws).2 = Err NoOpenEntry).
Proof.
  intros Hl. split.
  - rewrite (has_open_stamp_iff ws n d Hl). unfold open_block.
    split; intros (row & b & Hrow & Hb & Ho); exists row, b; (split; [done|]); (split; [done|]).
    + apply andb_prop in Ho as [Hein Haus]. apply is_none_spec in Haus.
      split; [|done]. intros E. by rewrite E in Hein.
    + destruct Ho as [Hein ->]. by destruct (cell ws row (_ein_col b)).
  - rewrite <- not_true_iff_false, (has_open_stamp_iff ws n d Hl).
    rewrite (write_stamp_aus_run py ws n d t is_home cfg Hl).
    unfold located. destruct (find_day_row ws d) as [row|] eqn:Hf; cbn [fst snd].
    + destruct (List.find _ _) as [b|] eqn:E.
      * split.
        { intros H. exfalso. apply H. exists row, b.
          apply find_rev_range_some in E as (? & ? & _). split; [done|]. split; [lia|done]. }
        intros H. by apply no_open_error_recalculate_day in H.
      * split; [done|]. intros _ (row' & b & [= <-] & Hb & Ho).
        rewrite find_none_Forall, Forall_forall in E.
        rewrite (E b) in Ho; [done|]. rewrite elem_of_reverse. apply elem_of_range. lia.
    + destruct (inserted_row_sheet py ws n d cfg Hl) as (_ & _ & Hrow & _).
      assert (Hn : 3 <= n) by (by destruct Hl).
      rewrite find_rev_range_none; cycle 1.
      { intros b Hb. unfold open_block. rewrite Hrow.
        cols. repeat case_decide; try lia. done. }
      split; [done|]. intros _ (row' & b & ? & _). done.
Qed.

(** The sheet a clock-in stamps before it recalculates the day: the time in
    the entry of block [b], and the status on the first block. *)
Definition stamped_in (ws : Worksheet) (n row b : Z) (t : time) (is_home : bool) : Worksheet :=
  let ws1 := set_cell ws row (_ein_col b) (VTime t) in
  if b =? 1 then set_cell ws1 row (3 * n + 3) (VStr (if is_home then "Home" else "Office"))
  else ws1.

Lemma write_stamp_ein_run ws n d t is_home cfg row b :
  header_layout py ws n -> find_day_row ws d = Some row ->
  1 <= b <= n -> cell ws row (_ein_col b) = VNone ->
  (forall j, 1 <= j < b -> cell ws row (_ein_col j) <> VNone) ->
  write_stamp py d t "ein" is_home cfg ws
  = recalculate_day py d cfg (stamped_in ws n row b t is_home).
Proof.
  intros Hl Hf Hb Hfree Hbefore. assert (Hn : 3 <= n) by (by destruct Hl).
  pose proof (find_day_row_bounds _ _ _ Hf) as Hrow.
  unfold write_stamp, bind at 1. unfold gets at 1. rewrite Hf.
  unfold bind at 1. unfold ret at 1.
  unfold bind at 1. unfold gets at 1. rewrite (count_blocks_layout py _ n Hl).
  rewrite (bool_decide_eq_true_2 ("ein" = "ein")) by done.
  unfold bind at 1. unfold bind at 1. unfold gets at 1.
  rewrite (find_range_first _ 1 (n + 1) b); cycle 1.
  { lia. } { by rewrite Hfree. }
  { intros j Hj. specialize (Hbefore j Hj). by destruct (cell ws row (_ein_col j)). }
  unfold bind at 1. unfold ret at 1. unfold bind at 1. unfold write at 1.
  unfold stamped_in. destruct (Z.eqb_spec b 1) as [->|]; [|done].
  unfold bind, attempt, write, _get_status_col.
  rewrite (find_summary_cols_layout py _ n); [done|].
  apply header_layout_set_cell; [lia|done].
Qed.

Lemma stamped_in_cell ws n row b t is_home r c :
  1 <= b <= n ->
  cell (stamped_in ws n row b t is_home) r c =
  if decide (r = row /\ c = _ein_col b) then VTime t
  else if decide (r = row /\ c = 3 * n + 3 /\ b = 1)
       then VStr (if is_home then "Home" else "Office")
       else cell ws r c.
Proof.
  intros Hb. unfold stamped_in.
  destruct (Z.eqb_spec b 1) as [->|Hne].
  - rewrite !cell_set_cell. cols.
    repeat case_decide; repeat
      match goal with
      | |- context [(?a =? ?b)] => destruct (Z.eqb_spec a b); try lia; cbn [andb negb is_none]
      end; try done; try lia; by destruct is_home.
  - rewrite !cell_set_cell. cols.
    repeat case_decide; repeat
      match goal with
      | |- context [(?a =? ?b)] => destruct (Z.eqb_spec a b); try lia; cbn [andb negb is_none]
      end; try done; lia.
Qed.

Lemma stamped_in_layout ws n d row b t is_home :
  header_layout py ws n -> find_day_row ws d = Some row -> 1 <= b <= n ->
  header_layout py (stamped_in ws n row b t is_home) n /\
  max_row (stamped_in ws n row b t is_home) = max_row ws /\
  forall d', find_day_row (stamped_in ws n row b t is_home) d' = find_day_row ws d'.
Proof.
  intros Hl Hf Hb. assert (Hn : 3 <= n) by (by destruct Hl).
  pose proof (find_day_row_bounds _ _ _ Hf) as Hrow.
  assert (Hmr : max_row (stamped_in ws n row b t is_home) = max_row ws).
  { unfold stamped_in. destruct (b =? 1); unfold set_cell; cbn [max_row]; lia. }
  split; [|split; [done|]].
  - unfold stamped_in. destruct (b =? 1);
      repeat (apply header_layout_set_cell; [lia|]); done.
  - intros d'. apply find_day_row_ext; [|done].
    intros r. rewrite stamped_in_cell by done. cols.
    repeat case_decide; try lia. done.
Qed.

(** The stamps and the status of the row after a clock-in, whatever the
    recalculation that follows returns. *)
Lemma clock_in_cells ws n d t is_home cfg row b :
  header_layout py ws n -> find_day_row ws d = Some row ->
  1 <= b <= n -> cell ws row (_ein_col b) = VNone ->
  (forall j, 1 <= j < b -> cell ws row (_ein_col j) <> VNone) ->
  let out := (write_stamp py d t "ein" is_home cfg ws).1 in
  header_layout py out n /\ find_day_row out d = Some row /\
  cell out row (_ein_col b) = VTime t /\
  cell out row (3 * n + 3)
  = (if decide (b = 1) then VStr (if is_home then "Home" else "Office")
     else cell ws row (3 * n + 3)) /\
  (forall j, 1 <= j <= n -> j <> b -> cell out row (_ein_col j) = cell ws row (_ein_col j)) /\
  (forall j, 1 <= j <= n -> cell out row (_aus_col j) = cell ws row (_aus_col j)) /\
  (forall r c, r <> row -> cell out r c = cell ws r c).
Proof.
  intros Hl Hf Hb Hfree Hbefore out. subst out.
  assert (Hn : 3 <= n) by (by destruct Hl).
  rewrite (write_stamp_ein_run ws n d t is_home cfg row b) by done.
  destruct (stamped_in_layout ws n d row b t is_home Hl Hf Hb) as (Hl1 & Hmr & Hfind).
  assert (Hf1 : find_day_row (stamped_in ws n row b t is_home) d = Some row)
    by (by rewrite Hfind).
  destruct (recalculate_day_keeps_layout (stamped_in ws n row b t is_home) n d cfg Hl1)
    as (Hl2 & _ & _ & Hfind2).
  split; [done|]. split; [by rewrite Hfind2|].
  split.
  { rewrite (proj1 (recalculate_day_stamps _ n d cfg row b Hl1 Hf1 Hb)).
    rewrite stamped_in_cell by done. by rewrite decide_True. }
  split.
  { rewrite (recalculate_day_untouched _ n d cfg row) by
      (try done; right; right; left; split; cols; intros; lia).
    rewrite stamped_in_cell by done. cols. repeat case_decide; try lia; done. }
  split.
  { intros j Hj Hne.
    rewrite (proj1 (recalculate_day_stamps _ n d cfg row j Hl1 Hf1 Hj)).
    rewrite stamped_in_cell by done. cols. repeat case_decide; try lia; done. }
  split.
  { intros j Hj.
    rewrite (proj2 (recalculate_day_stamps _ n d cfg row j Hl1 Hf1 Hj)).
    rewrite stamped_in_cell by done. cols. repeat case_decide; try lia; done. }
  intros r c Hr. rewrite (recalculate_day_untouched _ n d cfg row) by (try done; by left).
  rewrite stamped_in_cell by done. repeat case_decide; try lia; try done; tauto.
Qed.

(** X3: A clock-in on an existing day row stamps the first block whose entry
    is empty and touches no other stamp; on the first block it sets the
    status to Home or Office, on a later block it leaves the status as it
    is; the block is then open when its exit is empty. *)
Theorem clock_in_takes_first_free_block ws n d t is_home cfg row b :
  header_layout py ws n -> find_day_row ws d = Some row ->
  1 <= b <= n -> cell ws row (_ein_col b) = VNone ->
  (forall j, 1 <= j < b -> cell ws row (_ein_col j) <> VNone) ->
  let out := (write_stamp py d t "ein" is_home cfg ws).1 in
  cell out row (_ein_col b) = VTime t /\
  (b = 1 -> cell out row (3 * n + 3) = VStr (if is_home then "Home" else "Office")) /\
  (b <> 1 -> cell out row (3 * n + 3) = cell ws row (3 * n + 3)) /\
  (forall j, 1 <= j <= n -> j <> b -> cell out row (_ein_col j) = cell ws row (_ein_col j)) /\
  (forall j, 1 <= j <= n -> cell out row (_aus_col j) = cell ws row (_aus_col j)) /\
  (forall r c, r <> row -> cell out r c = cell ws r c) /\
  (cell ws row (_aus_col b) = VNone -> has_open_stamp py out d = true).
Proof.
  intros Hl Hf Hb Hfree Hbefore out.
  destruct (clock_in_cells ws n d t is_home cfg row b Hl Hf Hb Hfree Hbefore)
    as (Hl' & Hf' & Hein & Hst & Hother & Haus & Hrows).
  fold out in Hl', Hf', Hein, Hst, Hother, Haus, Hrows.
  split; [done|]. split; [intros ->; by rewrite Hst|].
  split; [intros Hne; rewrite Hst; by rewrite decide_False|].
  split; [done|]. split; [done|]. split; [done|].
  intros Hexit. apply (has_open_stamp_iff out n d Hl'). exists row, b.
  split; [done|]. split; [done|]. unfold open_block.
  by rewrite Hein, Haus, Hexit.
Qed.

(** X4: A clock-in followed by a clock-out, on a row whose blocks before the
    first free one are complete and whose later blocks are empty: the
    clock-out finds the block the clock-in opened, the block holds both
    times, and no block of the day is left open. *)
Theorem clock_in_then_clock_out ws n d t_in t_out is_home cfg row b :
  header_layout py ws n -> find_day_row ws d = Some row -> 1 <= b <= n ->
  (forall j, 1 <= j < b ->
     cell ws row (_ein_col j) <> VNone /\ cell ws row (_aus_col j) <> VNone) ->
  (forall j, b <= j <= n ->
     cell ws row (_ein_col j) = VNone /\ cell ws row (_aus_col j) = VNone) ->
  let mid := (write_stamp py d t_in "ein" is_home cfg ws).1 in
  let out := write_stamp py d t_out "aus" false cfg mid in
  has_open_stamp py mid d = true /\
  out.2 <> Err NoOpenEntry /\
  cell out.1 row (_ein_col b) = VTime t_in /\
  cell out.1 row (_aus_col b) = VTime t_out /\
  has_open_stamp py out.1 d = false.
Proof.
  intros Hl Hf Hb Hdone Hfree mid out.
  assert (Hn : 3 <= n) by (by destruct Hl).
  destruct (clock_in_cells ws n d t_in is_home cfg row b Hl Hf Hb)
    as (Hl1 & Hf1 & Hein & _ & Hother & Haus & _).
  { apply Hfree. lia. } { intros j Hj. apply Hdone. lia. }
  fold mid in Hl1, Hf1, Hein, Hother, Haus.
  pose proof (find_day_row_bounds _ _ _ Hf1) as Hrow.
  assert (Hopen : open_block mid row b = true).
  { unfold open_block. rewrite Hein, Haus by done. by rewrite (proj2 (Hfree b ltac:(lia))). }
  assert (Hlater : forall j, b < j <= n -> open_block mid row j = false).
  { intros j Hj. unfold open_block. rewrite Hother by lia.
    by rewrite (proj1 (Hfree j ltac:(lia))). }
  split. { apply (has_open_stamp_iff mid n d Hl1). exists row, b. done. }
  subst out. rewrite (write_stamp_aus_run py mid n d t_out false cfg Hl1).
  unfold located. rewrite Hf1. cbn [fst snd].
  rewrite (find_rev_range_last _ 1 (n + 1) b); [|lia|done|intros; apply Hlater; lia].
  set (ws2 := set_cell mid row (_aus_col b) (VTime t_out)).
  assert (Hl2 : header_layout py ws2 n) by (apply header_layout_set_cell; [lia|done]).
  assert (Hf2 : find_day_row ws2 d = Some row).
  { rewrite <- Hf1. apply find_day_row_ext.
    - intros r. apply cell_set_cell_ne. right. cols. lia.
    - unfold ws2, set_cell. cbn [max_row]. lia. }
  destruct (recalculate_day_keeps_layout ws2 n d cfg Hl2) as (Hl3 & _ & _ & Hfind3).
  assert (Hcells : forall j, 1 <= j <= n ->
            cell (recalculate_day py d cfg ws2).1 row (_ein_col j) = cell mid row (_ein_col j) /\
            cell (recalculate_day py d cfg ws2).1 row (_aus_col j)
            = if decide (j = b) then VTime t_out else cell mid row (_aus_col j)).
  { intros j Hj.
    destruct (recalculate_day_stamps ws2 n d cfg row j Hl2 Hf2 Hj) as [-> ->].
    unfold ws2. rewrite !cell_set_cell. cols.
    repeat case_decide; repeat
      match goal with
      | |- context [(?a =? ?b)] => destruct (Z.eqb_spec a b); try lia; cbn [andb negb is_none]
      end; try done; lia. }
  split; [apply no_open_error_recalculate_day|].
  split; [by rewrite (proj1 (Hcells b Hb))|].
  split; [rewrite (proj2 (Hcells b Hb)); by rewrite decide_True|].
  apply not_true_iff_false. rewrite (has_open_stamp_iff _ n d Hl3).
  intros (row' & j & Hrow' & Hj & Ho). rewrite Hfind3, Hf2 in Hrow'.
  injection Hrow' as <-. unfold open_block in Ho.
  destruct (Hcells j Hj) as [Hje Hja]. rewrite Hje, Hja in Ho.
  destruct (decide (j = b)) as [->|Hne]; [by rewrite andb_false_r in Ho|].
  rewrite Hother, Haus in Ho by done.
  destruct (decide (j < b)).
  - destruct (Hdone j ltac:(lia)) as [_ Hx].
    destruct (cell ws row (_aus_col j)); try done; by rewrite andb_false_r in Ho.
  - by rewrite (proj1 (Hfree j ltac:(lia))) in Ho.
Qed.

End Clock.

Section Expansion.
Variable py : Builtins.

(** X6: [_expand_blocks] on a sheet with [n] blocks: the header gains the
    block [n + 1] in front of the Status column, every cell left of that
    column stays, the summary columns and all to their right move three
    columns to the right with their contents, the three new cells of every
    row below the header are empty, and no row is added. *)
Theorem expand_blocks_shifts_summary ws n :
  header_layout py ws n ->
  let out := _expand_blocks (n + 1) ws in
  out.2 = Ok tt /\
  header_layout py out.1 (n + 1) /\
  _count_blocks py out.1 = n + 1 /\
  _find_summary_cols out.1 = Ok (3 * n + 6, 3 * n + 7, 3 * n + 8, 3 * n + 9) /\
  max_row out.1 = max_row ws /\ max_column out.1 = max_column ws + 3 /\
  (forall r c, c < 3 * n + 3 -> cell out.1 r c = cell ws r c) /\
  (forall r c, 3 * n + 3 <= c -> cell out.1 r (c + 3) = cell ws r c) /\
  (forall r c, HEADER_ROW < r -> 3 * n + 3 <= c < 3 * n + 6 -> cell out.1 r c = VNone) /\
  (forall d, find_day_row out.1 d = find_day_row ws d).
Proof.
  intros Hl out. subst out. rewrite (expand_blocks_run py ws n Hl). cbn [fst snd].
  assert (Hn : 3 <= n) by (by destruct Hl).
  pose proof (expanded_layout py ws n Hl) as Hl'.
  destruct (expanded_extent py ws n Hl) as [Hmr Hmc].
  assert (Hcell : forall r c,
            cell (expanded ws n) r c =
            if decide (r = HEADER_ROW /\ 3 * n + 3 <= c < 3 * n + 6)
            then cell (expanded ws n) HEADER_ROW c
            else if c <? 3 * n + 3 then cell ws r c
            else if c <? 3 * n + 6 then VNone else cell ws r (c - 3)).
  { intros r c. case_decide as Hd; [by destruct Hd as [-> _]|].
    destruct (decide (r = HEADER_ROW)) as [->|Hr].
    - rewrite expanded_header.
      destruct (Z.ltb_spec c (3 * n + 3)); repeat case_decide; try lia; try done.
      destruct (Z.ltb_spec c (3 * n + 6)); [lia|done].
    - unfold expanded. rewrite cell_apply_writes, written_none.
      + cbn [default]. rewrite cell_insert_cols. unfold BLOCK_WIDTH.
        replace (3 * n + 3 + 3) with (3 * n + 6) by lia. done.
      + repeat (apply Forall_cons; split; [cbn [fst snd]; left; done|]).
        apply Forall_nil_2. }
  split; [done|]. split; [done|].
  split; [apply (count_blocks_layout py _ _ Hl')|].
  split.
  { rewrite (find_summary_cols_layout py _ _ Hl').
    replace (3 * (n + 1) + 3) with (3 * n + 6) by lia.
    replace (3 * (n + 1) + 4) with (3 * n + 7) by lia.
    replace (3 * (n + 1) + 5) with (3 * n + 8) by lia.
    replace (3 * (n + 1) + 6) with (3 * n + 9) by lia. done. }
  split; [done|]. split; [done|].
  split.
  { intros r c Hc. rewrite Hcell. rewrite decide_False by lia.
    destruct (Z.ltb_spec c (3 * n + 3)); [done|lia]. }
  split.
  { intros r c Hc. rewrite Hcell. rewrite decide_False by lia.
    destruct (Z.ltb_spec (c + 3) (3 * n + 3)); [lia|].
    destruct (Z.ltb_spec (c + 3) (3 * n + 6)); [lia|].
    by replace (c + 3 - 3) with c by lia. }
  split.
  { intros r c Hr Hc. rewrite Hcell. rewrite decide_False by lia.
    destruct (Z.ltb_spec c (3 * n + 3)); [lia|].
    destruct (Z.ltb_spec c (3 * n + 6)); [done|lia]. }
  intros d. apply find_day_row_ext; [|done].
  intros r. rewrite Hcell. rewrite decide_False by lia.
  destruct (Z.ltb_spec 1 (3 * n + 3)); [done|lia].
Qed.

End Expansion.

Section Summary.
Variable py : Builtins.

(** A cell read as hours, 0 when it cannot be read. *)
Definition hours_or_zero (v : value) : Qc :=
  match _read_hours_value py v with Ok x => x | Err _ => #0 end.

(** The rows above [sum_row] whose date cell is not empty. *)
Definition data_rows (ws : Worksheet) (sum_row : Z) : list Z :=
  List.filter (fun r => negb (is_none (cell ws r 1))) (range (HEADER_ROW + 1) sum_row).

(** The hours of column [c] added up over the data rows. *)
Definition column_total (ws : Worksheet) (sum_row c : Z) : Qc :=
  Qc_sum ((fun r => hours_or_zero (cell ws r c)) <$> data_rows ws sum_row).

Definition readable (v : value) : Prop := exists x, _read_hours_value py v = Ok x.

Lemma sum_data_rows_total ws g s b rows : forall acc,
  (forall r, r ∈ rows -> cell ws r 1 <> VNone ->
     readable (cell ws r g) /\ readable (cell ws r s) /\ readable (cell ws r b)) ->
  sum_data_rows py ws g s b rows acc =
  let live := List.filter (fun r => negb (is_none (cell ws r 1))) rows in
  Ok ((acc.1.1 + Qc_sum ((fun r => hours_or_zero (cell ws r g)) <$> live))%Qc,
      (acc.1.2 + Qc_sum ((fun r => hours_or_zero (cell ws r s)) <$> live))%Qc,
      (acc.2 + Qc_sum ((fun r => hours_or_zero (cell ws r b)) <$> live))%Qc).
Proof.
  induction rows as [|r rows IH]; intros [[ag as_] ab] Hread; cbn [sum_data_rows].
  - cbn. by rewrite !Qcplus_zero_r.
  - cbn [List.filter].
    destruct (is_none (cell ws r 1)) eqn:Hd; cbn [negb].
    + apply IH. intros r' Hr'. apply Hread. by right.
    + assert (Hne : cell ws r 1 <> VNone) by (intros E; by rewrite E in Hd).
      destruct (Hread r ltac:(by left) Hne) as ((xg & Hg) & (xs & Hs) & (xb & Hb)).
      rewrite Hg, Hs, Hb. rewrite IH by (intros r' Hr'; apply Hread; by right).
      cbn [fst snd fmap list_fmap]. rewrite !Qc_sum_cons.
      assert (Hzg : hours_or_zero (cell ws r g) = xg) by (unfold hours_or_zero; by rewrite Hg).
      assert (Hzs : hours_or_zero (cell ws r s) = xs) by (unfold hours_or_zero; by rewrite Hs).
      assert (Hzb : hours_or_zero (cell ws r b) = xb) by (unfold hours_or_zero; by rewrite Hb).
      rewrite Hzg, Hzs, Hzb. f_equal. f_equal; [f_equal|]; ring.
Qed.

(** The writes of [recalculate_sheet_summary]. *)
Definition summary_writes (n sum_row : Z) (carry_row cum_row : option Z)
    (g s b carry_over : Qc) : list (Z * Z * value) :=
  [(sum_row, 3 * n + 4, VNum (_hours_to_fraction (py_round g 2)));
   (sum_row, 3 * n + 5, VNum (_hours_to_fraction (py_round s 2)));
   (sum_row, 3 * n + 6, VNum (_hours_to_fraction (py_round b 2)))]
  ++ match carry_row with
     | Some r => [(r, 3 * n + 6, VNum (_hours_to_fraction (py_round carry_over 2)))]
     | None => []
     end
  ++ match cum_row with
     | Some r => [(r, 3 * n + 6, VNum (_hours_to_fraction (py_round (carry_over + b) 2)))]
     | None => []
     end.

Lemma recalculate_sheet_summary_run ws n y m carry_over cfg sum_row :
  header_layout py ws n ->
  find_label_row ws "Summe" (range (HEADER_ROW + 1) (max_row ws + 1)) = Some sum_row ->
  (forall r c, HEADER_ROW < r < sum_row -> cell ws r 1 <> VNone ->
     3 * n + 4 <= c <= 3 * n + 6 -> readable (cell ws r c)) ->
  recalculate_sheet_summary py y m carry_over cfg ws =
  (apply_writes ws
     (summary_writes n sum_row
        (find_label_row ws "Uebertrag" (range (HEADER_ROW + 1) (max_row ws + 1)))
        (find_label_row ws "Kumuliert" (range (HEADER_ROW + 1) (max_row ws + 1)))
        (column_total ws sum_row (3 * n + 4)) (column_total ws sum_row (3 * n + 5))
        (column_total ws sum_row (3 * n + 6)) carry_over),
   Ok (py_round (carry_over + column_total ws sum_row (3 * n + 6)) 2)).
Proof.
  intros Hl Hsum Hread.
  unfold recalculate_sheet_summary, bind at 1. unfold attempt at 1.
  rewrite (find_summary_cols_layout py ws n Hl).
  unfold bind at 1. unfold gets at 1.
  unfold bind at 1. unfold gets at 1. rewrite Hsum.
  unfold bind at 1. unfold gets at 1.
  unfold bind at 1. unfold gets at 1.
  unfold bind at 1. unfold attempt at 1.
  rewrite sum_data_rows_total; cycle 1.
  { intros r Hr%elem_of_range Hne. unfold HEADER_ROW in *.
    repeat split; apply Hread; try done; lia. }
  cbn [fst snd]. rewrite !Qcplus_zero_l.
  fold (data_rows ws sum_row).
  fold (column_total ws sum_row (3 * n + 4)) (column_total ws sum_row (3 * n + 5))
       (column_total ws sum_row (3 * n + 6)).
  unfold summary_writes.
  destruct (find_label_row ws "Uebertrag" _) as [carry_row|];
    destruct (find_label_row ws "Kumuliert" _) as [cum_row|]; done.
Qed.

Lemma find_label_row_some ws label rows r :
  find_label_row ws label rows = Some r -> r ∈ rows /\ cell ws r 1 = VStr label.
Proof.
  unfold find_label_row. intros H. apply find_some in H as [Hin Hc].
  apply list_elem_of_In in Hin. rewrite elem_of_reverse in Hin.
  split; [done|]. by apply bool_decide_eq_true in Hc.
Qed.

Lemma find_label_row_last ws label a b r :
  a <= r < b -> cell ws r 1 = VStr label ->
  (forall j, r < j < b -> cell ws j 1 <> VStr label) ->
  find_label_row ws label (range a b) = Some r.
Proof.
  intros Hr Hc Hlast. unfold find_label_row. apply find_rev_range_last; [done| |].
  - by apply bool_decide_eq_true.
  - intros j Hj. apply bool_decide_eq_false. by apply Hlast.
Qed.

Lemma find_label_row_none ws label a b :
  (forall j, a <= j < b -> cell ws j 1 <> VStr label) ->
  find_label_row ws label (range a b) = None.
Proof.
  intros H. unfold find_label_row. apply find_rev_range_none.
  intros j Hj. apply bool_decide_eq_false. by apply H.
Qed.

(** X10: [recalculate_sheet_summary]: without a Summe row it returns the carry
    it was given and writes nothing.  With one, it adds up the hours of
    the three summary columns over the rows above the (last) Summe row
    whose date cell is filled, stores the rounded sums in the Summe row,
    the carry in the Uebertrag row, and returns the carry plus the sum of
    the balances, rounded, which it also stores in the Kumuliert row; it
    changes no other cell, so no day row. *)
Theorem sheet_summary_totals ws n y m carry_over cfg :
  header_layout py ws n ->
  let out := recalculate_sheet_summary py y m carry_over cfg ws in
  ((forall r, HEADER_ROW < r <= max_row ws -> cell ws r 1 <> VStr "Summe") ->
   out = (ws, Ok carry_over)) /\
  (forall sum_row,
     HEADER_ROW < sum_row <= max_row ws -> cell ws sum_row 1 = VStr "Summe" ->
     (forall r, sum_row < r <= max_row ws -> cell ws r 1 <> VStr "Summe") ->
     (forall r c, HEADER_ROW < r < sum_row -> cell ws r 1 <> VNone ->
        3 * n + 4 <= c <= 3 * n + 6 -> readable (cell ws r c)) ->
     let cumulative := py_round (carry_over + column_total ws sum_row (3 * n + 6)) 2 in
     out.2 = Ok cumulative /\
     (forall c, 3 * n + 4 <= c <= 3 * n + 6 ->
        cell out.1 sum_row c = VNum (_hours_to_fraction (py_round (column_total ws sum_row c) 2))) /\
     (forall r, HEADER_ROW < r <= max_row ws -> cell ws r 1 = VStr "Uebertrag" ->
        (forall j, r < j <= max_row ws -> cell ws j 1 <> VStr "Uebertrag") ->
        cell out.1 r (3 * n + 6) = VNum (_hours_to_fraction (py_round carry_over 2))) /\
     (forall r, HEADER_ROW < r <= max_row ws -> cell ws r 1 = VStr "Kumuliert" ->
        (forall j, r < j <= max_row ws -> cell ws j 1 <> VStr "Kumuliert") ->
        cell out.1 r (3 * n + 6) = VNum (_hours_to_fraction cumulative)) /\
     (forall r c, cell out.1 r c <> cell ws r c ->
        (cell ws r 1 = VStr "Summe" \/ cell ws r 1 = VStr "Uebertrag"
         \/ cell ws r 1 = VStr "Kumuliert") /\ 3 * n + 4 <= c <= 3 * n + 6)).
Proof.
  intros Hl out. subst out. assert (Hn : 3 <= n) by (by destruct Hl). split.
  - intros Hno. unfold recalculate_sheet_summary, bind, attempt, gets, ret.
    rewrite (find_summary_cols_layout py ws n Hl).
    rewrite (find_label_row_none ws "Summe"); [done|].
    intros j Hj. apply Hno. unfold HEADER_ROW in *. lia.
  - intros sum_row Hrow Hlabel Hlast Hread cumulative.
    assert (Hsum : find_label_row ws "Summe" (range (HEADER_ROW + 1) (max_row ws + 1))
                   = Some sum_row).
    { apply find_label_row_last; [unfold HEADER_ROW in *; lia|done|].
      intros j Hj. apply Hlast. lia. }
    rewrite (recalculate_sheet_summary_run ws n y m carry_over cfg sum_row Hl Hsum Hread).
    cbn [fst snd]. split; [done|].
    set (rows := range (HEADER_ROW + 1) (max_row ws + 1)).
    assert (Hcarry : forall r, find_label_row ws "Uebertrag" rows = Some r ->
                       cell ws r 1 = VStr "Uebertrag" /\ r <> sum_row).
    { intros r [_ Hc]%find_label_row_some. split; [done|]. intros ->. congruence. }
    assert (Hcum : forall r, find_label_row ws "Kumuliert" rows = Some r ->
                     cell ws r 1 = VStr "Kumuliert" /\ r <> sum_row).
    { intros r [_ Hc]%find_label_row_some. split; [done|]. intros ->. congruence. }
    assert (Hdiff : forall r r', find_label_row ws "Uebertrag" rows = Some r ->
                      find_label_row ws "Kumuliert" rows = Some r' -> r <> r').
    { intros r r' [_ Hc]%find_label_row_some [_ Hc']%find_label_row_some ->. congruence. }
    split; [|split; [|split]].
    + intros c Hc. rewrite cell_apply_writes. unfold summary_writes.
      destruct (find_label_row ws "Uebertrag" rows) as [carry_row|] eqn:E1;
        destruct (find_label_row ws "Kumuliert" rows) as [cum_row|] eqn:E2;
        try (destruct (Hcarry _ eq_refl) as [_ ?]);
        try (destruct (Hcum _ eq_refl) as [_ ?]);
        cbn [app written fst snd is_none negb];
        assert (c = 3 * n + 4 \/ c = 3 * n + 5 \/ c = 3 * n + 6) as [-> | [-> | ->]] by lia;
        repeat match goal with
        | |- context [(?a =? ?b)] => destruct (Z.eqb_spec a b); try lia; cbn [andb]
        end; done.
    + intros r Hr Hc Hl'.
      assert (E1 : find_label_row ws "Uebertrag" rows = Some r).
      { apply find_label_row_last; [unfold HEADER_ROW in *; lia|done|].
        intros j Hj. apply Hl'. lia. }
      rewrite cell_apply_writes. unfold summary_writes. fold rows. rewrite E1.
      destruct (Hcarry _ E1) as [_ ?].
      destruct (find_label_row ws "Kumuliert" rows) as [cum_row|] eqn:E2;
        try (pose proof (Hdiff _ _ E1 eq_refl));
        cbn [app written fst snd is_none negb];
        repeat match goal with
        | |- context [(?a =? ?b)] => destruct (Z.eqb_spec a b); try lia; cbn [andb]
        end; done.
    + intros r Hr Hc Hl'.
      assert (E2 : find_label_row ws "Kumuliert" rows = Some r).
      { apply find_label_row_last; [unfold HEADER_ROW in *; lia|done|].
        intros j Hj. apply Hl'. lia. }
      rewrite cell_apply_writes. unfold summary_writes. fold rows. rewrite E2.
      destruct (find_label_row ws "Uebertrag" rows) as [carry_row|] eqn:E1;
        cbn [app written fst snd is_none negb];
        repeat match goal with
        | |- context [(?a =? ?b)] => destruct (Z.eqb_spec a b); try lia; cbn [andb]
        end; done.
    + intros r c. rewrite cell_apply_writes. unfold summary_writes. fold rows.
      destruct (find_label_row ws "Uebertrag" rows) as [carry_row|] eqn:E1;
        destruct (find_label_row ws "Kumuliert" rows) as [cum_row|] eqn:E2;
        try (destruct (Hcarry _ eq_refl) as [? _]);
        try (destruct (Hcum _ eq_refl) as [? _]);
        cbn [app written fst snd is_none negb];
        repeat match goal with
        | |- context [(?a =? ?b)] => destruct (Z.eqb_spec a b); try subst; cbn [andb]
        end; cbn [default]; intros Hne; try done; (split; [tauto|lia]).
Qed.

End Summary.

Section DayRows.
Variable py : Builtins.

(** A cell read as hours when it is filled and readable. *)
Definition hours_of_cell (v : value) : option Qc :=
  match _read_hours_value py v with Ok x => Some x | Err _ => None end.

(** What [iter_day_rows_with_data] reports for a row whose date cell
    holds a date. *)
Definition day_row_entry (ws : Worksheet) (n r : Z)
  : option (date * option Qc * Qc * option Qc) :=
  match parse_date_cell py (cell ws r 1) with
  | Some dt =>
      Some (dt,
            (if is_none (cell ws r (3 * n + 4)) then None
             else hours_of_cell (cell ws r (3 * n + 4))),
            default #0 (hours_of_cell (cell ws r (3 * n + 5))),
            (if is_none (cell ws r (3 * n + 6)) then None
             else hours_of_cell (cell ws r (3 * n + 6))))
  | None => None
  end.

Lemma iter_rows_loop_stop ws g s b l1 k l2 :
  Forall (fun r => is_summary_label (cell ws r 1) = false) l1 ->
  is_summary_label (cell ws k 1) = true ->
  iter_rows_loop py ws g s b (l1 ++ k :: l2) = iter_rows_loop py ws g s b l1.
Proof.
  intros Hl1 Hk. induction l1 as [|r l1 IH]; cbn [app iter_rows_loop].
  - rewrite Hk. by destruct (cell ws k 1).
  - inversion Hl1 as [|? ? Hr Hl1']; subst. rewrite IH by done. done.
Qed.

Lemma iter_rows_loop_entries ws n l : forall rows,
  Forall (fun r => is_summary_label (cell ws r 1) = false) l ->
  iter_rows_loop py ws (3 * n + 4) (3 * n + 5) (3 * n + 6) l = Ok rows ->
  rows = omap (day_row_entry ws n) l.
Proof.
  induction l as [|r l IH]; intros rows Hl; cbn [iter_rows_loop].
  - by intros [= <-].
  - change (omap (day_row_entry ws n) (r :: l))
      with (match day_row_entry ws n r with
            | Some y => y :: omap (day_row_entry ws n) l
            | None => omap (day_row_entry ws n) l
            end).
    inversion Hl as [|? ? Hr Hl']; subst. cbv zeta. rewrite Hr. unfold day_row_entry at 1.
    destruct (is_none (cell ws r 1)) eqn:Hd.
    { apply is_none_spec in Hd. rewrite Hd. cbn [parse_date_cell]. by apply IH. }
    destruct (parse_date_cell py (cell ws r 1)) as [dt|]; [|by apply IH].
    unfold read_optional_hours, hours_of_cell.
    destruct (is_none (cell ws r (3 * n + 4)));
      destruct (is_none (cell ws r (3 * n + 6)));
      repeat match goal with
      | |- context [_read_hours_value py ?v] => destruct (_read_hours_value py v); try done
      end;
      destruct (iter_rows_loop py ws _ _ _ l) as [rest|]; try done;
      intros [= <-]; cbn [default]; by rewrite (IH rest).
Qed.

(** X11: [iter_day_rows_with_data] reports, in row order, the rows above the
    first summary row whose date cell holds a date, each with the total,
    the expected hours and the balance of its own row; rows from the first
    summary row on are never reported. *)
Theorem iter_day_rows_above_summary ws n k rows :
  header_layout py ws n ->
  HEADER_ROW < k <= max_row ws + 1 ->
  (k <= max_row ws -> is_summary_label (cell ws k 1) = true) ->
  (forall r, HEADER_ROW < r < k -> is_summary_label (cell ws r 1) = false) ->
  iter_day_rows_with_data py ws = Ok rows ->
  rows = omap (day_row_entry ws n) (range (HEADER_ROW + 1) k).
Proof.
  intros Hl Hk Hlabel Habove. unfold iter_day_rows_with_data.
  rewrite (find_summary_cols_layout py ws n Hl).
  assert (Hl1 : Forall (fun r => is_summary_label (cell ws r 1) = false)
                       (range (HEADER_ROW + 1) k)).
  { apply Forall_forall. intros r Hr%elem_of_range. apply Habove. lia. }
  destruct (decide (k <= max_row ws)) as [Hle|Hgt].
  - rewrite (range_split (HEADER_ROW + 1) (max_row ws + 1) k) by lia.
    rewrite iter_rows_loop_stop by auto. by apply iter_rows_loop_entries.
  - replace (max_row ws + 1) with k by lia. by apply iter_rows_loop_entries.
Qed.

End DayRows.

(** X14: [set_carry_over] and [get_carry_over]: the balance stored for a year
    is read back rounded to four decimals, the balances of the other
    years and the rest of the configuration stay as they are. *)
Theorem carry_over_round_trip cfg y balance :
  get_carry_over (set_carry_over cfg y balance) y = py_round balance 4 /\
  (forall y', y' <> y ->
     get_carry_over (set_carry_over cfg y balance) y' = get_carry_over cfg y') /\
  (forall wd, get_expected_hours (set_carry_over cfg y balance) wd
              = get_expected_hours cfg wd) /\
  get_travel_offset (set_carry_over cfg y balance) = get_travel_offset cfg.
Proof.
  unfold get_carry_over, set_carry_over. cbn [carry_over_balance].
  split; [by rewrite lookup_insert_eq|]. split; [|done].
  intros y' Hne. rewrite lookup_insert_ne; [done|].
  intros E. by apply (inj pretty) in E.
Qed.

Lemma Qcopp_pos x : (x < 0)%Qc -> (0 < - x)%Qc.
Proof. intros H%Qclt_minus_iff. by rewrite Qcplus_0_l in H. Qed.

Lemma Qcopp_neg x : (0 < x)%Qc -> (- x < 0)%Qc.
Proof. intros H. apply Qclt_minus_iff. by rewrite Qcopp_involutive, Qcplus_0_l. Qed.

Lemma Qc_abs_nonneg x : (0 <= Qc_abs x)%Qc.
Proof.
  unfold Qc_abs. rewrite Qc_of_Z_0. case_decide as H.
  - by apply Qclt_le_weak, Qcopp_pos.
  - by apply Qcle_ngt.
Qed.

Lemma Qc_abs_opp x : Qc_abs (- x) = Qc_abs x.
Proof.
  unfold Qc_abs. rewrite Qc_of_Z_0.
  destruct (Qclt_le_dec x 0) as [Hneg|Hnn].
  - rewrite (decide_True (P := (x < 0)%Qc)) by done.
    rewrite (decide_False (P := (- x < 0)%Qc)); [done|].
    intros H. apply Qcopp_pos in Hneg. apply (Qclt_not_le _ _ H). by apply Qclt_le_weak.
  - rewrite (decide_False (P := (x < 0)%Qc)) by (by apply Qcle_not_lt).
    case_decide as H; [apply Qcopp_involutive|].
    apply Qcle_ngt in H.
    assert (x = 0%Qc) as -> ; [|done].
    apply Qcle_antisym; [|done].
    apply Qcopp_le_compat in H. by rewrite Qcopp_involutive in H.
Qed.

(** X18: [_fmt_hours] shows the hours rounded to the minute: hours, a colon and
    two digits of minutes below 60; a value below zero gets a minus sign,
    also when it rounds to 0:00, and apart from the sign is shown as its
    opposite is.  The examples of the docstring hold. *)
Theorem fmt_hours_shape :
  (forall value, exists h m,
     0 <= h /\ 0 <= m < 60 /\ 60 * h + m = round_half_even (Qc_abs value * #60) /\
     _fmt_hours value
     = (if decide (value < #0)%Qc then "-" else "") +:+ pretty h +:+ ":" +:+ pad2 m) /\
  (forall value, (#0 < value)%Qc -> _fmt_hours (- value) = "-" +:+ _fmt_hours value) /\
  _fmt_hours (cents 250) = "2:30" /\ _fmt_hours (cents 75) = "0:45" /\
  _fmt_hours (- #1 / #1000) = "-0:00".
Proof.
  split; [|split; [|split; [|split]]].
  - intros value. unfold _fmt_hours. cbv zeta.
    set (t := round_half_even (Qc_abs value * #60)).
    assert (0 <= t).
    { apply round_half_even_nonneg. apply Qcmult_nonneg_nonneg; [apply Qc_abs_nonneg|].
      by_eval. }
    exists (t / 60), (t mod 60). split; [apply Z.div_pos; lia|].
    split; [apply Z.mod_pos_bound; lia|]. split; [|done].
    rewrite <- Z.div_mod; lia.
  - intros value Hpos. unfold _fmt_hours. cbv zeta. rewrite Qc_abs_opp.
    rewrite Qc_of_Z_0 in *.
    rewrite (decide_True (P := (- value < 0)%Qc)) by (by apply Qcopp_neg).
    rewrite (decide_False (P := (value < 0)%Qc)); [done|].
    intros H. apply (Qclt_not_le _ _ H). by apply Qclt_le_weak.
  - by_eval.
  - by_eval.
  - by_eval.
Qed.

Section Creation.
Variable py : Builtins.

(** The days of the month that get a row: those with expected hours
    above 0. *)
Definition workdays (cfg : Config) (y m : Z) (days : list Z) : list Z :=
  List.filter (fun day_num =>
                 negb (bool_decide (get_expected_hours cfg (weekday (mkDate y m day_num))
                                    <= #0)%Qc)) days.

Fixpoint day_rows (cfg : Config) (y m : Z) (days : list Z) (row : Z)
  : list (Z * Z * value) :=
  match days with
  | [] => []
  | day_num :: rest =>
      day_row_writes cfg (mkDate y m day_num) row ++ day_rows cfg y m rest (row + 1)
  end.

Lemma month_rows_workdays cfg y m days : forall row,
  month_rows cfg y m days row
  = (day_rows cfg y m (workdays cfg y m days) row,
     row + Z.of_nat (length (workdays cfg y m days))).
Proof.
  induction days as [|day_num days IH]; intros row; cbn [month_rows workdays List.filter].
  - cbn. by rewrite Z.add_0_r.
  - case_decide as H.
    + rewrite bool_decide_eq_true_2 by done. cbn [negb]. fold (workdays cfg y m days). apply IH.
    + rewrite bool_decide_eq_false_2 by done. cbn [negb]. rewrite IH.
      fold (workdays cfg y m days). cbn [day_rows length]. f_equal. lia.
Qed.

Lemma day_row_writes_rows cfg d row :
  Forall (fun x : Z * Z * value => x.1.1 = row /\ 1 <= x.1.2 <= 15) (day_row_writes cfg d row).
Proof.
  unfold day_row_writes. cbn.
  repeat (apply Forall_cons; split;
            [cbn; unfold DATE_COLS, INITIAL_BLOCKS, BLOCK_WIDTH; lia|]).
  apply Forall_nil_2.
Qed.

Lemma day_rows_rows cfg y m days : forall row,
  Forall (fun x : Z * Z * value =>
            row <= x.1.1 < row + Z.of_nat (length days) /\ 1 <= x.1.2 <= 15)
         (day_rows cfg y m days row).
Proof.
  induction days as [|day_num days IH]; intros row; cbn [day_rows]; [done|].
  apply Forall_app. split.
  - eapply Forall_impl; [apply day_row_writes_rows|]. cbn. intros x [-> ?]. lia.
  - eapply Forall_impl; [apply IH|]. cbn. intros x ?. lia.
Qed.

Lemma written_day_rows cfg y m days : forall row i day_num c,
  days !! i = Some day_num ->
  written (day_rows cfg y m days row) (row + Z.of_nat i) c
  = written (day_row_writes cfg (mkDate y m day_num) (row + Z.of_nat i)) (row + Z.of_nat i) c.
Proof.
  induction days as [|d days IH]; intros row i day_num c Hi; [done|].
  cbn [day_rows]. rewrite written_app. destruct i as [|i].
  - injection Hi as ->. rewrite Z.add_0_r.
    rewrite (written_none (day_rows _ _ _ _ _)); [done|].
    eapply Forall_impl; [apply day_rows_rows|]. cbn. intros x ?. left. lia.
  - cbn in Hi. replace (row + Z.of_nat (S i)) with (row + 1 + Z.of_nat i) by lia.
    rewrite (IH (row + 1) i day_num c Hi).
    destruct (written _ _ c) eqn:E; [done|].
    apply written_none.
    eapply Forall_impl; [apply day_row_writes_rows|]. cbn. intros x [-> ?]. left. lia.
Qed.

(** The header row that the program writes has the layout of three
    blocks. *)
Lemma header_writes_layout :
  header_layout py (apply_writes new_sheet header_writes) INITIAL_BLOCKS.
Proof.
  unfold header_layout, INITIAL_BLOCKS. split; [lia|]. split; [|split; [|split; [|split]]].
  - intros b Hb. assert (b = 1 \/ b = 2 \/ b = 3) as [-> | [-> | ->]] by lia; done.
  - intros c Hc.
    assert (c = 1 \/ c = 2 \/ c = 3 \/ c = 4 \/ c = 5 \/ c = 6 \/ c = 7 \/ c = 8 \/ c = 9
            \/ c = 10 \/ c = 11) as H by lia.
    repeat (destruct H as [-> | H]); try subst c; done.
  - done.
  - done.
  - done.
Qed.

(** A list of numbers that grows from left to right. *)
Definition increasing (l : list Z) : Prop :=
  forall i j a b, l !! i = Some a -> l !! j = Some b -> (i < j)%nat -> a < b.

Lemma increasing_range a b : increasing (range a b).
Proof.
  intros i j x y Hi Hj Hij. unfold range in *.
  apply lookup_seqZ in Hi as [-> _]. apply lookup_seqZ in Hj as [-> _]. lia.
Qed.

Lemma increasing_filter (f : Z -> bool) l : increasing l -> increasing (List.filter f l).
Proof.
  induction l as [|x l IH]; intros Hl; [done|].
  assert (Hl' : increasing l).
  { intros i j a b Hi Hj Hij. apply (Hl (S i) (S j)); [done|done|lia]. }
  assert (Hx : forall b, b ∈ List.filter f l -> x < b).
  { intros b Hb. apply list_elem_of_In, filter_In in Hb as [Hb _].
    apply list_elem_of_In, list_elem_of_lookup in Hb as [j Hj].
    apply (Hl 0%nat (S j)); [done|done|lia]. }
  cbn [List.filter]. destruct (f x); [|by apply IH].
  intros i j a b Hi Hj Hij. destruct i as [|i], j as [|j]; try lia.
  - injection Hi as <-. apply Hx. by eapply list_elem_of_lookup_2.
  - apply (IH Hl' i j); [done|done|lia].
Qed.

Lemma max_row_apply_writes_ub (B : Z) W : forall ws,
  Forall (fun x : Z * Z * value => x.1.1 <= B) W -> max_row ws <= B ->
  max_row (apply_writes ws W) <= B.
Proof.
  induction W as [|x W IH]; intros ws HW Hws; [done|].
  inversion HW; subst. cbn [apply_writes foldl]. apply IH; [done|].
  unfold set_cell. cbn [max_row]. lia.
Qed.

Lemma max_row_apply_writes_last ws W x :
  x.1.1 <= max_row (apply_writes ws (W ++ [x])).
Proof.
  rewrite apply_writes_app. cbn [apply_writes foldl]. unfold set_cell. cbn [max_row]. lia.
Qed.

Lemma summary_row_writes_rows row :
  Forall (fun x : Z * Z * value => row + 1 <= x.1.1 <= row + 3 /\ 1 <= x.1.2 <= 15)
         (summary_row_writes row).
Proof.
  unfold summary_row_writes. cbn.
  repeat (apply Forall_cons; split;
            [cbn; unfold DATE_COLS, INITIAL_BLOCKS, BLOCK_WIDTH; lia|]).
  apply Forall_nil_2.
Qed.

Lemma create_month_sheet_writes y m cfg :
  _create_month_sheet y m cfg =
  let days := workdays cfg y m (range 1 (days_in_month y m + 1)) in
  apply_writes (apply_writes new_sheet header_writes)
    (day_rows cfg y m days (HEADER_ROW + 1)
     ++ summary_row_writes (HEADER_ROW + 1 + Z.of_nat (length days))).
Proof.
  unfold _create_month_sheet. rewrite month_rows_workdays. cbv zeta.
  by rewrite apply_writes_app.
Qed.

(** The cells of the sheet that [_create_month_sheet] returns. *)
Lemma create_month_sheet_spec y m cfg :
  let ws := _create_month_sheet y m cfg in
  let days := workdays cfg y m (range 1 (days_in_month y m + 1)) in
  let last := HEADER_ROW + 1 + Z.of_nat (length days) in
  header_layout py ws INITIAL_BLOCKS /\
  max_row ws = last + 3 /\ max_column ws = 15 /\
  (forall i day_num, days !! i = Some day_num ->
     let d := mkDate y m day_num in
     let r := HEADER_ROW + 1 + Z.of_nat i in
     1 <= day_num <= days_in_month y m /\
     (#0 < get_expected_hours cfg (weekday d))%Qc /\
     cell ws r 1 = VStr (strftime_dmy d) /\
     cell ws r 2 = VStr (default "" (WEEKDAY_NAMES !! Z.to_nat (weekday d))) /\
     cell ws r 14 = VNum (_hours_to_fraction (get_expected_hours cfg (weekday d))) /\
     (forall c, c <> 1 -> c <> 2 -> c <> 14 -> cell ws r c = VNone)) /\
  (forall day_num, 1 <= day_num <= days_in_month y m ->
     (#0 < get_expected_hours cfg (weekday (mkDate y m day_num)))%Qc ->
     day_num ∈ days) /\
  (forall i j a b, days !! i = Some a -> days !! j = Some b -> (i < j)%nat -> a < b) /\
  (forall c, cell ws last c = VNone) /\
  cell ws (last + 1) 1 = VStr "Summe" /\
  cell ws (last + 2) 1 = VStr "Uebertrag" /\
  cell ws (last + 3) 1 = VStr "Kumuliert".
Proof.
  intros ws days last. subst ws. rewrite create_month_sheet_writes. cbv zeta.
  fold days. fold last.
  set (base := apply_writes new_sheet header_writes).
  set (D := day_rows cfg y m days (HEADER_ROW + 1)).
  set (S := summary_row_writes last).
  assert (HD : Forall (fun x : Z * Z * value =>
                         HEADER_ROW + 1 <= x.1.1 < last /\ 1 <= x.1.2 <= 15) D).
  { eapply Forall_impl; [apply day_rows_rows|]. cbn. intros x ?. unfold last. lia. }
  assert (HS : Forall (fun x : Z * Z * value =>
                         last + 1 <= x.1.1 <= last + 3 /\ 1 <= x.1.2 <= 15) S)
    by apply summary_row_writes_rows.
  assert (Hbase : forall r c, HEADER_ROW < r -> cell base r c = VNone).
  { intros r c Hr. unfold base. rewrite cell_apply_writes, written_none; [done|].
    unfold header_writes, month_headers. cbn.
    repeat (apply Forall_cons; split; [cbn; left; unfold HEADER_ROW in *; lia|]).
    apply Forall_nil_2. }
  assert (Hcell : forall r c, HEADER_ROW < r ->
            cell (apply_writes base (D ++ S)) r c
            = default VNone (match written S r c with
                             | Some v => Some v
                             | None => written D r c
                             end)).
  { intros r c Hr. rewrite cell_apply_writes, written_app, Hbase by done. done. }
  assert (Hlast : HEADER_ROW + 1 <= last) by (unfold last; lia).
  assert (Hdays : forall day_num, day_num ∈ days <->
            1 <= day_num <= days_in_month y m /\
            (#0 < get_expected_hours cfg (weekday (mkDate y m day_num)))%Qc).
  { intros day_num. unfold days, workdays.
    rewrite list_elem_of_In, filter_In, <- list_elem_of_In, elem_of_range.
    rewrite negb_true_iff, bool_decide_eq_false, <- Qclt_nge.
    rewrite Qc_of_Z_0. split; intros [? ?]; (split; [lia|done]). }
  split; [|split; [|split; [|split; [|split; [|split; [|split; [|split; [|split]]]]]]]].
  - apply header_layout_apply_writes; [|apply header_writes_layout].
    apply Forall_app. split.
    + eapply Forall_impl; [exact HD|]. cbn. intros x ?. lia.
    + eapply Forall_impl; [exact HS|]. cbn. intros x ?. lia.
  - apply Z.le_antisymm.
    + apply max_row_apply_writes_ub.
      * apply Forall_app. split.
        -- eapply Forall_impl; [exact HD|]. cbn. intros x ?. lia.
        -- eapply Forall_impl; [exact HS|]. cbn. intros x ?. lia.
      * replace (max_row base) with 1 by (by vm_compute). unfold HEADER_ROW in *. lia.
    + unfold S, summary_row_writes. cbn [_get_summary_col_indices].
      match goal with
      | |- _ <= max_row (apply_writes _ (?D' ++ [?a; ?b; ?c; ?d; ?e; ?f; ?g; ?h])) =>
          change (D' ++ [a; b; c; d; e; f; g; h])
            with (D' ++ [a; b; c; d; e; f; g] ++ [h]);
          rewrite (assoc app);
          etrans; [|apply max_row_apply_writes_last]
      end.
      cbn. lia.
  - rewrite max_column_apply_writes; [by vm_compute|].
    apply Forall_app. split.
    + eapply Forall_impl; [exact HD|]. cbv beta. intros x [_ ?].
      replace (max_column base) with 15 by (by vm_compute). lia.
    + eapply Forall_impl; [exact HS|]. cbv beta. intros x [_ ?].
      replace (max_column base) with 15 by (by vm_compute). lia.
  - intros i day_num Hi.
    set (d := mkDate y m day_num). set (r := HEADER_ROW + 1 + Z.of_nat i).
    assert (Hin : day_num ∈ days) by (by eapply list_elem_of_lookup_2).
    apply Hdays in Hin as [Hrange Hpos].
    assert (Hi' : (i < length days)%nat) by (by eapply lookup_lt_Some).
    assert (Hrow : forall c, cell (apply_writes base (D ++ S)) r c
                     = default VNone (written (day_row_writes cfg d r) r c)).
    { intros c. rewrite Hcell by (unfold r, HEADER_ROW; lia).
      rewrite (written_none S); cycle 1.
      { eapply Forall_impl; [exact HS|]. cbn. intros x ?. left. unfold r, last. lia. }
      unfold D, r. by rewrite (written_day_rows cfg y m days _ i day_num c Hi). }
    split; [done|]. split; [done|].
    rewrite !Hrow. unfold day_row_writes. cbn [_get_summary_col_indices].
    cbn [written fst snd is_none negb]. rewrite !Z.eqb_refl. cbn [andb].
    split; [done|]. split; [done|]. split; [done|].
    intros c Hc1 Hc2 Hc14. rewrite Hrow. unfold day_row_writes.
    cbn [_get_summary_col_indices written fst snd is_none negb].
    rewrite !Z.eqb_refl. cbn [andb].
    unfold DATE_COLS, INITIAL_BLOCKS, BLOCK_WIDTH.
    repeat match goal with
    | |- context [(?a =? ?b)] => destruct (Z.eqb_spec a b); try lia; cbn [andb]
    end; done.
  - intros day_num Hr Hpos. by apply Hdays.
  - intros i j a b Hi Hj Hij. unfold days, workdays in Hi, Hj.
    eapply (increasing_filter _ _ (increasing_range 1 (days_in_month y m + 1)) i j);
      [exact Hi|exact Hj|done].
  - intros c. rewrite Hcell by lia.
    rewrite (written_none S), (written_none D); [done| |].
    + eapply Forall_impl; [exact HD|]. cbn. intros x ?. left. lia.
    + eapply Forall_impl; [exact HS|]. cbn. intros x ?. left. lia.
  - rewrite Hcell by lia. unfold S, summary_row_writes.
    cbn [_get_summary_col_indices written fst snd is_none negb].
    repeat match goal with
    | |- context [(?a =? ?b)] => destruct (Z.eqb_spec a b); try lia; cbn [andb]
    end; done.
  - rewrite Hcell by lia. unfold S, summary_row_writes.
    cbn [_get_summary_col_indices written fst snd is_none negb].
    repeat match goal with
    | |- context [(?a =? ?b)] => destruct (Z.eqb_spec a b); try lia; cbn [andb]
    end; done.
  - rewrite Hcell by lia. unfold S, summary_row_writes.
    cbn [_get_summary_col_indices written fst snd is_none negb].
    repeat match goal with
    | |- context [(?a =? ?b)] => destruct (Z.eqb_spec a b); try lia; cbn [andb]
    end; done.
Qed.

(** X1: The sheet [_create_month_sheet] returns: the header of three blocks
    that every operation on a sheet looks for; below it one row for each
    day of the month with expected hours above 0, in the order of the
    days, with the date, the weekday name, the expected hours and nothing
    else; then an empty row and the rows Summe, Uebertrag and
    Kumuliert. *)
Theorem create_month_sheet_layout y m cfg :
  let ws := _create_month_sheet y m cfg in
  let days := workdays cfg y m (range 1 (days_in_month y m + 1)) in
  let last := HEADER_ROW + 1 + Z.of_nat (length days) in
  header_layout py ws INITIAL_BLOCKS /\
  max_row ws = last + 3 /\ max_column ws = 15 /\
  (forall i day_num, days !! i = Some day_num ->
     let d := mkDate y m day_num in
     let r := HEADER_ROW + 1 + Z.of_nat i in
     1 <= day_num <= days_in_month y m /\
     (#0 < get_expected_hours cfg (weekday d))%Qc /\
     cell ws r 1 = VStr (strftime_dmy d) /\
     cell ws r 2 = VStr (default "" (WEEKDAY_NAMES !! Z.to_nat (weekday d))) /\
     cell ws r 14 = VNum (_hours_to_fraction (get_expected_hours cfg (weekday d))) /\
     (forall c, c <> 1 -> c <> 2 -> c <> 14 -> cell ws r c = VNone)) /\
  (forall day_num, 1 <= day_num <= days_in_month y m ->
     (#0 < get_expected_hours cfg (weekday (mkDate y m day_num)))%Qc ->
     day_num ∈ days) /\
  (forall i j a b, days !! i = Some a -> days !! j = Some b -> (i < j)%nat -> a < b) /\
  (forall c, cell ws last c = VNone) /\
  cell ws (last + 1) 1 = VStr "Summe" /\
  cell ws (last + 2) 1 = VStr "Uebertrag" /\
  cell ws (last + 3) 1 = VStr "Kumuliert".
Proof.
  intros ws days last.
  destruct (create_month_sheet_spec y m cfg)
    as (Hlayout & Hrows & Hcols & Hday & Hall & Horder & Hblank & Hsum & Hcarry & Hcum).
  fold ws in Hlayout, Hrows, Hcols, Hday, Hblank, Hsum, Hcarry, Hcum.
  fold days in Hrows, Hday, Hall, Horder, Hblank, Hsum, Hcarry, Hcum.
  fold last in Hrows, Hblank, Hsum, Hcarry, Hcum.
  split; [exact Hlayout|]. split; [exact Hrows|]. split; [exact Hcols|].
  split; [exact Hday|]. split; [exact Hall|]. split; [exact Horder|].
  split; [exact Hblank|]. split; [exact Hsum|]. split; [exact Hcarry|exact Hcum].
Qed.

End Creation.

Lemma month_sheets_lookup (f : Z -> Worksheet) (months : list Z) : forall (wb : Workbook) m,
  NoDup months -> (forall k, k ∈ months -> 1 <= k < 13) -> 1 <= m < 13 ->
  foldl (fun wb k => <[month_name k := f k]> wb) wb months !! month_name m
  = if decide (m ∈ months) then Some (f m) else wb !! month_name m.
Proof.
  induction months as [|k months IH]; intros wb m Hnd Hr Hm; cbn [foldl].
  - rewrite decide_False; [done|]. apply not_elem_of_nil.
  - apply NoDup_cons in Hnd as [Hk Hnd].
    rewrite IH; [|done|intros; apply Hr; by right|done].
    destruct (decide (m ∈ months)) as [Hin|Hout].
    + by rewrite decide_True by (by right).
    + destruct (decide (m = k)) as [->|Hne].
      * rewrite decide_True by left. by rewrite lookup_insert_eq.
      * rewrite decide_False by (intros [?|?]%elem_of_cons; done).
        rewrite lookup_insert_ne; [done|].
        intros E. apply month_name_inj in E; [done| |done]. apply Hr. left.
Qed.

Lemma month_sheets_names (f : Z -> Worksheet) (months : list Z) : forall (wb : Workbook) name,
  (forall k, k ∈ months -> 1 <= k <= 12) ->
  (is_Some (wb !! name) -> exists m, 1 <= m <= 12 /\ name = month_name m) ->
  is_Some (foldl (fun wb k => <[month_name k := f k]> wb) wb months !! name) ->
  exists m, 1 <= m <= 12 /\ name = month_name m.
Proof.
  induction months as [|k months IH]; intros wb name Hr Hwb; cbn [foldl]; [done|].
  apply IH; [intros; apply Hr; by right|].
  destruct (decide (name = month_name k)) as [->|Hne].
  - intros _. exists k. split; [apply Hr; left|done].
  - by rewrite lookup_insert_ne.
Qed.

(** X2: [ensure_workbook] creates the file of a year once.  When the year
    has a file, the workbook read from it is returned and the directory
    stays as it is.  Otherwise the workbook returned holds, under each of
    the twelve month names and no other, the sheet [_create_month_sheet]
    makes for that month, and it is saved under the year.  The files of
    other years stay as they are, and a second call creates nothing: it
    returns what is read from the file of the first and leaves the
    directory alone. *)
Theorem ensure_workbook_creates_once saved_as data_dir y cfg :
  let out := ensure_workbook saved_as data_dir y cfg in
  (forall wb, data_dir !! pretty y = Some wb -> out = (data_dir, wb)) /\
  (data_dir !! pretty y = None ->
   (forall m, 1 <= m <= 12 -> out.2 !! month_name m = Some (_create_month_sheet y m cfg)) /\
   (forall name, is_Some (out.2 !! name) -> exists m, 1 <= m <= 12 /\ name = month_name m) /\
   out.1 = <[pretty y := saved_as out.2]> data_dir) /\
  (forall y', y' <> y -> out.1 !! pretty y' = data_dir !! pretty y') /\
  (exists wb, out.1 !! pretty y = Some wb /\
              ensure_workbook saved_as out.1 y cfg = (out.1, wb)).
Proof.
  intros out. subst out. unfold ensure_workbook.
  destruct (data_dir !! pretty y) as [wb|] eqn:E; cbn [fst snd].
  - split; [by intros ? [= <-]|]. split; [done|]. split; [done|].
    exists wb. by rewrite E.
  - split; [done|]. split; [|split].
    + intros _. split; [|split; [|done]].
      * intros m Hm. rewrite month_sheets_lookup.
        -- rewrite decide_True; [done|]. apply elem_of_range. lia.
        -- apply NoDup_seqZ.
        -- intros k Hk%elem_of_range. lia.
        -- lia.
      * intros name. apply month_sheets_names.
        -- intros k Hk%elem_of_range. lia.
        -- intros [? H]. by rewrite lookup_empty in H.
    + intros y' Hne. rewrite lookup_insert_ne; [done|].
      intros Hp. by apply (inj pretty) in Hp.
    + eexists. split; [apply lookup_insert_eq|]. by rewrite lookup_insert_eq.
Qed.

Section Files.
Variable py : Builtins.

(** A workbook after the month loop: the same sheet names, and the sheets
    the loop did not reach as they were. *)
Definition same_sheets_but (up_to_date : date) (y : Z) (months : list Z)
    (wb wb' : Workbook) : Prop :=
  (forall name, is_Some (wb' !! name) <-> is_Some (wb !! name)) /\
  (forall name,
     (forall m, m ∈ months -> month_in_reach up_to_date y m = true -> name <> month_name m) ->
     wb' !! name = wb !! name).

Lemma months_loop_frame cfg up_to_date y months :
  forall wb carry total calls wb' total',
  months_loop py cfg up_to_date y months wb carry total = (calls, Ok (wb', total')) ->
  same_sheets_but up_to_date y months wb wb'.
Proof.
  induction months as [|m months IH]; intros wb carry total calls wb' total';
    cbn [months_loop].
  - intros [= _ <- _]. done.
  - destruct ((y =? year up_to_date) && (month up_to_date <? m)) eqn:Hreach.
    { intros [= _ <- _]. done. }
    assert (Hin : month_in_reach up_to_date y m = true)
      by (unfold month_in_reach; by rewrite Hreach).
    destruct (wb !! month_name m) as [ws|] eqn:Hws.
    + destruct (fill_missing_days py cfg up_to_date ws) as [ws1 [[]|e]]; [|done].
      destruct (recalculate_sheet_summary py y m carry cfg ws1) as [ws2 [cum|e]]; [|done].
      destruct (iter_day_rows_with_data py ws2) as [rows|e]; [|done].
      destruct (months_loop py cfg up_to_date y months _ cum _) as [calls' r] eqn:Hloop.
      intros [= _ ->]. apply IH in Hloop as [Hdom Hsame]. split.
      * intros name. rewrite Hdom. destruct (decide (name = month_name m)) as [->|Hne].
        -- rewrite lookup_insert_eq, Hws. split; by eexists.
        -- by rewrite lookup_insert_ne.
      * intros name Hname. rewrite Hsame.
        -- rewrite lookup_insert_ne; [done|]. intros E.
           apply (Hname m); [left|done|done].
        -- intros k Hk. apply Hname. by right.
    + intros Hloop. apply IH in Hloop as [Hdom Hsame]. split; [done|].
      intros name Hname. apply Hsame. intros k Hk. apply Hname. by right.
Qed.

(** The data directory after the year loop. *)
Definition same_files_but (up_to_date : date) (years : list Z)
    (data_dir data_dir' : DataDir) : Prop :=
  (forall stem, is_Some (data_dir' !! stem) <-> is_Some (data_dir !! stem)) /\
  (forall stem, (forall y, y ∈ years -> stem <> pretty y) ->
     data_dir' !! stem = data_dir !! stem) /\
  (forall y wb', data_dir' !! pretty y = Some wb' ->
     exists wb, data_dir !! pretty y = Some wb /\
                same_sheets_but up_to_date y (range 1 13) wb wb').

Lemma same_sheets_but_refl up_to_date y months wb : same_sheets_but up_to_date y months wb wb.
Proof. done. Qed.

Lemma years_loop_frame cfg up_to_date years :
  forall data_dir total data_dir' calls r,
  NoDup years ->
  years_loop py cfg up_to_date years data_dir total = (data_dir', calls, r) ->
  same_files_but up_to_date years data_dir data_dir'.
Proof.
  induction years as [|y years IH]; intros data_dir total data_dir' calls r Hnd;
    cbn [years_loop].
  - intros [= <- _ _]. split; [done|]. split; [done|]. intros y wb' ->. by eexists.
  - apply NoDup_cons in Hnd as [Hy Hnd].
    destruct (data_dir !! pretty y) as [wb|] eqn:Hwb.
    + destruct (months_loop py cfg up_to_date y (range 1 13) wb _ total)
        as [calls1 [[wb1 total1]|e]] eqn:Hmonths.
      * destruct (years_loop py cfg up_to_date years _ total1) as [[dd calls2] r2] eqn:Hloop.
        intros [= <- _ _]. apply IH in Hloop as (Hdom & Hsame & Hsheets); [|done].
        apply months_loop_frame in Hmonths.
        split; [|split].
        -- intros stem. rewrite Hdom. destruct (decide (stem = pretty y)) as [->|Hne].
           ++ rewrite lookup_insert_eq, Hwb. split; by eexists.
           ++ by rewrite lookup_insert_ne.
        -- intros stem Hstem. rewrite Hsame.
           ++ rewrite lookup_insert_ne; [done|]. intros E.
              apply (Hstem y); [left|done].
           ++ intros k Hk. apply Hstem. by right.
        -- intros y' wb' Hy'. destruct (Hsheets y' wb' Hy') as (wb0 & Hwb0 & Hs).
           destruct (decide (y' = y)) as [->|Hne].
           ++ (* the year just done: the later years do not touch it *)
              rewrite Hsame in Hy'; cycle 1.
              { intros k Hk Hp. apply (inj pretty) in Hp. by subst. }
              rewrite lookup_insert_eq in Hy'. injection Hy' as <-.
              exists wb. done.
           ++ rewrite lookup_insert_ne in Hwb0
                by (intros Hp; by apply (inj pretty) in Hp).
              by exists wb0.
      * intros [= <- _ _]. split; [done|]. split; [done|]. intros y' wb' ->. by eexists.
    + intros Hloop. apply IH in Hloop as (Hdom & Hsame & Hsheets); [|done].
      split; [done|]. split; [|done].
      intros stem Hstem. apply Hsame. intros k Hk. apply Hstem. by right.
Qed.

(** X12: What [calculate_overtime_balance] leaves of the data directory: it
    creates and deletes no file and no sheet; the files that are not the
    workbook of a year from the earliest year to the year of the cutoff
    stay as they are, and so do, in the other workbooks, the sheets that
    are not the sheet of a month up to the cutoff. *)
Theorem overtime_balance_touches_tracked_months_only data_dir cfg up_to_date :
  let data_dir' := (calculate_overtime_balance py data_dir cfg up_to_date).1.1 in
  (forall stem, is_Some (data_dir' !! stem) <-> is_Some (data_dir !! stem)) /\
  (forall stem e,
     earliest_year_of py (map_to_list data_dir).*1 = Some e ->
     (forall y, e <= y <= year up_to_date -> stem <> pretty y) ->
     data_dir' !! stem = data_dir !! stem) /\
  (earliest_year_of py (map_to_list data_dir).*1 = None -> data_dir' = data_dir) /\
  (forall y wb', data_dir' !! pretty y = Some wb' ->
     exists wb, data_dir !! pretty y = Some wb /\
       (forall name, is_Some (wb' !! name) <-> is_Some (wb !! name)) /\
       (forall name,
          (forall m, 1 <= m <= 12 -> ~ (y = year up_to_date /\ month up_to_date < m) ->
                     name <> month_name m) ->
          wb' !! name = wb !! name)).
Proof.
  intros data_dir'. subst data_dir'. unfold calculate_overtime_balance.
  destruct (earliest_year_of py _) as [e|] eqn:He; cbn [fst snd].
  - destruct (years_loop py cfg up_to_date _ data_dir _) as [[dd calls] r] eqn:Hloop.
    cbn [fst snd].
    apply years_loop_frame in Hloop as (Hdom & Hsame & Hsheets); [|apply NoDup_seqZ].
    split; [done|]. split; [|split; [done|]].
    + intros stem e' [= <-] Hstem. apply Hsame.
      intros y Hy%elem_of_range. apply Hstem. lia.
    + intros y wb' Hy. destruct (Hsheets y wb' Hy) as (wb & Hwb & Hdom' & Hsame').
      exists wb. split; [done|]. split; [done|].
      intros name Hname. apply Hsame'.
      intros m Hm%elem_of_range Hreach. apply Hname; [lia|].
      unfold month_in_reach in Hreach. apply negb_true_iff, andb_false_iff in Hreach.
      intros [-> Hlt]. destruct Hreach as [Hx|Hx].
      * by rewrite Z.eqb_refl in Hx.
      * apply Z.ltb_ge in Hx. lia.
  - split; [done|]. split; [done|]. split; [done|].
    intros y wb' ->. by eexists.
Qed.

End Files.

Lemma date_ltb_spec a b :
  date_ltb a b = true <->
  year a < year b \/
  (year a = year b /\ (month a < month b \/ (month a = month b /\ day a < day b))).
Proof.
  unfold date_ltb, date_compare.
  destruct (Z.compare_spec (year a) (year b));
    destruct (Z.compare_spec (month a) (month b));
    destruct (Z.compare_spec (day a) (day b)); split; try done; intros; lia.
Qed.

Lemma date_ltb_false a b :
  date_ltb a b = false <->
  year b < year a \/
  (year b = year a /\ (month b < month a \/ (month b = month a /\ day b <= day a))).
Proof.
  rewrite <- not_true_iff_false, date_ltb_spec. lia.
Qed.

Section Order.
Variable py : Builtins.

(** The date a text cell of the date column holds. *)
Definition text_date (v : value) : option date :=
  match v with VStr s => py_strptime py s | _ => None end.

(** The dated rows of the sheet are in date order, and no dated row lies
    below a summary row. *)
Definition date_ordered (ws : Worksheet) : Prop :=
  (forall r1 r2 d1 d2,
     HEADER_ROW < r1 -> r1 < r2 -> r2 <= max_row ws ->
     text_date (cell ws r1 1) = Some d1 -> text_date (cell ws r2 1) = Some d2 ->
     date_ltb d2 d1 = false) /\
  (forall r1 r2,
     HEADER_ROW < r1 -> r1 < r2 -> r2 <= max_row ws ->
     is_summary_label (cell ws r1 1) = true -> text_date (cell ws r2 1) = None).

Lemma insert_position_scan ws d :
  HEADER_ROW <= max_row ws ->
  let p := insert_position py ws d in
  (forall r, HEADER_ROW < r < p -> is_insert_position py d (cell ws r 1) = false) /\
  (p <= max_row ws -> is_insert_position py d (cell ws p 1) = true).
Proof.
  intros Hm p. subst p. unfold insert_position.
  destruct (List.find _ _) as [r|] eqn:E; simpl.
  - apply find_range_some in E as (Hr & Hp & Hlt). split; [|done].
    intros j Hj. apply Hlt. unfold HEADER_ROW in *. lia.
  - split; [|intros; lia]. intros r Hr.
    rewrite find_none_Forall, Forall_forall in E. apply E, elem_of_range.
    unfold HEADER_ROW in *. lia.
Qed.

(** X7: [_insert_day_row] keeps the date column in order: on a sheet whose
    dated rows are in date order with no dated row below a summary row,
    the row it inserts for a new date leaves the sheet so. *)
Theorem insert_day_row_keeps_order ws n d cfg :
  header_layout py ws n ->
  py_strptime py (strftime_dmy d) = Some d ->
  (forall s, is_summary_label (VStr s) = true -> py_strptime py s = None) ->
  date_ordered ws ->
  let out := _insert_day_row py d cfg ws in
  exists row,
    out.2 = Ok row /\ HEADER_ROW < row <= max_row ws + 1 /\
    max_row out.1 = max_row ws + 1 /\
    cell out.1 row 1 = VStr (strftime_dmy d) /\
    (forall r c, r < row -> cell out.1 r c = cell ws r c) /\
    (forall r c, row < r -> cell out.1 r c = cell ws (r - 1) c) /\
    date_ordered out.1.
Proof.
  intros Hl Hown Hlabels [Hord Hlast] out. subst out.
  assert (Hm : HEADER_ROW <= max_row ws) by (destruct Hl as (_ & _ & _ & _ & _ & ?); done).
  rewrite (insert_day_row_run py ws n d cfg Hl). cbn [fst snd].
  set (p := insert_position py ws d).
  pose proof (insert_position_bounds py ws d Hm) as Hp. fold p in Hp.
  destruct (insert_position_scan ws d Hm) as [Hbefore Hat]. fold p in Hbefore, Hat.
  destruct (inserted_row_sheet py ws n d cfg Hl) as (_ & Hmax & Hrow & Hlt & Hgt).
  fold p in Hmax, Hrow, Hlt, Hgt.
  set (ws' := apply_writes (insert_rows ws p) (new_row_writes n p d cfg)) in *.
  exists p. split; [done|]. split; [done|]. split; [done|].
  assert (Hnew : cell ws' p 1 = VStr (strftime_dmy d)) by (by rewrite Hrow).
  split; [done|]. split; [done|]. split; [done|].
  (* what the scan says about the rows above and at the insert position *)
  assert (Habove : forall r d1, HEADER_ROW < r < p -> text_date (cell ws r 1) = Some d1 ->
                     date_ltb d d1 = false).
  { intros r d1 Hr Hd1. specialize (Hbefore r Hr). unfold is_insert_position in Hbefore.
    destruct (cell ws r 1) as [|s| | | | |]; try done. cbn in Hd1.
    apply orb_false_iff in Hbefore as [_ Hb]. by rewrite Hd1 in Hb. }
  assert (Hnolabel : forall r, HEADER_ROW < r < p -> is_summary_label (cell ws r 1) = false).
  { intros r Hr. specialize (Hbefore r Hr). unfold is_insert_position in Hbefore.
    destruct (cell ws r 1) as [|s| | | | |]; try done.
    by apply orb_false_iff in Hbefore as [? _]. }
  assert (Hbelow : forall r d2, p <= r <= max_row ws -> text_date (cell ws r 1) = Some d2 ->
                     date_ltb d2 d = false).
  { intros r d2 Hr Hd2. specialize (Hat ltac:(lia)). unfold is_insert_position in Hat.
    destruct (cell ws p 1) as [|s| | | | |] eqn:Hcp; try done.
    apply orb_true_iff in Hat as [Hlab|Hdate].
    - (* a summary row: nothing dated at or below it *)
      destruct (decide (r = p)) as [->|Hne].
      + rewrite Hcp in Hd2. cbn in Hd2. by rewrite (Hlabels s Hlab) in Hd2.
      + rewrite (Hlast p r) in Hd2; [done|lia|lia|lia|by rewrite Hcp].
    - destruct (py_strptime py s) as [dt|] eqn:Hs; [|done].
      unfold date_gtb in Hdate.
      assert (Hdt : date_ltb d2 dt = false).
      { destruct (decide (r = p)) as [->|Hne].
        - rewrite Hcp in Hd2. cbn in Hd2. rewrite Hs in Hd2. injection Hd2 as <-.
          apply date_ltb_false. lia.
        - apply (Hord p r dt d2); [lia|lia|lia| |done]. rewrite Hcp. done. }
      apply date_ltb_spec in Hdate. apply date_ltb_false in Hdt. apply date_ltb_false. lia. }
  assert (Hold : forall r, r <> p -> cell ws' r 1 = cell ws (if decide (r < p) then r else r - 1) 1).
  { intros r Hr. case_decide; [apply Hlt; lia|apply Hgt; lia]. }
  assert (Hnewdate : text_date (cell ws' p 1) = Some d) by (by rewrite Hnew).
  assert (Hnewlabel : is_summary_label (cell ws' p 1) = false).
  { rewrite Hnew. destruct (is_summary_label _) eqn:E; [|done].
    apply Hlabels in E. congruence. }
  split.
  - intros r1 r2 d1 d2 Hr1 Hr12 Hr2 Hd1 Hd2. rewrite Hmax in Hr2.
    destruct (decide (r1 = p)) as [->|Hn1]; destruct (decide (r2 = p)) as [->|Hn2]; try lia.
    + rewrite Hnewdate in Hd1. injection Hd1 as <-.
      rewrite Hold in Hd2 by done. rewrite decide_False in Hd2 by lia.
      apply (Hbelow (r2 - 1)); [lia|done].
    + rewrite Hnewdate in Hd2. injection Hd2 as <-.
      rewrite Hold in Hd1 by done. rewrite decide_True in Hd1 by lia.
      apply (Habove r1); [lia|done].
    + rewrite Hold in Hd1, Hd2 by done.
      apply (Hord (if decide (r1 < p) then r1 else r1 - 1)
                  (if decide (r2 < p) then r2 else r2 - 1)); try done;
        repeat case_decide; lia.
  - intros r1 r2 Hr1 Hr12 Hr2 Hlab. rewrite Hmax in Hr2.
    destruct (decide (r1 = p)) as [->|Hn1]; [congruence|].
    rewrite Hold in Hlab by done.
    destruct (decide (r1 < p)) as [Hlt1|Hge1].
    { rewrite Hnolabel in Hlab; [done|lia]. }
    destruct (decide (r2 = p)) as [->|Hn2]; [lia|].
    rewrite Hold by done. rewrite decide_False by lia.
    apply (Hlast (r1 - 1) (r2 - 1)); [lia|lia|lia|done].
Qed.

(** X21: A sheet as [_create_month_sheet] returns it is in date order, with no
    dated row below its summary rows: the order that [_insert_day_row]
    keeps holds from the start.  The dates of the month are read back
    from the text they are written as. *)
Theorem created_sheet_is_ordered y m cfg :
  (forall day_num, 1 <= day_num <= days_in_month y m ->
     py_strptime py (strftime_dmy (mkDate y m day_num)) = Some (mkDate y m day_num)) ->
  (forall s, is_summary_label (VStr s) = true -> py_strptime py s = None) ->
  date_ordered (_create_month_sheet y m cfg).
Proof.
  intros Hown Hlabels.
  destruct (create_month_sheet_spec py y m cfg)
    as (_ & Hrows & _ & Hday & _ & Horder & Hblank & Hsum & Hcarry & Hcum).
  set (ws := _create_month_sheet y m cfg) in *.
  set (days := workdays cfg y m (range 1 (days_in_month y m + 1))) in *.
  set (last := HEADER_ROW + 1 + Z.of_nat (length days)) in *.
  (* the date cell of each row below the header *)
  assert (Hdate : forall r, HEADER_ROW < r <= max_row ws ->
            (exists i day_num, r = HEADER_ROW + 1 + Z.of_nat i /\ days !! i = Some day_num /\
                               1 <= day_num <= days_in_month y m /\
                               cell ws r 1 = VStr (strftime_dmy (mkDate y m day_num))) \/
            (last <= r /\ text_date (cell ws r 1) = None /\
             (is_summary_label (cell ws r 1) = true -> last < r))).
  { intros r Hr. rewrite Hrows in Hr.
    destruct (decide (r < last)) as [Hlt|Hge].
    - left. assert (Hi : (Z.to_nat (r - (HEADER_ROW + 1)) < length days)%nat)
        by (unfold last in Hlt; lia).
      apply lookup_lt_is_Some in Hi as [day_num Hi].
      exists (Z.to_nat (r - (HEADER_ROW + 1))), day_num.
      assert (Hr' : r = HEADER_ROW + 1 + Z.of_nat (Z.to_nat (r - (HEADER_ROW + 1)))) by lia.
      split; [done|]. split; [done|].
      destruct (Hday _ _ Hi) as (Hin & _ & Hc & _). split; [done|]. by rewrite <- Hr' in Hc.
    - right. split; [lia|].
      assert (r = last \/ r = last + 1 \/ r = last + 2 \/ r = last + 3)
        as [-> | [-> | [-> | ->]]] by lia.
      + rewrite Hblank. split; [done|]. done.
      + rewrite Hsum. split; [by apply Hlabels|]. lia.
      + rewrite Hcarry. split; [by apply Hlabels|]. lia.
      + rewrite Hcum. split; [by apply Hlabels|]. lia. }
  split.
  - intros r1 r2 d1 d2 Hr1 Hr12 Hr2 Hd1 Hd2.
    destruct (Hdate r1 ltac:(lia)) as [(i & a & -> & Hi & Ha & Hc1)|(_ & Hnone & _)];
      [|congruence].
    destruct (Hdate r2 ltac:(lia)) as [(j & b & -> & Hj & Hb & Hc2)|(_ & Hnone & _)];
      [|congruence].
    rewrite Hc1 in Hd1. rewrite Hc2 in Hd2. cbn in Hd1, Hd2.
    rewrite Hown in Hd1 by done. rewrite Hown in Hd2 by done.
    injection Hd1 as <-. injection Hd2 as <-.
    assert (a < b) by (apply (Horder i j); [done|done|lia]).
    apply date_ltb_false. cbn. lia.
  - intros r1 r2 Hr1 Hr12 Hr2 Hlab.
    destruct (Hdate r1 ltac:(lia)) as [(i & a & -> & Hi & Ha & Hc1)|(_ & _ & Hbelow)].
    { rewrite Hc1 in Hlab. apply Hlabels in Hlab. rewrite Hown in Hlab by done. done. }
    specialize (Hbelow Hlab).
    destruct (Hdate r2 ltac:(lia)) as [(j & b & -> & Hj & _ & _)|(_ & Hnone & _)]; [|done].
    apply lookup_lt_Some in Hj. unfold last in Hbelow. lia.
Qed.

End Order.

(** The period of [p] lies before the period of [c]. *)
Definition period_lt (p c : SummaryCall) : Prop :=
  call_year p < call_year c \/ (call_year p = call_year c /\ call_month p < call_month c).

Definition periods_increasing (calls : list SummaryCall) : Prop :=
  forall i j p c, calls !! i = Some p -> calls !! j = Some c -> (i < j)%nat -> period_lt p c.

Lemma periods_increasing_nil : periods_increasing [].
Proof. intros i j p c Hi. done. Qed.

Lemma periods_increasing_cons x l :
  (forall c, c ∈ l -> period_lt x c) -> periods_increasing l -> periods_increasing (x :: l).
Proof.
  intros Hx Hl i j p c Hi Hj Hij. destruct i as [|i], j as [|j]; try lia.
  - injection Hi as <-. apply Hx. by eapply list_elem_of_lookup_2.
  - apply (Hl i j); [done|done|lia].
Qed.

Lemma periods_increasing_app l1 l2 :
  periods_increasing l1 -> periods_increasing l2 ->
  (forall p c, p ∈ l1 -> c ∈ l2 -> period_lt p c) ->
  periods_increasing (l1 ++ l2).
Proof.
  intros H1 H2 H12 i j p c Hi Hj Hij. rewrite lookup_app in Hi, Hj.
  destruct (l1 !! i) as [x|] eqn:Ei; destruct (l1 !! j) as [z|] eqn:Ej.
  - injection Hi as <-. injection Hj as <-. by apply (H1 i j).
  - injection Hi as <-. apply H12; by eapply list_elem_of_lookup_2.
  - apply lookup_ge_None in Ei. apply lookup_lt_Some in Ej. lia.
  - apply lookup_ge_None in Ei. apply (H2 _ _ p c Hi Hj). lia.
Qed.

Section Periods.
Variable py : Builtins.

(** A call of the month loop of year [y] over the months from [a] on. *)
Definition call_in_year (up_to_date : date) (wb : Workbook) (y a : Z) (c : SummaryCall)
  : Prop :=
  call_year c = y /\ a <= call_month c <= 12 /\
  month_in_reach up_to_date y (call_month c) = true /\
  is_Some (wb !! month_name (call_month c)).

Lemma months_loop_periods cfg up_to_date y (k : nat) :
  forall a (wb : Workbook) carry total calls r,
  1 <= a -> Z.to_nat (13 - a) = k ->
  months_loop py cfg up_to_date y (range a 13) wb carry total = (calls, r) ->
  Forall (call_in_year up_to_date wb y a) calls /\ periods_increasing calls /\
  (forall wb' total', r = Ok (wb', total') ->
     forall m, a <= m <= 12 -> month_in_reach up_to_date y m = true ->
               is_Some (wb !! month_name m) ->
               exists c, c ∈ calls /\ call_year c = y /\ call_month c = m).
Proof.
  induction k as [|k IH]; intros a wb carry total calls r Ha Hk.
  - rewrite range_nil by lia. cbn. intros [= <- <-].
    split; [done|]. split; [apply periods_increasing_nil|]. intros; lia.
  - rewrite range_cons by lia. cbn [months_loop].
    destruct ((y =? year up_to_date) && (month up_to_date <? a)) eqn:Hreach.
    { intros [= <- <-]. split; [done|]. split; [apply periods_increasing_nil|].
      intros wb' total' _ m Hm Hin _. exfalso.
      unfold month_in_reach in Hin. apply negb_true_iff, andb_false_iff in Hin.
      apply andb_true_iff in Hreach as [Hy Hlt]. apply Z.ltb_lt in Hlt.
      destruct Hin as [Hx|Hx]; [congruence|]. apply Z.ltb_ge in Hx. lia. }
    assert (Hin : month_in_reach up_to_date y a = true)
      by (unfold month_in_reach; by rewrite Hreach).
    assert (Hweaken : forall wb0 l, Forall (call_in_year up_to_date wb0 y (a + 1)) l ->
              (forall name, is_Some (wb0 !! name) -> is_Some (wb !! name)) ->
              Forall (call_in_year up_to_date wb y a) l).
    { intros wb0 l Hl Hdom. eapply Forall_impl; [exact Hl|].
      intros c (? & ? & ? & ?). split; [done|]. split; [lia|]. split; [done|]. by apply Hdom. }
    assert (Hlater : forall wb0 l c, Forall (call_in_year up_to_date wb0 y (a + 1)) l ->
              c ∈ l -> a < call_month c /\ call_year c = y).
    { intros wb0 l c Hl Hc. rewrite Forall_forall in Hl.
      destruct (Hl c Hc) as (? & ? & _). split; [lia|done]. }
    destruct (wb !! month_name a) as [ws|] eqn:Hws.
    + destruct (fill_missing_days py cfg up_to_date ws) as [ws1 [[]|e1]].
      2:{ intros [= <- <-]. split; [done|]. split; [apply periods_increasing_nil|done]. }
      assert (Hthis : forall res, call_in_year up_to_date wb y a (mkCall y a carry res)).
      { intros res. split; [done|]. split; [cbn; lia|]. split; [done|].
        cbn. rewrite Hws. by eexists. }
      destruct (recalculate_sheet_summary py y a carry cfg ws1) as [ws2 [cum|e2]].
      * destruct (iter_day_rows_with_data py ws2) as [rows|e3].
        -- destruct (months_loop py cfg up_to_date y (range (a + 1) 13)
                       (<[month_name a := ws2]> wb) cum
                       (add_day_rows up_to_date rows total)) as [calls1 r1] eqn:Hrest.
           intros [= <- <-].
           destruct (IH (a + 1) _ _ _ _ _ ltac:(lia) ltac:(lia) Hrest)
             as (Hall & Hinc & Hcomplete).
           split; [|split].
           ++ constructor; [apply Hthis|].
              apply (Hweaken _ _ Hall). intros name.
              destruct (decide (name = month_name a)) as [->|Hne].
              ** rewrite Hws. by eexists.
              ** by rewrite lookup_insert_ne.
           ++ apply periods_increasing_cons; [|done].
              intros c Hc. destruct (Hlater _ _ c Hall Hc) as [? ?].
              right. cbn. split; [done|lia].
           ++ intros wb' total' Hr m Hm Hmin Hsome.
              destruct (decide (m = a)) as [->|Hne].
              ** eexists. split; [left|]. done.
              ** destruct (Hcomplete wb' total' Hr m ltac:(lia) Hmin) as (c & Hc & ?).
                 { rewrite lookup_insert_ne; [done|].
                   intros E. apply month_name_inj in E; lia. }
                 exists c. split; [by right|done].
        -- intros [= <- <-]. split; [constructor; [apply Hthis|constructor]|].
           split; [|done]. apply periods_increasing_cons; [|apply periods_increasing_nil].
           intros c Hc. by apply elem_of_nil in Hc.
      * intros [= <- <-]. split; [constructor; [apply Hthis|constructor]|].
        split; [|done]. apply periods_increasing_cons; [|apply periods_increasing_nil].
        intros c Hc. by apply elem_of_nil in Hc.
    + intros Hrest.
      destruct (IH (a + 1) _ _ _ _ _ ltac:(lia) ltac:(lia) Hrest) as (Hall & Hinc & Hcomplete).
      split; [by apply (Hweaken wb)|]. split; [done|].
      intros wb' total' Hr m Hm Hmin Hsome.
      destruct (decide (m = a)) as [->|Hne].
      { rewrite Hws in Hsome. by destruct Hsome. }
      apply (Hcomplete wb' total' Hr); [lia|done|done].
Qed.

(** A call of the year loop over the years from [a] to [b], on the data
    directory it started from. *)
Definition call_in_years (up_to_date : date) (data_dir : DataDir) (a b : Z)
    (c : SummaryCall) : Prop :=
  a <= call_year c < b /\
  exists wb, data_dir !! pretty (call_year c) = Some wb /\
             call_in_year up_to_date wb (call_year c) 1 c.

Lemma years_loop_periods cfg up_to_date b (k : nat) :
  forall a (data_dir : DataDir) total data_dir' calls r,
  Z.to_nat (b - a) = k ->
  years_loop py cfg up_to_date (range a b) data_dir total = (data_dir', calls, r) ->
  Forall (call_in_years up_to_date data_dir a b) calls /\ periods_increasing calls /\
  (forall total', r = Ok total' ->
     forall y m wb, a <= y < b -> 1 <= m <= 12 ->
       month_in_reach up_to_date y m = true ->
       data_dir !! pretty y = Some wb -> is_Some (wb !! month_name m) ->
       exists c, c ∈ calls /\ call_year c = y /\ call_month c = m).
Proof.
  induction k as [|k IH]; intros a data_dir total data_dir' calls r Hk.
  - rewrite range_nil by lia. cbn. intros [= <- <- <-].
    split; [done|]. split; [apply periods_increasing_nil|]. intros; lia.
  - rewrite range_cons by lia. cbn [years_loop].
    assert (Hweaken : forall dd l, Forall (call_in_years up_to_date dd (a + 1) b) l ->
              (forall y, a + 1 <= y -> dd !! pretty y = data_dir !! pretty y) ->
              Forall (call_in_years up_to_date data_dir a b) l).
    { intros dd l Hl Hdd. eapply Forall_impl; [exact Hl|].
      intros c (Hy & wb & Hwb & Hc). split; [lia|]. exists wb. split; [|done].
      rewrite <- Hdd; [done|lia]. }
    destruct (data_dir !! pretty a) as [wb|] eqn:Hwb.
    + destruct (months_loop py cfg up_to_date a (range 1 13) wb _ total)
        as [calls1 [[wb1 total1]|e]] eqn:Hmonths.
      * destruct (years_loop py cfg up_to_date (range (a + 1) b) _ total1)
          as [[dd calls2] r2] eqn:Hrest.
        intros [= <- <- <-].
        destruct (months_loop_periods cfg up_to_date a _ 1 wb _ total calls1 _
                    ltac:(lia) eq_refl Hmonths) as (Hall1 & Hinc1 & Hcomplete1).
        destruct (IH (a + 1) _ _ _ _ _ ltac:(lia) Hrest) as (Hall2 & Hinc2 & Hcomplete2).
        assert (Hother : forall y, a + 1 <= y ->
                  (<[pretty a := wb1]> data_dir) !! pretty y = data_dir !! pretty y).
        { intros y Hy. rewrite lookup_insert_ne; [done|].
          intros E. apply (inj pretty) in E. lia. }
        assert (Hall1' : Forall (call_in_years up_to_date data_dir a b) calls1).
        { eapply Forall_impl; [exact Hall1|].
          intros c Hc. pose proof Hc as (Hy & _). split; [lia|].
          exists wb. rewrite Hy. done. }
        split; [|split].
        -- apply Forall_app. split; [done|]. by apply (Hweaken _ _ Hall2).
        -- apply periods_increasing_app; [done|done|].
           intros p c Hp Hc. rewrite Forall_forall in Hall1, Hall2.
           destruct (Hall1 p Hp) as (Hyp & _). destruct (Hall2 c Hc) as (Hyc & _).
           left. lia.
        -- intros total' Hr y m wb0 Hy Hm Hin Hwb0 Hsome.
           destruct (decide (y = a)) as [->|Hne].
           ++ rewrite Hwb in Hwb0. injection Hwb0 as <-.
              destruct (Hcomplete1 wb1 total1 eq_refl m ltac:(lia) Hin Hsome) as (c & Hc & ?).
              exists c. split; [apply elem_of_app; by left|done].
           ++ destruct (Hcomplete2 total' Hr y m wb0 ltac:(lia) Hm Hin) as (c & Hc & ?);
                [by rewrite Hother by lia|done|].
              exists c. split; [apply elem_of_app; by right|done].
      * intros [= <- <- <-].
        destruct (months_loop_periods cfg up_to_date a _ 1 wb _ total calls1 _
                    ltac:(lia) eq_refl Hmonths) as (Hall1 & Hinc1 & _).
        split; [|split; [done|done]].
        eapply Forall_impl; [exact Hall1|].
        intros c Hc. pose proof Hc as (Hy & _). split; [lia|].
        exists wb. rewrite Hy. done.
    + intros Hrest.
      destruct (IH (a + 1) _ _ _ _ _ ltac:(lia) Hrest) as (Hall2 & Hinc2 & Hcomplete2).
      split; [by apply (Hweaken data_dir)|]. split; [done|].
      intros total' Hr y m wb0 Hy Hm Hin Hwb0 Hsome.
      destruct (decide (y = a)) as [->|Hne]; [congruence|].
      apply (Hcomplete2 total' Hr y m wb0); try done. lia.
Qed.

(** X20: The accumulator walks the tracked periods in chronological order,
    each once: every call of [recalculate_sheet_summary] is for a month
    sheet that exists, in a year from the earliest year to the year of the
    cutoff and no later than the month of the cutoff; the calls come in
    the order of their periods; and when the accumulator returns, every
    such sheet has had its call. *)
Theorem overtime_periods_chronological data_dir cfg up_to_date e :
  earliest_year_of py (map_to_list data_dir).*1 = Some e ->
  let out := calculate_overtime_balance py data_dir cfg up_to_date in
  let calls := out.1.2 in
  (forall c, c ∈ calls ->
     e <= call_year c <= year up_to_date /\ 1 <= call_month c <= 12 /\
     (call_year c = year up_to_date -> call_month c <= month up_to_date) /\
     exists wb, data_dir !! pretty (call_year c) = Some wb /\
                is_Some (wb !! month_name (call_month c))) /\
  (forall i j p c, calls !! i = Some p -> calls !! j = Some c -> (i < j)%nat ->
     call_year p < call_year c \/
     (call_year p = call_year c /\ call_month p < call_month c)) /\
  (forall total, out.2 = Ok total ->
     forall y m wb, e <= y <= year up_to_date -> 1 <= m <= 12 ->
       (y = year up_to_date -> m <= month up_to_date) ->
       data_dir !! pretty y = Some wb -> is_Some (wb !! month_name m) ->
       exists c, c ∈ calls /\ call_year c = y /\ call_month c = m).
Proof.
  intros He out calls. subst calls out. unfold calculate_overtime_balance. rewrite He.
  destruct (years_loop py cfg up_to_date _ data_dir _) as [[dd calls] r] eqn:Hloop.
  cbn [fst snd].
  destruct (years_loop_periods cfg up_to_date _ _ e _ _ _ _ _ eq_refl Hloop)
    as (Hall & Hinc & Hcomplete).
  assert (Hreach : forall y m, month_in_reach up_to_date y m = true <->
                     (y = year up_to_date -> m <= month up_to_date)).
  { intros y m. unfold month_in_reach.
    rewrite negb_true_iff, andb_false_iff, Z.eqb_neq, Z.ltb_ge. lia. }
  split; [|split].
  - intros c Hc. rewrite Forall_forall in Hall.
    destruct (Hall c Hc) as (Hy & wb & Hwb & _ & Hm & Hin & Hsome).
    split; [lia|]. split; [done|]. split; [by apply Hreach|]. by exists wb.
  - exact Hinc.
  - intros total Hr y m wb Hy Hm Hcut Hwb Hsome.
    destruct r as [total0|err]; [|done].
    apply (Hcomplete total0 eq_refl y m wb); try done; [lia|by apply Hreach].
Qed.

End Periods.

Section SummaryAgain.
Variable py : Builtins.

Lemma find_label_row_ext ws ws' label rows :
  (forall r, cell ws' r 1 = cell ws r 1) ->
  find_label_row ws' label rows = find_label_row ws label rows.
Proof.
  intros Hc. unfold find_label_row.
  induction (reverse rows) as [|r l IH]; [done|]. cbn [List.find]. by rewrite Hc, IH.
Qed.

Lemma column_total_ext ws ws' sum_row c :
  (forall r, cell ws' r 1 = cell ws r 1) ->
  (forall r, HEADER_ROW < r < sum_row -> cell ws' r c = cell ws r c) ->
  column_total py ws' sum_row c = column_total py ws sum_row c.
Proof.
  intros Hd Hc. unfold column_total, data_rows. f_equal.
  assert (Hall : Forall (fun r => HEADER_ROW < r < sum_row) (range (HEADER_ROW + 1) sum_row)).
  { apply Forall_forall. intros r' Hr'%elem_of_range. lia. }
  induction Hall as [|r' l' Hr' _ IH]; [done|].
  cbn [List.filter]. rewrite Hd.
  destruct (negb (is_none (cell ws r' 1))); [|done].
  cbn [fmap list_fmap]. f_equal; [by rewrite Hc|done].
Qed.

(** X19: [recalculate_sheet_summary] is idempotent on a sheet whose summary
    rows lie below its day rows: a second call with the same carry
    returns the same cumulative balance and leaves the sheet as the first
    call left it. *)
Theorem sheet_summary_idempotent ws n y m carry_over cfg sum_row :
  header_layout py ws n ->
  HEADER_ROW < sum_row <= max_row ws -> cell ws sum_row 1 = VStr "Summe" ->
  (forall r, sum_row < r <= max_row ws -> cell ws r 1 <> VStr "Summe") ->
  (forall r, HEADER_ROW < r < sum_row ->
     cell ws r 1 <> VStr "Uebertrag" /\ cell ws r 1 <> VStr "Kumuliert") ->
  (forall r c, HEADER_ROW < r < sum_row -> cell ws r 1 <> VNone ->
     3 * n + 4 <= c <= 3 * n + 6 -> readable py (cell ws r c)) ->
  let once := recalculate_sheet_summary py y m carry_over cfg ws in
  let twice := recalculate_sheet_summary py y m carry_over cfg once.1 in
  twice.2 = once.2 /\ same_sheet twice.1 once.1.
Proof.
  intros Hl Hrow Hlabel Hlast Hbelow Hread once twice. subst twice once.
  assert (Hn : 3 <= n /\ 3 * n + 6 <= max_column ws)
    by (destruct Hl as (? & _ & _ & _ & ? & _); done).
  set (rows := range (HEADER_ROW + 1) (max_row ws + 1)).
  assert (Hsum : find_label_row ws "Summe" rows = Some sum_row).
  { apply find_label_row_last; [unfold HEADER_ROW in *; lia|done|].
    intros j Hj. apply Hlast. lia. }
  rewrite (recalculate_sheet_summary_run py ws n y m carry_over cfg sum_row Hl Hsum Hread).
  cbn [fst snd]. fold rows.
  set (W := summary_writes n sum_row (find_label_row ws "Uebertrag" rows)
              (find_label_row ws "Kumuliert" rows)
              (column_total py ws sum_row (3 * n + 4)) (column_total py ws sum_row (3 * n + 5))
              (column_total py ws sum_row (3 * n + 6)) carry_over).
  assert (Hshape : Forall (fun x : Z * Z * value =>
                     sum_row <= x.1.1 <= max_row ws /\ 3 * n + 4 <= x.1.2 <= 3 * n + 6) W).
  { assert (Hlab : forall label r, label <> "Summe" ->
              (label = "Uebertrag" \/ label = "Kumuliert") ->
              find_label_row ws label rows = Some r -> sum_row <= r <= max_row ws).
    { intros label r Hne Hlab [Hin Hc]%find_label_row_some.
      apply elem_of_range in Hin. split; [|lia].
      destruct (decide (sum_row <= r)) as [|Hlt]; [done|exfalso].
      destruct (Hbelow r ltac:(unfold HEADER_ROW in *; lia)) as [H1 H2].
      destruct Hlab as [-> | ->]; congruence. }
    unfold W, summary_writes.
    destruct (find_label_row ws "Uebertrag" rows) as [cr|] eqn:E1;
      destruct (find_label_row ws "Kumuliert" rows) as [kr|] eqn:E2;
      try (pose proof (Hlab "Uebertrag" cr ltac:(done) ltac:(by left) E1));
      try (pose proof (Hlab "Kumuliert" kr ltac:(done) ltac:(by right) E2));
      cbn [app];
      repeat (apply Forall_cons; split; [cbn [fst snd]; lia|]); apply Forall_nil_2. }
  assert (Hb : in_bounds ws W).
  { eapply Forall_impl; [exact Hshape|]. cbn. intros x ?. lia. }
  destruct (apply_writes_bounds ws W Hb) as [Hmr Hmc].
  set (ws1 := apply_writes ws W) in *.
  assert (Hcell : forall r c, (r < sum_row \/ c < 3 * n + 4) -> cell ws1 r c = cell ws r c).
  { intros r c Hrc. unfold ws1. rewrite cell_apply_writes, written_none; [done|].
    eapply Forall_impl; [exact Hshape|]. cbn. intros x ?. lia. }
  assert (Hdate : forall r, cell ws1 r 1 = cell ws r 1) by (intros; apply Hcell; lia).
  assert (Hl1 : header_layout py ws1 n).
  { apply header_layout_apply_writes; [|done].
    eapply Forall_impl; [exact Hshape|]. cbn. intros x ?. lia. }
  assert (Hsum1 : find_label_row ws1 "Summe" (range (HEADER_ROW + 1) (max_row ws1 + 1))
                  = Some sum_row).
  { rewrite Hmr. fold rows. by rewrite (find_label_row_ext ws ws1). }
  assert (Hread1 : forall r c, HEADER_ROW < r < sum_row -> cell ws1 r 1 <> VNone ->
            3 * n + 4 <= c <= 3 * n + 6 -> readable py (cell ws1 r c)).
  { intros r c Hr Hd Hc. rewrite Hcell by lia. rewrite Hdate in Hd. by apply Hread. }
  rewrite (recalculate_sheet_summary_run py ws1 n y m carry_over cfg sum_row Hl1 Hsum1 Hread1).
  cbn [fst snd]. rewrite Hmr. fold rows.
  rewrite !(find_label_row_ext ws ws1) by done.
  rewrite !(column_total_ext ws ws1) by (try done; intros; apply Hcell; lia).
  fold W. split; [done|]. by apply apply_writes_twice.
Qed.

End SummaryAgain.

Lemma round_half_even_of_Z k : round_half_even #k = k.
Proof.
  unfold round_half_even.
  assert (Hf : Qfloor #k = k).
  { exact (Qfloor_Z k). }
  rewrite Hf. cbv zeta.
  replace (#k - #k)%Qc with 0%Qc by ring.
  rewrite decide_True; [done|]. by_eval.
Qed.

Lemma py_round_idem x n : py_round (py_round x n) n = py_round x n.
Proof.
  unfold py_round, Qcdiv.
  assert (E : forall k, (#k * / pow10 n * pow10 n)%Qc = #k).
  { intros k.
    rewrite <- Qcmult_assoc, (Qcmult_comm (/ pow10 n)), Qcmult_inv_r, Qcmult_1_r; [done|].
    intros E. pose proof (pow10_pos n) as H. rewrite E in H. by apply Qclt_not_eq in H. }
  by rewrite E, round_half_even_of_Z.
Qed.

Section ReadBack.
Variable py : Builtins.

(** Hours of at most two decimals and less than a day, stored and read
    back. *)
Lemma rounded_hours_read_back x :
  (Qc_abs (py_round x 2) < #24)%Qc ->
  _read_hours_value py (VNum (_hours_to_fraction (py_round x 2))) = Ok (py_round x 2).
Proof.
  intros H. unfold _read_hours_value.
  rewrite decide_True by (by apply fraction_below_one).
  by rewrite fraction_to_hours_to_fraction, py_round_idem.
Qed.

(** The Soll cell that [recalculate_day] leaves behind. *)
Lemma recalc_writes_soll ws n row d cfg :
  written (recalc_writes py ws n row d cfg).1 row (3 * n + 5) =
  if is_none (cell ws row (3 * n + 5)) then
    Some (VNum (_hours_to_fraction (get_expected_hours cfg (weekday d))))
  else None.
Proof.
  unfold recalc_writes. destruct (offset_blocks py ws n row) as [first last].
  assert (Hst : written (stunden_writes row (get_travel_offset cfg) first last
                           (read_blocks py ws row n)) row (3 * n + 5) = None).
  { apply written_none.
    eapply Forall_impl; [apply (stunden_writes_cols py ws row n)|].
    simpl. intros x (b & Hb & Hc). right; left. rewrite Hc.
    unfold _stunden_col, _ein_col, DATE_COLS, BLOCK_WIDTH. lia. }
  destruct (is_none _); [|destruct (_read_hours_value _ _)]; simpl;
    rewrite ?written_app; simpl; rewrite ?Z.eqb_refl; simpl;
    repeat match goal with
    | |- context [(?a =? ?b)] =>
        destruct (Z.eqb_spec a b); [lia|]; simpl
    end; rewrite ?Hst; done.
Qed.

(** X22: A day is recalculated and then read: the record holds the total and
    the balance that were just computed, the status and the weekday of
    the row, and the expected hours the balance was taken against. *)
Theorem read_day_row_after_recalculation ws n d cfg row e blocks :
  let soll := cell ws row (3 * n + 5) in
  let out := (recalculate_day py d cfg ws).1 in
  let total := py_round (day_total py ws n row cfg) 2 in
  let balance := py_round (day_total py ws n row cfg - e) 2 in
  header_layout py ws n ->
  find_day_row ws d = Some row ->
  (if is_none soll then Ok (get_expected_hours cfg (weekday d))
   else _read_hours_value py soll) = Ok e ->
  (Qc_abs e < #24)%Qc -> (Qc_abs total < #24)%Qc -> (Qc_abs balance < #24)%Qc ->
  read_stamp_blocks py out row (range 1 (n + 1)) = Ok blocks ->
  read_day_row py out d cfg =
  Ok (Some (mkDayRow d (text_or_empty py (cell ws row 2)) blocks
                     (day_status py ws n row) (Some total)
                     (if is_none soll then py_round e 2 else e)
                     (Some balance) row)).
Proof.
  intros soll out total balance Hl Hf He Habs Htot Hbal Hblocks.
  assert (Hn : 3 <= n) by (by destruct Hl).
  destruct (recalculate_day_keeps_layout py ws n d cfg Hl) as (Hl' & _ & _ & Hfind).
  unfold read_day_row. fold out.
  unfold out at 1. rewrite Hfind, Hf. fold out.
  rewrite (count_blocks_layout py out n Hl'), Hblocks.
  rewrite (find_summary_cols_layout py out n Hl'). cbv zeta.
  assert (Hst : cell out row (3 * n + 3) = cell ws row (3 * n + 3)).
  { apply (recalculate_day_untouched py ws n d cfg row); try done.
    right; right; left. split; [|lia].
    intros b. unfold _stunden_col, _ein_col, DATE_COLS, BLOCK_WIDTH. lia. }
  assert (Hwd : cell out row 2 = cell ws row 2).
  { apply (recalculate_day_untouched py ws n d cfg row); try done. right; left; lia. }
  assert (Hg : cell out row (3 * n + 4) = VNum (_hours_to_fraction total)).
  { unfold out. rewrite (recalculate_day_cell py ws n d cfg row) by done.
    by rewrite recalc_writes_gesamt. }
  assert (Hb : cell out row (3 * n + 6) = VNum (_hours_to_fraction balance)).
  { unfold out. rewrite (recalculate_day_cell py ws n d cfg row) by done.
    rewrite recalc_writes_saldo. cbv zeta. fold soll.
    destruct (is_none soll); [by injection He as <-|]. by rewrite He. }
  assert (Hs : _read_hours_value py (cell out row (3 * n + 5)) =
               Ok (if is_none soll then py_round e 2 else e)).
  { unfold out. rewrite (recalculate_day_cell py ws n d cfg row) by done.
    rewrite recalc_writes_soll. fold soll.
    destruct (is_none soll) eqn:En; cbn [from_option id].
    - injection He as ->. unfold _read_hours_value.
      rewrite decide_True by (by apply fraction_below_one).
      by rewrite fraction_to_hours_to_fraction.
    - done. }
  rewrite Hst, Hwd, Hg, Hb, Hs.
  unfold read_optional_hours. cbn [is_none].
  unfold total, balance in *.
  by rewrite !rounded_hours_read_back by done.
Qed.

End ReadBack.

(** * The theorems at work on concrete sheets *)


Lemma break_deduction_witness :
  (#6 + #30 / #60 < cents 660)%Qc /\
  auto_break #6 #30 (cents 660) = (cents 660 - #30 / #60)%Qc /\
  ~ (#6 + #30 / #60 < cents 620)%Qc /\ (#6 < cents 620)%Qc /\
  auto_break #6 #30 (cents 620) = #6 /\
  header_layout plain office_day 3 /\
  find_day_row office_day monday = Some 2 /\
  cell (recalculate_day plain monday default_config office_day).1 2 (3 * 3 + 4)
  = VNum (_hours_to_fraction (cents 757)).
Proof.
  assert (Hhi : (#6 + #30 / #60 < cents 660)%Qc) by by_eval.
  assert (Hno : ~ (#6 + #30 / #60 < cents 620)%Qc) by by_eval.
  assert (Hlo : (#6 < cents 620)%Qc) by by_eval.
  assert (Hl : header_layout plain office_day 3) by apply header3_layout.
  assert (Hf : find_day_row office_day monday = Some 2) by by_eval.
  destruct (break_deduction_two_branch plain) as (Hpol & Hday & _).
  destruct (Hpol #6 #30 (cents 660)) as (H1 & _).
  destruct (Hpol #6 #30 (cents 620)) as (_ & H2 & _).
  repeat (split; [first [assumption | exact (H1 Hhi) | exact (H2 Hno Hlo)]|]).
  etransitivity; [exact (Hday office_day 3 monday default_config 2 Hl Hf)|]. by_eval.
Defined.

Lemma travel_offset_witness :
  header_layout plain office_day 3 /\
  find_day_row office_day monday = Some 2 /\
  entry_of plain office_day 2 1 = Some t0900 /\
  exit_of plain office_day 2 1 = Some t1700 /\
  is_first_entry plain office_day 3 2 1 /\ is_last_exit plain office_day 3 2 1 /\
  cell (recalculate_day plain monday default_config office_day).1 2 (_stunden_col 1)
  = VNum (_hours_to_fraction (py_round (py_round
      (hours_between (seconds_of_day t0900 - #(get_travel_offset default_config * 60))%Qc
                     (seconds_of_day t1700 + #(get_travel_offset default_config * 60))%Qc)
      4) 2)).
Proof.
  assert (Hl : header_layout plain office_day 3) by apply header3_layout.
  assert (Hf : find_day_row office_day monday = Some 2) by by_eval.
  assert (He : entry_of plain office_day 2 1 = Some t0900) by by_eval.
  assert (Ha : exit_of plain office_day 2 1 = Some t1700) by by_eval.
  assert (Hb : 1 <= 1 <= 3) by lia.
  assert (Hfirst : is_first_entry plain office_day 3 2 1).
  { split; [lia|]. split; [rewrite He; by eexists|]. intros j Hj. lia. }
  assert (Hlast : is_last_exit plain office_day 3 2 1).
  { split; [lia|]. split; [rewrite Ha; by eexists|]. intros j Hj.
    assert (j = 2 \/ j = 3) as [-> | ->] by lia; by_eval. }
  assert (Hst : day_status plain office_day 3 2 <> "Home") by by_eval.
  destruct (travel_offset_once plain) as (Hshift & _).
  destruct (Hshift office_day 3 monday default_config 2 1 t0900 t1700 Hl Hf Hb He Ha)
    as (se & sx & Hse & Hsx & Hcell).
  assert (se = true) as -> by (apply Hse; by split).
  assert (sx = true) as -> by (apply Hsx; by split).
  repeat (split; [assumption|]). exact Hcell.
Defined.

Lemma write_stamp_errors_witness :
  header_layout plain office_day 3 /\
  ((write_stamp plain monday t1700 "aus" false default_config office_day).2 = Err NoOpenEntry <->
   ~ exists row b, find_day_row office_day monday = Some row /\ 1 <= b <= 3 /\
                   open_block office_day row b = true) /\
  header_layout plain full_day 3 /\
  find_day_row full_day monday = Some 2 /\
  (forall b, 1 <= b <= 3 -> cell full_day 2 (_ein_col b) <> VNone) /\
  header_layout plain
    (write_stamp plain monday (mkTime 18 0 0 0) "ein" true default_config full_day).1 (3 + 1) /\
  cell (write_stamp plain monday (mkTime 18 0 0 0) "ein" true default_config full_day).1
       2 (_ein_col (3 + 1)) = VTime (mkTime 18 0 0 0) /\
  (write_stamp plain monday (mkTime 18 0 0 0) "ein" true default_config full_day).2 = Ok tt.
Proof.
  assert (Hl : header_layout plain office_day 3) by apply header3_layout.
  assert (Hl' : header_layout plain full_day 3) by apply header3_layout.
  assert (Hf : find_day_row full_day monday = Some 2) by by_eval.
  assert (Hfull : forall b, 1 <= b <= 3 -> cell full_day 2 (_ein_col b) <> VNone).
  { intros b Hb. assert (b = 1 \/ b = 2 \/ b = 3) as [-> | [-> | ->]] by lia; by_eval. }
  assert (Hsoll : _read_hours_value plain (cell full_day 2 (3 * 3 + 5)) = Ok #8) by by_eval.
  destruct (write_stamp_errors plain) as (Hout & _ & _ & Hin).
  destruct (Hin full_day 3 monday (mkTime 18 0 0 0) true default_config 2 Hl' Hf Hfull)
    as (H1 & H2 & _ & _ & H3).
  split; [exact Hl|]. split; [exact (Hout office_day 3 monday t1700 false default_config Hl)|].
  split; [exact Hl'|]. split; [exact Hf|]. split; [exact Hfull|].
  split; [exact H1|]. split; [exact H2|]. exact (H3 #8 Hsoll).
Defined.

Lemma fill_missing_days_witness :
  header_layout plain blank_day 3 /\
  fill_date plain blank_day 3 2 tuesday = Some monday /\
  (fill_missing_days plain default_config tuesday blank_day).2 = Ok tt /\
  cell (fill_missing_days plain default_config tuesday blank_day).1 2 (3 * 3 + 4)
  = VNum (_hours_to_fraction (get_expected_hours default_config (weekday monday))) /\
  cell (fill_missing_days plain default_config tuesday blank_day).1 2 (3 * 3 + 6) = VNum #0 /\
  fill_missing_days plain default_config tuesday
    (fill_missing_days plain default_config tuesday blank_day).1
  = ((fill_missing_days plain default_config tuesday blank_day).1, Ok tt).
Proof.
  assert (Hl : header_layout plain blank_day 3) by apply header3_layout.
  assert (Hd : fill_date plain blank_day 3 2 tuesday = Some monday) by by_eval.
  assert (Hr : HEADER_ROW < 2 <= max_row blank_day) by (vm_compute; split; [done|discriminate]).
  destruct (fill_missing_days_frame plain blank_day 3 default_config tuesday Hl)
    as (Hok & _ & Hfill & Hagain).
  destruct (Hfill 2 monday Hr Hd) as (H1 & _ & H2).
  exact (conj Hl (conj Hd (conj Hok (conj H1 (conj H2 Hagain))))).
Defined.

Lemma recalculate_day_idempotent_witness :
  header_layout plain office_day 3 /\
  (forall row, find_day_row office_day monday = Some row ->
               soll_settled office_day 3 row monday default_config) /\
  (recalculate_day plain monday default_config
     (recalculate_day plain monday default_config office_day).1).2
  = (recalculate_day plain monday default_config office_day).2 /\
  same_sheet
    (recalculate_day plain monday default_config
       (recalculate_day plain monday default_config office_day).1).1
    (recalculate_day plain monday default_config office_day).1.
Proof.
  assert (Hl : header_layout plain office_day 3) by apply header3_layout.
  assert (Hs : forall row, find_day_row office_day monday = Some row ->
                 soll_settled office_day 3 row monday default_config).
  { intros row _. right. cbv zeta. split; by_eval. }
  exact (conj Hl (conj Hs (recalculate_day_idempotent plain office_day 3 monday
                             default_config Hl Hs))).
Defined.

Lemma failed_clock_out_witness :
  header_layout plain office_day 3 /\
  find_day_row office_day tuesday = None /\
  exists row,
    (write_stamp plain tuesday t1700 "aus" false default_config office_day).2 = Err NoOpenEntry /\
    find_day_row (write_stamp plain tuesday t1700 "aus" false default_config office_day).1 tuesday
    = Some row /\
    max_row (write_stamp plain tuesday t1700 "aus" false default_config office_day).1
    = max_row office_day + 1 /\
    cell (write_stamp plain tuesday t1700 "aus" false default_config office_day).1 row 1
    = VStr (strftime_dmy tuesday).
Proof.
  assert (Hl : header_layout plain office_day 3) by apply header3_layout.
  assert (Hf : find_day_row office_day tuesday = None) by by_eval.
  destruct (failed_clock_out_inserts_row plain office_day 3 tuesday t1700 false
              default_config Hl Hf) as (row & H1 & H2 & H3 & H4 & _).
  split; [exact Hl|]. split; [exact Hf|]. exists row. exact (conj H1 (conj H2 (conj H3 H4))).
Defined.

Lemma recalculate_overwrites_sick_witness :
  header_layout plain office_day 3 /\
  find_day_row office_day monday = Some 2 /\
  sick_expected plain office_day 3 2 monday default_config = Ok #8 /\
  entry_of plain office_day 2 1 = Some t0900 /\
  exit_of plain office_day 2 1 = Some t1700 /\
  cell (set_day_sick plain monday default_config office_day).1 2 (3 * 3 + 6) = VNum #0 /\
  cell (recalculate_day plain monday default_config
          (set_day_sick plain monday default_config office_day).1).1 2 (3 * 3 + 3)
  = VStr "Krank" /\
  cell (recalculate_day plain monday default_config
          (set_day_sick plain monday default_config office_day).1).1 2 (3 * 3 + 6)
  = VNum (_hours_to_fraction (cents (-43))).
Proof.
  assert (Hl : header_layout plain office_day 3) by apply header3_layout.
  assert (Hf : find_day_row office_day monday = Some 2) by by_eval.
  assert (Hx : sick_expected plain office_day 3 2 monday default_config = Ok #8) by by_eval.
  assert (He : entry_of plain office_day 2 1 = Some t0900) by by_eval.
  assert (Ha : exit_of plain office_day 2 1 = Some t1700) by by_eval.
  assert (Hb : 1 <= 1 <= 3) by lia.
  destruct (recalculate_overwrites_sick plain) as (Hgen & _).
  destruct (Hgen office_day 3 monday default_config 2 #8 1 t0900 t1700 Hl Hf Hx Hb He Ha)
    as (_ & H1 & _ & _ & H2 & _ & H3).
  repeat (split; [assumption|]).
  etransitivity; [exact H3|]. by_eval.
Defined.

Lemma overtime_balance_total_witness :
  earliest_year_of plain (map_to_list tracked_from_2024).*1 = Some 2024 /\
  exists data_dir' calls,
    calculate_overtime_balance plain tracked_from_2024 carry_2023 (mkDate 2024 2 1)
    = (data_dir', calls, Ok #7) /\
    #7 = py_round (Qc_sum (carry_term plain 2024 <$> map_to_list (carry_over_balance carry_2023))
                   + tracked_balance plain (mkDate 2024 2 1) 2024 data_dir') 2.
Proof.
  assert (He : earliest_year_of plain (map_to_list tracked_from_2024).*1 = Some 2024)
    by by_eval.
  assert (Hr : (calculate_overtime_balance plain tracked_from_2024 carry_2023
                  (mkDate 2024 2 1)).2 = Ok #7) by by_eval.
  destruct (calculate_overtime_balance plain tracked_from_2024 carry_2023 (mkDate 2024 2 1))
    as [[data_dir' calls] res] eqn:Hrun.
  cbn [snd] in Hr. subst res.
  split; [exact He|]. exists data_dir', calls. split; [reflexivity|].
  destruct (overtime_balance_total plain) as (Hgen & _).
  destruct (Hgen _ _ _ _ _ _ _ He Hrun) as (_ & _ & Ht). exact Ht.
Defined.

Lemma carry_seeding_witness :
  exists dec jan,
    (calculate_overtime_balance plain two_years default_config (mkDate 2024 2 1)).1.2
    = [dec; jan] /\
    seeded default_config dec /\ follows default_config dec jan.
Proof.
  assert (Hc : (calculate_overtime_balance plain two_years default_config (mkDate 2024 2 1)).1.2
               = [mkCall 2023 12 #0 (Ok #1); mkCall 2024 1 #0 (Ok #0)]) by by_eval.
  destruct (carry_seeding plain two_years default_config (mkDate 2024 2 1)) as (Hhead & Hnext).
  eexists _, _. split; [exact Hc|]. split.
  - apply Hhead. rewrite Hc. reflexivity.
  - apply (Hnext 0%nat); rewrite Hc; reflexivity.
Defined.

(** C1, as stated, fails: December 2023 returns a cumulative balance of
    1 h, no carry-over is configured for 2024, and January 2024 is seeded
    with 0. *)
Lemma january_not_seeded_from_december :
  exists dec jan,
    (calculate_overtime_balance plain two_years default_config (mkDate 2024 2 1)).1.2
    = [dec; jan] /\
    call_year dec = 2023 /\ call_month dec = 12 /\
    call_year jan = 2024 /\ call_month jan = 1 /\
    carry_over_balance default_config !! pretty (call_year jan) = None /\
    call_result dec = Ok #1 /\
    call_carry jan = #0 /\
    call_result dec <> Ok (call_carry jan).
Proof.
  exists (mkCall 2023 12 #0 (Ok #1)), (mkCall 2024 1 #0 (Ok #0)).
  split; [by_eval|]. repeat (split; [by_eval|]). by_eval.
Qed.

(** C4, as stated, fails: with carry-over 5.0 configured for 2023, tracking
    that starts in 2023 and day balances of 2.0 h, the total is 2.0 and not
    7.0. *)
Lemma carry_of_first_year_not_added :
  carry_over_balance carry_2023 = {[ "2023" := #5 ]} /\
  earliest_year_of plain (map_to_list tracked_from_2023).*1 = Some 2023 /\
  iter_day_rows_with_data plain (month_sheet [worked_row "02.01.2023" "Mo" #10])
  = Ok [(mkDate 2023 1 2, Some #10, #8, Some #2)] /\
  (calculate_overtime_balance plain tracked_from_2023 carry_2023 (mkDate 2023 2 1)).2 = Ok #2 /\
  (calculate_overtime_balance plain tracked_from_2023 carry_2023 (mkDate 2023 2 1)).2 <> Ok #7.
Proof.
  split; [reflexivity|]. repeat (split; [by_eval|]). by_eval.
Qed.


(** C6, as stated, fails: a row before the cutoff that holds an exit and no
    entry, and no total, is filled. *)
Lemma fill_overwrites_exit_only_row :
  cell exit_only_day 2 (_aus_col 1) = VTime t1700 /\
  cell exit_only_day 2 (3 * 3 + 4) = VNone /\
  cell (fill_missing_days plain default_config tuesday exit_only_day).1 2 (3 * 3 + 4)
  = VNum (_hours_to_fraction #8) /\
  cell (fill_missing_days plain default_config tuesday exit_only_day).1 2 (3 * 3 + 6)
  = VNum #0.
Proof. repeat (split; [by_eval|]). by_eval. Qed.

(** C8, as stated, fails: on a row whose Soll cell is empty, with 7.444
    expected hours configured, the first run stores the balance 0.22 and
    the second run 0.23. *)
Lemma second_recalculation_moves_balance :
  find_day_row unsettled_day monday = Some 2 /\
  cell unsettled_day 2 (3 * 3 + 5) = VNone /\
  cell (recalculate_day plain monday odd_hours unsettled_day).1 2 (3 * 3 + 6)
  = VNum (_hours_to_fraction (cents 22)) /\
  cell (recalculate_day plain monday odd_hours
          (recalculate_day plain monday odd_hours unsettled_day).1).1 2 (3 * 3 + 6)
  = VNum (_hours_to_fraction (cents 23)) /\
  (forall b, 1 <= b <= 3 ->
     cell (recalculate_day plain monday odd_hours unsettled_day).1 2 (_ein_col b)
     = cell unsettled_day 2 (_ein_col b) /\
     cell (recalculate_day plain monday odd_hours unsettled_day).1 2 (_aus_col b)
     = cell unsettled_day 2 (_aus_col b)) /\
  ~ same_sheet
      (recalculate_day plain monday odd_hours
         (recalculate_day plain monday odd_hours unsettled_day).1).1
      (recalculate_day plain monday odd_hours unsettled_day).1.
Proof.
  assert (H1 : cell (recalculate_day plain monday odd_hours unsettled_day).1 2 (3 * 3 + 6)
               = VNum (_hours_to_fraction (cents 22))) by by_eval.
  assert (H2 : cell (recalculate_day plain monday odd_hours
                       (recalculate_day plain monday odd_hours unsettled_day).1).1 2 (3 * 3 + 6)
               = VNum (_hours_to_fraction (cents 23))) by by_eval.
  split; [by_eval|]. split; [by_eval|]. split; [exact H1|]. split; [exact H2|]. split.
  - intros b Hb. assert (b = 1 \/ b = 2 \/ b = 3) as [-> | [-> | ->]] by lia; split; by_eval.
  - intros [Hcells _]. specialize (Hcells 2 (3 * 3 + 6)). rewrite H1, H2 in Hcells.
    revert Hcells. by_eval.
Qed.

(** ** The further properties on concrete sheets *)

Lemma stored_hours_read_back_witness :
  (Qc_abs (cents 757) < #24)%Qc /\
  _read_hours_value plain (VNum (_hours_to_fraction (cents 757))) = Ok (cents 757) /\
  ~ (Qc_abs (cents 3000) < #24)%Qc /\
  _read_hours_value plain (VNum (_hours_to_fraction (cents 3000)))
  = Ok (_hours_to_fraction (cents 3000)).
Proof.
  assert (Hlt : (Qc_abs (cents 757) < #24)%Qc) by by_eval.
  assert (Hge : ~ (Qc_abs (cents 3000) < #24)%Qc) by by_eval.
  destruct (stored_hours_read_back plain 757) as [Hlo _].
  destruct (stored_hours_read_back plain 3000) as [_ Hhi].
  exact (conj Hlt (conj (Hlo Hlt) (conj Hge (Hhi Hge)))).
Defined.

Lemma hours_never_negative_witness :
  header_layout plain office_day 3 /\
  find_day_row office_day monday = Some 2 /\
  (0 <= default #6 (auto_break_threshold_hours default_config))%Qc /\
  exists total,
    cell (recalculate_day plain monday default_config office_day).1 2 (3 * 3 + 4)
    = VNum (_hours_to_fraction total) /\ (0 <= total)%Qc.
Proof.
  assert (Hl : header_layout plain office_day 3) by apply header3_layout.
  assert (Hf : find_day_row office_day monday = Some 2) by by_eval.
  assert (Ht : (0 <= default #6 (auto_break_threshold_hours default_config))%Qc) by by_eval.
  destruct (hours_never_negative plain) as (_ & Hday & _).
  exact (conj Hl (conj Hf (conj Ht (Hday office_day 3 monday default_config 2 Hl Hf Ht)))).
Defined.

Lemma recalculate_day_frame_witness :
  header_layout plain office_day 3 /\
  find_day_row office_day monday = Some 2 /\
  max_row (recalculate_day plain monday default_config office_day).1 = max_row office_day /\
  cell (recalculate_day plain monday default_config office_day).1 2 (3 * 3 + 3)
  = cell office_day 2 (3 * 3 + 3) /\
  (forall b, 1 <= b <= 3 ->
     cell (recalculate_day plain monday default_config office_day).1 2 (_ein_col b)
     = cell office_day 2 (_ein_col b) /\
     cell (recalculate_day plain monday default_config office_day).1 2 (_aus_col b)
     = cell office_day 2 (_aus_col b)).
Proof.
  assert (Hl : header_layout plain office_day 3) by apply header3_layout.
  assert (Hf : find_day_row office_day monday = Some 2) by by_eval.
  destruct (recalculate_day_frame plain office_day 3 monday default_config Hl)
    as (Hmr & _ & _ & Hrow).
  destruct (Hrow 2 Hf) as (_ & _ & _ & Hstamps & Hstatus & _).
  exact (conj Hl (conj Hf (conj Hmr (conj Hstatus Hstamps)))).
Defined.

Lemma has_open_stamp_witness :
  header_layout plain office_day 3 /\
  (has_open_stamp plain office_day monday = false <->
   (write_stamp plain monday t1700 "aus" false default_config office_day).2
   = Err NoOpenEntry).
Proof.
  assert (Hl : header_layout plain office_day 3) by apply header3_layout.
  destruct (has_open_stamp_predicts_clock_out plain office_day 3 monday t1700 false
              default_config Hl) as [_ H].
  exact (conj Hl H).
Defined.

Lemma clock_in_witness :
  header_layout plain blank_day 3 /\
  find_day_row blank_day monday = Some 2 /\
  cell blank_day 2 (_ein_col 1) = VNone /\
  cell blank_day 2 (_aus_col 1) = VNone /\
  cell (write_stamp plain monday t0900 "ein" true default_config blank_day).1 2 (_ein_col 1)
  = VTime t0900 /\
  cell (write_stamp plain monday t0900 "ein" true default_config blank_day).1 2 (3 * 3 + 3)
  = VStr "Home" /\
  has_open_stamp plain (write_stamp plain monday t0900 "ein" true default_config blank_day).1
                 monday = true.
Proof.
  assert (Hl : header_layout plain blank_day 3) by apply header3_layout.
  assert (Hf : find_day_row blank_day monday = Some 2) by by_eval.
  assert (He : cell blank_day 2 (_ein_col 1) = VNone) by by_eval.
  assert (Ha : cell blank_day 2 (_aus_col 1) = VNone) by by_eval.
  assert (Hb : 1 <= 1 <= 3) by lia.
  assert (Hbefore : forall j, 1 <= j < 1 -> cell blank_day 2 (_ein_col j) <> VNone)
    by (intros; lia).
  destruct (clock_in_takes_first_free_block plain blank_day 3 monday t0900 true
              default_config 2 1 Hl Hf Hb He Hbefore) as (H1 & H2 & _ & _ & _ & _ & H3).
  exact (conj Hl (conj Hf (conj He (conj Ha (conj H1 (conj (H2 eq_refl) (H3 Ha))))))).
Defined.

Lemma clock_in_then_clock_out_witness :
  header_layout plain office_day 3 /\
  find_day_row office_day monday = Some 2 /\
  (forall j, 1 <= j < 2 ->
     cell office_day 2 (_ein_col j) <> VNone /\ cell office_day 2 (_aus_col j) <> VNone) /\
  (forall j, 2 <= j <= 3 ->
     cell office_day 2 (_ein_col j) = VNone /\ cell office_day 2 (_aus_col j) = VNone) /\
  let mid := (write_stamp plain monday (mkTime 18 0 0 0) "ein" false default_config
                office_day).1 in
  let out := write_stamp plain monday (mkTime 19 0 0 0) "aus" false default_config mid in
  has_open_stamp plain mid monday = true /\
  out.2 <> Err NoOpenEntry /\
  cell out.1 2 (_ein_col 2) = VTime (mkTime 18 0 0 0) /\
  cell out.1 2 (_aus_col 2) = VTime (mkTime 19 0 0 0) /\
  has_open_stamp plain out.1 monday = false.
Proof.
  assert (Hl : header_layout plain office_day 3) by apply header3_layout.
  assert (Hf : find_day_row office_day monday = Some 2) by by_eval.
  assert (Hb : 1 <= 2 <= 3) by lia.
  assert (Hdone : forall j, 1 <= j < 2 ->
            cell office_day 2 (_ein_col j) <> VNone /\ cell office_day 2 (_aus_col j) <> VNone).
  { intros j Hj. assert (j = 1) as -> by lia. split; by_eval. }
  assert (Hfree : forall j, 2 <= j <= 3 ->
            cell office_day 2 (_ein_col j) = VNone /\ cell office_day 2 (_aus_col j) = VNone).
  { intros j Hj. assert (j = 2 \/ j = 3) as [-> | ->] by lia; split; by_eval. }
  exact (conj Hl (conj Hf (conj Hdone (conj Hfree
           (clock_in_then_clock_out plain office_day 3 monday (mkTime 18 0 0 0)
              (mkTime 19 0 0 0) false default_config 2 2 Hl Hf Hb Hdone Hfree))))).
Defined.

Lemma expand_blocks_witness :
  header_layout plain office_day 3 /\
  (_expand_blocks (3 + 1) office_day).2 = Ok tt /\
  header_layout plain (_expand_blocks (3 + 1) office_day).1 (3 + 1) /\
  _find_summary_cols (_expand_blocks (3 + 1) office_day).1
  = Ok (3 * 3 + 6, 3 * 3 + 7, 3 * 3 + 8, 3 * 3 + 9) /\
  (forall r c, 3 * 3 + 3 <= c ->
     cell (_expand_blocks (3 + 1) office_day).1 r (c + 3) = cell office_day r c).
Proof.
  assert (Hl : header_layout plain office_day 3) by apply header3_layout.
  destruct (expand_blocks_shifts_summary plain office_day 3 Hl)
    as (H1 & H2 & _ & H3 & _ & _ & _ & H4 & _).
  exact (conj Hl (conj H1 (conj H2 (conj H3 H4)))).
Defined.

Lemma sheet_summary_totals_witness :
  header_layout plain two_days 3 /\
  cell two_days 4 1 = VStr "Summe" /\
  (recalculate_sheet_summary plain 2023 1 #5 default_config two_days).2
  = Ok (py_round (#5 + column_total plain two_days 4 (3 * 3 + 6)) 2) /\
  column_total plain two_days 4 (3 * 3 + 6) = #3 /\
  cell (recalculate_sheet_summary plain 2023 1 #5 default_config two_days).1 6 (3 * 3 + 6)
  = VNum (_hours_to_fraction (py_round (#5 + column_total plain two_days 4 (3 * 3 + 6)) 2)).
Proof.
  assert (Hl : header_layout plain two_days 3) by apply header3_layout.
  assert (Hrow : HEADER_ROW < 4 <= max_row two_days)
    by (vm_compute; split; [done|discriminate]).
  assert (Hsum : cell two_days 4 1 = VStr "Summe") by by_eval.
  assert (Hlast : forall r, 4 < r <= max_row two_days -> cell two_days r 1 <> VStr "Summe").
  { intros r Hr. assert (Hm : max_row two_days = 6) by by_eval. rewrite Hm in Hr.
    assert (r = 5 \/ r = 6) as [-> | ->] by lia; by_eval. }
  assert (Hread : forall r c, HEADER_ROW < r < 4 -> cell two_days r 1 <> VNone ->
            3 * 3 + 4 <= c <= 3 * 3 + 6 -> readable plain (cell two_days r c)).
  { intros r c Hr _ Hc. unfold HEADER_ROW in Hr.
    assert (r = 2 \/ r = 3) as [-> | ->] by lia;
      (assert (c = 13 \/ c = 14 \/ c = 15) as [-> | [-> | ->]] by lia);
      eexists; vm_compute; reflexivity. }
  assert (Hcum : HEADER_ROW < 6 <= max_row two_days)
    by (vm_compute; split; [done|discriminate]).
  assert (Hk : cell two_days 6 1 = VStr "Kumuliert") by by_eval.
  assert (Hklast : forall j, 6 < j <= max_row two_days -> cell two_days j 1 <> VStr "Kumuliert").
  { intros j Hj. assert (Hm : max_row two_days = 6) by by_eval. lia. }
  destruct (sheet_summary_totals plain two_days 3 2023 1 #5 default_config Hl) as [_ Hgen].
  destruct (Hgen 4 Hrow Hsum Hlast Hread) as (Hout & _ & _ & Hcumcell & _).
  split; [exact Hl|]. split; [exact Hsum|]. split; [exact Hout|]. split; [by_eval|].
  exact (Hcumcell 6 Hcum Hk Hklast).
Defined.

Lemma iter_day_rows_witness :
  header_layout plain two_days 3 /\
  is_summary_label (cell two_days 4 1) = true /\
  iter_day_rows_with_data plain two_days
  = Ok [(mkDate 2023 1 2, Some #10, #8, Some #2); (mkDate 2023 1 4, Some #9, #8, Some #1)] /\
  [(mkDate 2023 1 2, Some #10, #8, Some #2); (mkDate 2023 1 4, Some #9, #8, Some #1)]
  = omap (day_row_entry plain two_days 3) (range (HEADER_ROW + 1) 4).
Proof.
  assert (Hl : header_layout plain two_days 3) by apply header3_layout.
  assert (Hk : HEADER_ROW < 4 <= max_row two_days + 1)
    by (vm_compute; split; [done|discriminate]).
  assert (Hlabel : is_summary_label (cell two_days 4 1) = true) by by_eval.
  assert (Habove : forall r, HEADER_ROW < r < 4 -> is_summary_label (cell two_days r 1) = false).
  { intros r Hr. unfold HEADER_ROW in Hr.
    assert (r = 2 \/ r = 3) as [-> | ->] by lia; by_eval. }
  assert (Hrun : iter_day_rows_with_data plain two_days
            = Ok [(mkDate 2023 1 2, Some #10, #8, Some #2);
                  (mkDate 2023 1 4, Some #9, #8, Some #1)]) by by_eval.
  exact (conj Hl (conj Hlabel (conj Hrun
           (iter_day_rows_above_summary plain two_days 3 4 _ Hl Hk (fun _ => Hlabel)
              Habove Hrun)))).
Defined.

Lemma create_month_sheet_witness :
  workdays default_config 2023 1 (range 1 (days_in_month 2023 1 + 1)) !! 0%nat = Some 2 /\
  header_layout plain (_create_month_sheet 2023 1 default_config) INITIAL_BLOCKS /\
  max_row (_create_month_sheet 2023 1 default_config)
  = HEADER_ROW + 1
    + Z.of_nat (length (workdays default_config 2023 1 (range 1 (days_in_month 2023 1 + 1))))
    + 3 /\
  cell (_create_month_sheet 2023 1 default_config) (HEADER_ROW + 1 + Z.of_nat 0) 1
  = VStr (strftime_dmy (mkDate 2023 1 2)).
Proof.
  assert (Hd : workdays default_config 2023 1 (range 1 (days_in_month 2023 1 + 1)) !! 0%nat
               = Some 2) by by_eval.
  destruct (create_month_sheet_layout plain 2023 1 default_config) as (Hl & Hmr & _ & Hrows & _).
  destruct (Hrows 0%nat 2 Hd) as (_ & _ & Hdate & _).
  exact (conj Hd (conj Hl (conj Hmr Hdate))).
Defined.

Lemma ensure_workbook_witness :
  (∅ : DataDir) !! pretty 2023 = None /\
  (ensure_workbook durations_read_back ∅ 2023 default_config).2 !! month_name 1
  = Some (_create_month_sheet 2023 1 default_config) /\
  cell (_create_month_sheet 2023 1 default_config) 2 14 = VNum (_hours_to_fraction #8) /\
  exists wb,
    (ensure_workbook durations_read_back ∅ 2023 default_config).1 !! pretty 2023 = Some wb /\
    ensure_workbook durations_read_back
      (ensure_workbook durations_read_back ∅ 2023 default_config).1 2023 default_config
    = ((ensure_workbook durations_read_back ∅ 2023 default_config).1, wb) /\
    (fun ws => cell ws 2 14) <$> wb !! month_name 1 = Some (VTimedelta #28800).
Proof.
  assert (Hnone : (∅ : DataDir) !! pretty 2023 = None) by apply lookup_empty.
  destruct (ensure_workbook_creates_once durations_read_back ∅ 2023 default_config)
    as (_ & Hnew & _ & (wb & Hwb & Hagain)).
  destruct (Hnew Hnone) as (Hsheets & _ & Hsaved).
  split; [exact Hnone|]. split; [exact (Hsheets 1 ltac:(lia))|]. split; [by_eval|].
  exists wb. split; [exact Hwb|]. split; [exact Hagain|].
  rewrite Hsaved, lookup_insert_eq in Hwb. injection Hwb as <-.
  unfold durations_read_back at 1. rewrite lookup_fmap, (Hsheets 1 ltac:(lia)).
  cbn [fmap option_fmap option_map]. f_equal. by_eval.
Defined.

Lemma overtime_balance_frame_witness :
  earliest_year_of plain (map_to_list with_notes).*1 = Some 2023 /\
  (forall y, 2023 <= y <= year (mkDate 2024 2 1) -> "notes" <> pretty y) /\
  (calculate_overtime_balance plain with_notes default_config (mkDate 2024 2 1)).1.1 !! "notes"
  = with_notes !! "notes".
Proof.
  assert (He : earliest_year_of plain (map_to_list with_notes).*1 = Some 2023) by by_eval.
  assert (Hstem : forall y, 2023 <= y <= year (mkDate 2024 2 1) -> "notes" <> pretty y).
  { intros y Hy. cbn in Hy. assert (y = 2023 \/ y = 2024) as [-> | ->] by lia; by_eval. }
  destruct (overtime_balance_touches_tracked_months_only plain with_notes default_config
              (mkDate 2024 2 1)) as (_ & Hsame & _).
  exact (conj He (conj Hstem (Hsame "notes" 2023 He Hstem))).
Defined.

Lemma insert_day_row_keeps_order_witness :
  header_layout plain two_days 3 /\
  py_strptime plain (strftime_dmy tuesday) = Some tuesday /\
  date_ordered plain two_days /\
  exists row,
    (_insert_day_row plain tuesday default_config two_days).2 = Ok row /\
    cell (_insert_day_row plain tuesday default_config two_days).1 row 1
    = VStr (strftime_dmy tuesday) /\
    date_ordered plain (_insert_day_row plain tuesday default_config two_days).1.
Proof.
  assert (Hl : header_layout plain two_days 3) by apply header3_layout.
  assert (Hown : py_strptime plain (strftime_dmy tuesday) = Some tuesday) by by_eval.
  assert (Hlabels : forall s, is_summary_label (VStr s) = true -> py_strptime plain s = None).
  { intros s Hs. cbn in Hs.
    apply orb_true_iff in Hs as [Hs|Hs]; [apply orb_true_iff in Hs as [Hs|Hs]|];
      apply bool_decide_eq_true in Hs; subst s; by_eval. }
  assert (Hm : max_row two_days = 6) by by_eval.
  assert (Hord : date_ordered plain two_days).
  { split.
    - intros r1 r2 d1 d2 H1 H12 H2 Hd1 Hd2. rewrite Hm in H2. unfold HEADER_ROW in H1.
      assert (r1 = 2 \/ r1 = 3 \/ r1 = 4 \/ r1 = 5) as Hr1 by lia.
      assert (r2 = 3 \/ r2 = 4 \/ r2 = 5 \/ r2 = 6) as Hr2 by lia.
      destruct Hr1 as [-> | [-> | [-> | ->]]];
        destruct Hr2 as [-> | [-> | [-> | ->]]]; try lia;
        vm_compute in Hd1; vm_compute in Hd2; try discriminate;
        injection Hd1 as <-; injection Hd2 as <-; by_eval.
    - intros r1 r2 H1 H12 H2 Hlab. rewrite Hm in H2. unfold HEADER_ROW in H1.
      assert (r1 = 2 \/ r1 = 3 \/ r1 = 4 \/ r1 = 5) as Hr1 by lia.
      assert (r2 = 3 \/ r2 = 4 \/ r2 = 5 \/ r2 = 6) as Hr2 by lia.
      destruct Hr1 as [-> | [-> | [-> | ->]]];
        destruct Hr2 as [-> | [-> | [-> | ->]]]; try lia;
        vm_compute in Hlab; try discriminate; by_eval. }
  destruct (insert_day_row_keeps_order plain two_days 3 tuesday default_config
              Hl Hown Hlabels Hord) as (row & H1 & _ & _ & H2 & _ & _ & H3).
  split; [exact Hl|]. split; [exact Hown|]. split; [exact Hord|].
  exists row. exact (conj H1 (conj H2 H3)).
Defined.

Lemma sheet_summary_idempotent_witness :
  header_layout plain two_days 3 /\
  cell two_days 4 1 = VStr "Summe" /\
  (recalculate_sheet_summary plain 2023 1 #5 default_config
     (recalculate_sheet_summary plain 2023 1 #5 default_config two_days).1).2
  = (recalculate_sheet_summary plain 2023 1 #5 default_config two_days).2 /\
  same_sheet
    (recalculate_sheet_summary plain 2023 1 #5 default_config
       (recalculate_sheet_summary plain 2023 1 #5 default_config two_days).1).1
    (recalculate_sheet_summary plain 2023 1 #5 default_config two_days).1.
Proof.
  assert (Hl : header_layout plain two_days 3) by apply header3_layout.
  assert (Hrow : HEADER_ROW < 4 <= max_row two_days)
    by (vm_compute; split; [done|discriminate]).
  assert (Hsum : cell two_days 4 1 = VStr "Summe") by by_eval.
  assert (Hlast : forall r, 4 < r <= max_row two_days -> cell two_days r 1 <> VStr "Summe").
  { intros r Hr. assert (Hm : max_row two_days = 6) by by_eval. rewrite Hm in Hr.
    assert (r = 5 \/ r = 6) as [-> | ->] by lia; by_eval. }
  assert (Hbelow : forall r, HEADER_ROW < r < 4 ->
            cell two_days r 1 <> VStr "Uebertrag" /\ cell two_days r 1 <> VStr "Kumuliert").
  { intros r Hr. unfold HEADER_ROW in Hr.
    assert (r = 2 \/ r = 3) as [-> | ->] by lia; split; by_eval. }
  assert (Hread : forall r c, HEADER_ROW < r < 4 -> cell two_days r 1 <> VNone ->
            3 * 3 + 4 <= c <= 3 * 3 + 6 -> readable plain (cell two_days r c)).
  { intros r c Hr _ Hc. unfold HEADER_ROW in Hr.
    assert (r = 2 \/ r = 3) as [-> | ->] by lia;
      (assert (c = 13 \/ c = 14 \/ c = 15) as [-> | [-> | ->]] by lia);
      eexists; vm_compute; reflexivity. }
  exact (conj Hl (conj Hsum
           (sheet_summary_idempotent plain two_days 3 2023 1 #5 default_config 4
              Hl Hrow Hsum Hlast Hbelow Hread))).
Defined.

Lemma overtime_periods_witness :
  earliest_year_of plain (map_to_list two_years).*1 = Some 2023 /\
  (calculate_overtime_balance plain two_years default_config (mkDate 2024 2 1)).1.2
  = [mkCall 2023 12 #0 (Ok #1); mkCall 2024 1 #0 (Ok #0)] /\
  forall c,
    c ∈ (calculate_overtime_balance plain two_years default_config (mkDate 2024 2 1)).1.2 ->
    2023 <= call_year c <= 2024 /\ 1 <= call_month c <= 12 /\
    (call_year c = 2024 -> call_month c <= 2).
Proof.
  assert (He : earliest_year_of plain (map_to_list two_years).*1 = Some 2023) by by_eval.
  pose proof (overtime_periods_chronological plain two_years default_config
                (mkDate 2024 2 1) 2023 He) as H.
  cbv zeta in H. destruct H as (Hall & _ & _).
  split; [exact He|]. split; [by_eval|].
  intros c Hc. destruct (Hall c Hc) as (Hy & Hm & Hreach & _).
  exact (conj Hy (conj Hm Hreach)).
Defined.

Lemma created_sheet_is_ordered_witness :
  (forall day_num, 1 <= day_num <= days_in_month 2023 1 ->
     py_strptime plain (strftime_dmy (mkDate 2023 1 day_num)) = Some (mkDate 2023 1 day_num)) /\
  date_ordered plain (_create_month_sheet 2023 1 default_config).
Proof.
  assert (Hown : forall day_num, 1 <= day_num <= days_in_month 2023 1 ->
            py_strptime plain (strftime_dmy (mkDate 2023 1 day_num))
            = Some (mkDate 2023 1 day_num)).
  { assert (Hall : Forall (fun day_num =>
                      py_strptime plain (strftime_dmy (mkDate 2023 1 day_num))
                      = Some (mkDate 2023 1 day_num)) (range 1 32)) by by_eval.
    intros day_num Hd. rewrite Forall_forall in Hall. apply Hall, elem_of_range.
    assert (Hm : days_in_month 2023 1 = 31) by by_eval. lia. }
  assert (Hlabels : forall s, is_summary_label (VStr s) = true -> py_strptime plain s = None).
  { intros s Hs. cbn in Hs.
    apply orb_true_iff in Hs as [Hs|Hs]; [apply orb_true_iff in Hs as [Hs|Hs]|];
      apply bool_decide_eq_true in Hs; subst s; by_eval. }
  exact (conj Hown (created_sheet_is_ordered plain 2023 1 default_config Hown Hlabels)).
Defined.

Lemma read_day_row_witness :
  header_layout plain office_day 3 /\
  find_day_row office_day monday = Some 2 /\
  read_day_row plain (recalculate_day plain monday default_config office_day).1
               monday default_config
  = Ok (Some (mkDayRow monday "Mo"
                [mkStampBlock (Some t0900) (Some t1700) (Some (cents 807))]
                "Office" (Some (cents 757)) #8 (Some (cents (-43))) 2)).
Proof.
  assert (Hl : header_layout plain office_day 3) by apply header3_layout.
  assert (Hf : find_day_row office_day monday = Some 2) by by_eval.
  pose proof (read_day_row_after_recalculation plain office_day 3 monday default_config 2 #8
                [mkStampBlock (Some t0900) (Some t1700) (Some (cents 807))]) as H.
  cbv zeta in H.
  specialize (H Hl Hf ltac:(by_eval) ltac:(by_eval) ltac:(by_eval) ltac:(by_eval)
                ltac:(by_eval)).
  split; [exact Hl|]. split; [exact Hf|].
  etransitivity; [exact H|]. by_eval.
Defined.
